(** * Thermal printer control system: a shallow embedding

    The development follows the TypeScript sources of the printer layer:
    [types.ts] and [interfaces.ts] (data model, [BasePrinter]),
    [printers/CbxPos89ePrinter.ts] (the driver), [PrinterFactory.ts],
    [PrinterRegistry.ts], [ConfigManager.ts], [PrinterService.ts] and
    [utils.ts].

    Conventions of the embedding.
    - A JavaScript string is a [string]: a sequence of code units, of which
      the embedding has those below 256.
    - A [number] that the code uses as a count, a clock reading or a port is
      a [Z].  The numbers of a configuration ([timeout], [retryAttempts]),
      which the code compares, tests for truth and writes as JSON, are a
      [Js.number]: an integer, or one of the values that JSON cannot write.
    - An optional property [p?: T] is an [option T]; [None] is [undefined].
    - A required string property is a [string]; a property that is absent at
      run time is the empty string, which every test of the sources
      ([!x], [x || d], [includes]) treats like [undefined].  The [type] of a
      configuration, which the factory also writes into its messages, is
      kept as it is: [type_] is [None] when the property is absent, and
      [type] is the string that the tests see.
    - An asynchronous method is its sequential body: the sources await every
      promise they create, one after the other.
    - A method that mutates [this] is a function from the object's state to an
      outcome and the new state; a thrown exception keeps the mutations made
      before it, as in JavaScript.
    - The native libraries (electron-pos-printer, node-thermal-printer) are an
      oracle: every call is logged in the driver's [io] log and answered from
      the history of the calls made so far.
    - Event listeners are not modelled (they are assumed not to throw); what an
      emitter emits is appended to its log.  The one thing an emitter does
      by itself is to throw when an [error] event finds no listener: whether
      it does is asked of the oracle.  Time stamps of events are left out;
      the clock reading used for a job identifier is an argument.
    - A [Map] is an association list in insertion order, which is the order
      of its iterators.
    - A JSON text is the tree it denotes; the host's tools, sockets and files
      are oracles like the native libraries.

    The embedding comes first; the vocabulary of the statements and the
    sample data follow; the properties come last. *)

From Stdlib Require Import String Ascii ZArith List Bool Lia DecimalString.
From Stdlib Require Import Decimal DecimalPos DecimalZ.
Import ListNotations.
Open Scope string_scope.
Open Scope Z_scope.

Set Implicit Arguments.

(** ** JavaScript values the sources rely on *)

Module Js.

(** [`${n}`] for an integral number. *)
Definition dec (z : Z) : string := NilZero.string_of_int (Z.to_int z).

(** [s.repeat(n)] for [n >= 0]. *)
Fixpoint repeat (s : string) (n : nat) : string :=
  match n with
  | O => ""
  | S k => s ++ repeat s k
  end.

Definition truthy_string (s : string) : bool :=
  negb (String.eqb s "").

Definition truthy_num (z : Z) : bool := negb (z =? 0).

(** [x || d] on an optional string. *)
Definition or_string (x : option string) (d : string) : string :=
  match x with
  | Some s => if truthy_string s then s else d
  | None => d
  end.

(** [x || d] on an optional number. *)
Definition or_num (x : option Z) (d : Z) : Z :=
  match x with
  | Some z => if truthy_num z then z else d
  | None => d
  end.

(** A [number] of a configuration, or what stands in its place at run
    time: an integer; [-0], [NaN] and the infinities, which pass for numbers
    and which JSON cannot write; [null], which [JSON.parse] reads where
    [JSON.stringify] wrote [NaN] or an infinity.  Fractions are left out: the
    sources compare these numbers with integers and copy them, no more. *)
Inductive number :=
| Int (z : Z)
| NegZero
| NaN
| Infinity
| NegInfinity
| Null.

(** Truthiness of [x]. *)
Definition truthy_number (x : number) : bool :=
  match x with
  | Int z => truthy_num z
  | Infinity | NegInfinity => true
  | NegZero | NaN | Null => false
  end.

(** [x < k] for an integer [k]. *)
Definition lt (x : number) (k : Z) : bool :=
  match x with
  | Int z => z <? k
  | NegZero | Null => 0 <? k
  | NaN | Infinity => false
  | NegInfinity => true
  end.

(** [x > k] for an integer [k]. *)
Definition gt (x : number) (k : Z) : bool :=
  match x with
  | Int z => z >? k
  | NegZero | Null => 0 >? k
  | NaN | NegInfinity => false
  | Infinity => true
  end.

(** [x || d] on an optional number of a configuration. *)
Definition or_number (x : option number) (d : number) : number :=
  match x with
  | Some n => if truthy_number n then n else d
  | None => d
  end.

(** [`${x}`] on a string property that may be absent. *)
Definition template (x : option string) : string :=
  match x with
  | Some s => s
  | None => "undefined"
  end.

(** [x || d] on an optional boolean. *)
Definition or_bool (x : option bool) (d : bool) : bool :=
  match x with
  | Some true => true
  | _ => d
  end.

(** Truthiness of an optional boolean. *)
Definition truthy_obool (x : option bool) : bool :=
  match x with
  | Some true => true
  | _ => false
  end.

(** Truthiness of an optional string. *)
Definition truthy_ostring (x : option string) : bool :=
  match x with
  | Some s => truthy_string s
  | None => false
  end.

End Js.

(** ** [types.ts] *)

Inductive PrinterConnectionType := USB | SERIAL | NETWORK | BLUETOOTH.

Inductive PrinterStatus :=
  IDLE | PRINTING | ERROR | OFFLINE | OUT_OF_PAPER | COVER_OPEN.

Inductive PaperSize := MM_80 | MM_78 | MM_76 | MM_58 | MM_57 | MM_44.

Inductive PrinterType := CBX_POS_89E | EPSON | STAR | GENERIC_ESC_POS.

Inductive TextAlignment := LEFT | CENTER | RIGHT.

Inductive FontStyle := NORMAL | BOLD | ITALIC | UNDERLINE.

Inductive FontSize := SMALL | NORMAL_SIZE | LARGE | EXTRA_LARGE.

(** The string value of each enumeration member. *)
Definition PrinterConnectionType_value (t : PrinterConnectionType) : string :=
  match t with
  | USB => "usb" | SERIAL => "serial" | NETWORK => "network"
  | BLUETOOTH => "bluetooth"
  end.

Definition PaperSize_value (p : PaperSize) : string :=
  match p with
  | MM_80 => "80mm" | MM_78 => "78mm" | MM_76 => "76mm"
  | MM_58 => "58mm" | MM_57 => "57mm" | MM_44 => "44mm"
  end.

Definition PrinterType_value (t : PrinterType) : string :=
  match t with
  | CBX_POS_89E => "cbx_pos_89e" | EPSON => "epson" | STAR => "star"
  | GENERIC_ESC_POS => "generic_esc_pos"
  end.

(** [Object.values(E)] for each enumeration, in declaration order. *)
Definition PrinterType_values : list string :=
  map PrinterType_value [CBX_POS_89E; EPSON; STAR; GENERIC_ESC_POS].

Definition PrinterConnectionType_values : list string :=
  map PrinterConnectionType_value [USB; SERIAL; NETWORK; BLUETOOTH].

Definition PaperSize_values : list string :=
  map PaperSize_value [MM_80; MM_78; MM_76; MM_58; MM_57; MM_44].

(** [xs.includes(x)] on strings. *)
Definition includes (xs : list string) (x : string) : bool :=
  existsb (String.eqb x) xs.

(** [PrinterConfig].  The enumerated fields hold the run-time string: the
    validators test membership, so a value outside the enumeration can be
    there. *)
Record PrinterConfig := mkConfig {
  id : string;
  name : string;
  type_ : option string;
  connectionType : string;
  connectionString : string;
  paperSize : string;
  characterSet : option string;
  timeout : option Js.number;
  retryAttempts : option Js.number;
  isDefault : option bool
}.

(** [config.type] where the code tests it or looks it up. *)
Definition type (c : PrinterConfig) : string :=
  match type_ c with
  | Some t => t
  | None => ""
  end.

(** A configuration that has its [type]. *)
Definition mkPrinterConfig (id name type connectionType connectionString
    paperSize : string) (characterSet : option string)
    (timeout retryAttempts : option Js.number) (isDefault : option bool)
  : PrinterConfig :=
  mkConfig id name (Some type) connectionType connectionString paperSize
    characterSet timeout retryAttempts isDefault.

(** [Partial<PrinterConfig>]: [None] is a key that the object does not have. *)
Record PartialPrinterConfig := mkPartialPrinterConfig {
  p_id : option string;
  p_name : option string;
  p_type : option string;
  p_connectionType : option string;
  p_connectionString : option string;
  p_paperSize : option string;
  p_characterSet : option string;
  p_timeout : option Js.number;
  p_retryAttempts : option Js.number;
  p_isDefault : option bool
}.

(** The empty object [{}]. *)
Definition no_options : PartialPrinterConfig :=
  mkPartialPrinterConfig None None None None None None None None None None.

Record PrintJobConfig := mkPrintJobConfig {
  copies : option Z;
  job_timeout : option Z;
  priority : option string;
  retryOnError : option bool;
  paperCut : option bool;
  openCashDrawer : option bool
}.

(** The default argument [config = {}] of [print]. *)
Definition no_job_config : PrintJobConfig :=
  mkPrintJobConfig None None None None None None.

Record TextFormat := mkTextFormat {
  alignment : option TextAlignment;
  style : option FontStyle;
  size : option FontSize
}.

Inductive BarcodeFormat := CODE128 | CODE39 | EAN13 | EAN8 | UPC_A | UPC_E.

Inductive QRLevel := QR_L | QR_M | QR_Q | QR_H.

(** The union [PrintContent]. *)
Inductive PrintContent :=
| PrintText (content : string) (format : option TextFormat)
| PrintBarcode (data : string) (format : BarcodeFormat)
    (width height : option Z) (includeText : option bool)
| PrintQRCode (data : string) (size : option Z) (errorLevel : option QRLevel)
| PrintImage (path : string) (width height : option Z)
    (alignment : option TextAlignment)
| PrintLine (character : option string) (length : option Z)
| PrintFeed (lines : Z)
| PrintCut (partial : option bool).

Inductive PrinterErrorCode :=
| CONNECTION_FAILED | PRINTER_OFFLINE | ERR_OUT_OF_PAPER | ERR_COVER_OPEN
| PAPER_JAM | OVERHEAT | LOW_VOLTAGE | COMMAND_ERROR | TIMEOUT
| INVALID_CONFIG | PRINTER_NOT_FOUND | UNSUPPORTED_OPERATION.

(** What a [throw] carries: an [Error] of the platform, a [PrinterError], or
    a value that is not an [Error] (given by its [String(v)]). *)
#[warnings="-register-all"]
Inductive Exn :=
| JsError (name message : string)
| JsThrown (rendered : string)
| PrinterError (message : string) (code : PrinterErrorCode)
    (printerId : option string) (cause : option Exn).

(** [error instanceof Error ? error.message : String(error)] *)
Definition errorMessage (error : Exn) : string :=
  match error with
  | JsError _ m => m
  | JsThrown s => s
  | PrinterError m _ _ _ => m
  end.

(** [error instanceof Error ? error : new Error(String(error))] *)
Definition asError (error : Exn) : Exn :=
  match error with
  | JsThrown s => JsError "Error" s
  | _ => error
  end.

(** [`${error.message}`], without the [instanceof] test. *)
Definition dotMessage (error : Exn) : string :=
  match error with
  | JsError _ m => m
  | JsThrown _ => "undefined"
  | PrinterError m _ _ _ => m
  end.

Definition code_of (error : Exn) : option PrinterErrorCode :=
  match error with
  | PrinterError _ c _ _ => Some c
  | _ => None
  end.

Inductive PrinterEventType :=
| STATUS_CHANGED | JOB_STARTED | JOB_COMPLETED | JOB_FAILED
| CONNECTION_LOST | CONNECTION_RESTORED | ERROR_EVENT.

(** The [data] of an event, one shape per call of [emitEvent]. *)
Inductive EventData :=
| NoData
| StatusData (oldStatus newStatus : PrinterStatus)
| JobData (jobId : string)
| JobFailedData (jobId error : string)
| ErrorData (error : Exn).

Record PrinterEvent := mkPrinterEvent {
  ev_type : PrinterEventType;
  ev_printerId : string;
  ev_data : EventData
}.

Record PrinterDiscoveryResult := mkDiscovery {
  dr_id : string;
  dr_name : string;
  dr_type : PrinterType;
  dr_connectionType : PrinterConnectionType;
  dr_connectionString : string;
  dr_isAvailable : bool
}.

(** [PrinterInfo], without the optional readings that no code fills in. *)
Record PrinterInfo := mkPrinterInfo {
  info_id : string;
  info_name : string;
  info_type : string;
  info_status : PrinterStatus;
  info_isConnected : bool
}.

(** ** Outcomes and the state-and-exception monad *)

Inductive outcome (A : Type) :=
| Returned (a : A)
| Threw (e : Exn).

Arguments Returned {A} a.
Arguments Threw {A} e.

Definition M (S A : Type) : Type := S -> outcome A * S.

Definition ret {S A} (a : A) : M S A := fun s => (Returned a, s).

Definition throw {S A} (e : Exn) : M S A := fun s => (Threw e, s).

Definition bind {S A B} (c : M S A) (k : A -> M S B) : M S B :=
  fun s =>
    match c s with
    | (Returned a, s') => k a s'
    | (Threw e, s') => (Threw e, s')
    end.

(** [try { c } catch (error) { h error }] *)
Definition try_catch {S A} (c : M S A) (h : Exn -> M S A) : M S A :=
  fun s =>
    match c s with
    | (Returned a, s') => (Returned a, s')
    | (Threw e, s') => h e s'
    end.

Definition gets {S A} (f : S -> A) : M S A := fun s => (Returned (f s), s).

Definition modify {S} (f : S -> S) : M S unit := fun s => (Returned tt, f s).

Declare Scope monad_scope.
Delimit Scope monad_scope with monad.
Notation "x <- c ;; k" := (bind c (fun x => k))
  (at level 61, c at next level, right associativity) : monad_scope.
Notation "c ;; k" := (bind c (fun _ => k))
  (at level 61, right associativity) : monad_scope.
Open Scope monad_scope.

(** [if (b) { c }] *)
Definition when {S} (b : bool) (c : M S unit) : M S unit :=
  if b then c else ret tt.

(** [for (const x of xs) { f x }] *)
Fixpoint for_each {S A} (xs : list A) (f : A -> M S unit) : M S unit :=
  match xs with
  | [] => ret tt
  | x :: rest => f x ;; for_each rest f
  end.

(** [for (let i = 0; i < n; i++) { c }] *)
Fixpoint times {S} (n : nat) (c : M S unit) : M S unit :=
  match n with
  | O => ret tt
  | S k => c ;; times k c
  end.

(** ** The native libraries as an oracle *)

(** What is handed to electron-pos-printer. *)
Inductive PosPrintData :=
| PosText (value : string) (style : list (string * string))
    (css : option string)
| PosBarCode (value : string) (height width : Z) (displayValue : bool)
    (format : BarcodeFormat)
| PosQrCode (value : string) (size : Z) (errorCorrectionLevel : QRLevel)
| PosImage (path position : string) (width height : option Z).

Record PosPrintOptions := mkPosPrintOptions {
  preview : bool;
  margin : string;
  opt_copies : Z;
  printerName : string;
  timeOutPerLine : Js.number;
  silent : bool
}.

(** A call into electron-pos-printer or node-thermal-printer.  The last one
    is no call of a library: it is the delivery of an [error] event to the
    listeners that the application has on the printer, or on the registry
    and the service that forward its events; it throws when there is none
    (the [ERR_UNHANDLED_ERROR] of the emitter). *)
Inductive DevCall :=
| NewThermalPrinter (interface : string) (width : Z)
| IsPrinterConnected
| Clear
| Execute
| GetWidth
| Cut
| PartialCut
| OpenCashDrawer
| NewLine
| Println (text : string)
| SetTypeFontA
| SetTypeFontB
| AlignLeft
| AlignCenter
| AlignRight
| SetBold (on : bool)
| SetUnderline (on : bool)
| SetTextDoubleHeight
| SetTextQuadArea
| ThermalBarcode (data : string) (format : BarcodeFormat)
| ThermalQR (data : string) (cellSize : Z) (correction : QRLevel)
| PosPrint (data : list PosPrintData) (options : PosPrintOptions)
| ErrorListeners (error : Exn).

Inductive Value := VUndefined | VBool (b : bool) | VNum (z : Z).

Inductive Reply := Returns (v : Value) | Throws (e : Exn).

(** The oracle: the printer's identifier, the calls made so far on behalf of
    that printer, the call. *)
Definition Device : Type := string -> list DevCall -> DevCall -> Reply.

Definition truthy (v : Value) : bool :=
  match v with
  | VUndefined => false
  | VBool b => b
  | VNum z => Js.truthy_num z
  end.

(** [v || d] where a number is expected. *)
Definition num_or (v : Value) (d : Z) : Z :=
  match v with
  | VNum z => if Js.truthy_num z then z else d
  | _ => d
  end.

(** ** [BasePrinter] and [CbxPos89ePrinter] *)

Module CbxPos89ePrinter.

(** The fields of a driver object.  [forwarding] records that the registry
    has subscribed its forwarding listeners; [emitted] is what the driver
    has emitted; [io] is what it has asked of the native libraries. *)
Record Driver := mkDriver {
  drv_id : string;
  config : PrinterConfig;
  _isConnected : bool;
  _status : PrinterStatus;
  posPrinter : bool;
  thermalPrinter : bool;
  lastJobId : Z;
  forwarding : bool;
  emitted : list PrinterEvent;
  io : list DevCall
}.

Definition set_isConnected (b : bool) (d : Driver) : Driver :=
  mkDriver (drv_id d) (config d) b (_status d) (posPrinter d)
    (thermalPrinter d) (lastJobId d) (forwarding d) (emitted d) (io d).

Definition set_status (s : PrinterStatus) (d : Driver) : Driver :=
  mkDriver (drv_id d) (config d) (_isConnected d) s (posPrinter d)
    (thermalPrinter d) (lastJobId d) (forwarding d) (emitted d) (io d).

Definition set_posPrinter (b : bool) (d : Driver) : Driver :=
  mkDriver (drv_id d) (config d) (_isConnected d) (_status d) b
    (thermalPrinter d) (lastJobId d) (forwarding d) (emitted d) (io d).

Definition set_thermalPrinter (b : bool) (d : Driver) : Driver :=
  mkDriver (drv_id d) (config d) (_isConnected d) (_status d) (posPrinter d)
    b (lastJobId d) (forwarding d) (emitted d) (io d).

Definition set_lastJobId (n : Z) (d : Driver) : Driver :=
  mkDriver (drv_id d) (config d) (_isConnected d) (_status d) (posPrinter d)
    (thermalPrinter d) n (forwarding d) (emitted d) (io d).

Definition set_forwarding (b : bool) (d : Driver) : Driver :=
  mkDriver (drv_id d) (config d) (_isConnected d) (_status d) (posPrinter d)
    (thermalPrinter d) (lastJobId d) b (emitted d) (io d).

Definition push_event (e : PrinterEvent) (d : Driver) : Driver :=
  mkDriver (drv_id d) (config d) (_isConnected d) (_status d) (posPrinter d)
    (thermalPrinter d) (lastJobId d) (forwarding d) (emitted d ++ [e]) (io d).

Definition push_io (c : DevCall) (d : Driver) : Driver :=
  mkDriver (drv_id d) (config d) (_isConnected d) (_status d) (posPrinter d)
    (thermalPrinter d) (lastJobId d) (forwarding d) (emitted d) (io d ++ [c]).

Definition PrinterStatus_eqb (a b : PrinterStatus) : bool :=
  match a, b with
  | IDLE, IDLE | PRINTING, PRINTING | ERROR, ERROR | OFFLINE, OFFLINE
  | OUT_OF_PAPER, OUT_OF_PAPER | COVER_OPEN, COVER_OPEN => true
  | _, _ => false
  end.

(** *** [BasePrinter] *)

Definition isConnected (d : Driver) : bool := _isConnected d.

Definition emitEvent (t : PrinterEventType) (data : EventData)
  : M Driver unit :=
  modify (fun d => push_event (mkPrinterEvent t (drv_id d) data) d).

Definition setStatus (status : PrinterStatus) : M Driver unit :=
  fun d =>
    if negb (PrinterStatus_eqb (_status d) status) then
      let oldStatus := _status d in
      emitEvent STATUS_CHANGED (StatusData oldStatus status)
        (set_status status d)
    else (Returned tt, d).

(** [removeAllListeners()] *)
Definition removeAllListeners : M Driver unit :=
  modify (set_forwarding false).

Section WithDevice.

Variable dev : Device.

(** A call into a native library: logged, then answered. *)
Definition call (c : DevCall) : M Driver Value :=
  fun d =>
    match dev (drv_id d) (io d) c with
    | Returns v => (Returned v, push_io c d)
    | Throws e => (Threw e, push_io c d)
    end.

(** [BasePrinter.handleError]: [emit] throws when the event finds no
    listener, and [error] is thrown only when it has found one. *)
Definition handleError {A} (error : Exn) : M Driver A :=
  emitEvent ERROR_EVENT (ErrorData error) ;;
  fun d =>
    match dev (drv_id d) (io d) (ErrorListeners error) with
    | Returns _ => (Threw error, d)
    | Throws unhandled => (Threw unhandled, d)
    end.

(** *** Construction *)

Definition getPaperSizeMapping (paperSize : string) : string :=
  if includes PaperSize_values paperSize then paperSize else "80mm".

Definition getWidthFromPaperSize (paperSize : string) : Z :=
  if String.eqb paperSize "80mm" then 48
  else if String.eqb paperSize "78mm" then 46
  else if String.eqb paperSize "76mm" then 45
  else if String.eqb paperSize "58mm" then 32
  else if String.eqb paperSize "57mm" then 32
  else if String.eqb paperSize "44mm" then 24
  else 48.

Definition getInterfaceString (c : PrinterConfig) : string :=
  if String.eqb (connectionType c) "usb" then
    "printer:" ++ connectionString c
  else if String.eqb (connectionType c) "serial" then connectionString c
  else if String.eqb (connectionType c) "network" then
    "tcp://" ++ connectionString c
  else "printer:" ++ connectionString c.

Definition initializePrinters : M Driver unit :=
  try_catch
    (modify (set_posPrinter true) ;;
     c <- gets config ;;
     call (NewThermalPrinter (getInterfaceString c)
             (getWidthFromPaperSize (paperSize c))) ;;
     modify (set_thermalPrinter true))
    (fun error =>
       i <- gets drv_id ;;
       throw (PrinterError
                ("Failed to initialize CBX POS 89E printer: "
                   ++ errorMessage error)
                INVALID_CONFIG (Some i) (Some (asError error)))).

(** [new CbxPos89ePrinter(id, config)] *)
Definition new (i : string) (c : PrinterConfig) : outcome Driver :=
  match initializePrinters
          (mkDriver i c false OFFLINE false false 0 false [] []) with
  | (Returned _, d) => Returned d
  | (Threw e, _) => Threw e
  end.

(** *** Connection *)

Definition connect : M Driver unit :=
  try_catch
    (setStatus IDLE ;;
     tp <- gets thermalPrinter ;;
     when tp
       (isConnected <- call IsPrinterConnected ;;
        if negb (truthy isConnected)
        then throw (JsError "Error" "Printer not responding")
        else ret tt) ;;
     modify (set_isConnected true) ;;
     emitEvent CONNECTION_RESTORED NoData)
    (fun error =>
       modify (set_isConnected false) ;;
       setStatus OFFLINE ;;
       i <- gets drv_id ;;
       handleError
         (PrinterError
            ("Failed to connect to CBX POS 89E printer: "
               ++ errorMessage error)
            CONNECTION_FAILED (Some i) (Some (asError error)))).

Definition disconnect : M Driver unit :=
  try_catch
    (tp <- gets thermalPrinter ;;
     when tp (call Clear ;; ret tt) ;;
     modify (set_isConnected false) ;;
     setStatus OFFLINE ;;
     emitEvent CONNECTION_LOST NoData)
    (fun error =>
       i <- gets drv_id ;;
       handleError
         (PrinterError
            ("Failed to disconnect from printer: " ++ errorMessage error)
            CONNECTION_FAILED (Some i) (Some (asError error)))).

Definition getStatus : M Driver PrinterStatus :=
  connected <- gets _isConnected ;;
  if negb connected then ret OFFLINE
  else
    try_catch
      (tp <- gets thermalPrinter ;;
       gone <- (if tp then
                  isConnected <- call IsPrinterConnected ;;
                  ret (negb (truthy isConnected))
                else ret false) ;;
       if gone then setStatus OFFLINE ;; ret OFFLINE
       else
         s <- gets _status ;;
         ret (if PrinterStatus_eqb s OFFLINE then IDLE else s))
      (fun _ => setStatus ERROR ;; ret ERROR).

(** *** Translation for electron-pos-printer *)

Definition convertAlignment (a : TextAlignment) : string :=
  match a with
  | CENTER => "center"
  | RIGHT => "right"
  | LEFT => "left"
  end.

Definition convertFontSize (s : FontSize) : string :=
  match s with
  | SMALL => "10px"
  | LARGE => "16px"
  | EXTRA_LARGE => "20px"
  | NORMAL_SIZE => "12px"
  end.

(** [format.alignment || TextAlignment.LEFT] and the like, with the
    default argument [format = {}]. *)
Definition alignment_of (f : option TextFormat) : TextAlignment :=
  match f with
  | Some f' => match alignment f' with Some a => a | None => LEFT end
  | None => LEFT
  end.

Definition size_of (f : option TextFormat) : FontSize :=
  match f with
  | Some f' => match size f' with Some s => s | None => NORMAL_SIZE end
  | None => NORMAL_SIZE
  end.

(** [format.style === s] *)
Definition style_is (f : option TextFormat) (s : FontStyle) : bool :=
  match f with
  | Some f' =>
      match style f', s with
      | Some NORMAL, NORMAL | Some BOLD, BOLD | Some ITALIC, ITALIC
      | Some UNDERLINE, UNDERLINE => true
      | _, _ => false
      end
  | None => false
  end.

Definition convertTextStyle (f : option TextFormat)
  : list (string * string) :=
  [ ("fontWeight", if style_is f BOLD then "bold" else "normal");
    ("textDecoration", if style_is f UNDERLINE then "underline" else "none");
    ("fontStyle", if style_is f ITALIC then "italic" else "normal");
    ("textAlign", convertAlignment (alignment_of f));
    ("fontSize", convertFontSize (size_of f)) ].

Definition convertTextCSS (f : option TextFormat) : string :=
  let styles :=
    ((if style_is f BOLD then ["font-weight: bold"] else [])
       ++ (if style_is f UNDERLINE then ["text-decoration: underline"]
           else [])
       ++ (if style_is f ITALIC then ["font-style: italic"] else [])
       ++ [("text-align: " ++ convertAlignment (alignment_of f))%string]
       ++ [("font-size: " ++ convertFontSize (size_of f))%string])%list in
  String.concat "; " styles.

(** [lineChar.repeat(lineLength)]: a negative count is a [RangeError]. *)
Definition repeat_checked (s : string) (n : Z) : Exn + string :=
  if n <? 0 then
    inl (JsError "RangeError" ("Invalid count value: " ++ Js.dec n))
  else inr (Js.repeat s (Z.to_nat n)).

(** One turn of the loop of [printWithPosPrinter]: what the item pushes
    onto [printData]. *)
Definition posItem (c : PrinterConfig) (item : PrintContent)
  : Exn + list PosPrintData :=
  match item with
  | PrintText content format =>
      inr [PosText content (convertTextStyle format)
             (Some (convertTextCSS format))]
  | PrintLine character length =>
      let lineChar := Js.or_string character "-" in
      let lineLength :=
        Js.or_num length (getWidthFromPaperSize (paperSize c)) in
      match repeat_checked lineChar lineLength with
      | inl e => inl e
      | inr value => inr [PosText value [("textAlign", "center")] None]
      end
  | PrintFeed lines =>
      inr (List.repeat (PosText " " [("fontSize", "1px")] None)
             (Z.to_nat lines))
  | PrintBarcode data format width height includeText =>
      inr [PosBarCode data (Js.or_num height 60) (Js.or_num width 2)
             (match includeText with Some false => false | _ => true end)
             format]
  | PrintQRCode data size errorLevel =>
      inr [PosQrCode data (Js.or_num size 6)
             (match errorLevel with Some l => l | None => QR_M end)]
  | PrintImage path width height alignment =>
      inr [PosImage path
             (convertAlignment
                (match alignment with Some a => a | None => CENTER end))
             width height]
  | PrintCut _ => inr []
  end.

Fixpoint buildPrintData (c : PrinterConfig) (content : list PrintContent)
  : Exn + list PosPrintData :=
  match content with
  | [] => inr []
  | item :: rest =>
      match posItem c item with
      | inl e => inl e
      | inr pushed =>
          match buildPrintData c rest with
          | inl e => inl e
          | inr more => inr (pushed ++ more)%list
          end
      end
  end.

Definition printWithPosPrinter (content : list PrintContent)
    (jc : PrintJobConfig) : M Driver unit :=
  pp <- gets posPrinter ;;
  if negb pp then throw (JsError "Error" "PosPrinter not initialized")
  else
    c <- gets config ;;
    match buildPrintData c content with
    | inl e => throw e
    | inr printData =>
        let options :=
          mkPosPrintOptions false "0 0 0 0" (Js.or_num (copies jc) 1)
            (connectionString c) (Js.or_number (timeout c) (Js.Int 400))
            true in
        call (PosPrint printData options) ;; ret tt
    end.

(** *** Translation for node-thermal-printer *)

Definition applyTextFormatting (f : option TextFormat) : M Driver unit :=
  tp <- gets thermalPrinter ;;
  if negb tp then ret tt
  else
    call SetTypeFontA ;;
    call AlignLeft ;;
    call (match f with
          | Some f' =>
              match alignment f' with
              | Some CENTER => AlignCenter
              | Some RIGHT => AlignRight
              | _ => AlignLeft
              end
          | None => AlignLeft
          end) ;;
    when (style_is f BOLD) (call (SetBold true) ;; ret tt) ;;
    when (style_is f UNDERLINE) (call (SetUnderline true) ;; ret tt) ;;
    match f with
    | Some f' =>
        match size f' with
        | Some LARGE => call SetTextDoubleHeight ;; ret tt
        | Some EXTRA_LARGE => call SetTextQuadArea ;; ret tt
        | Some SMALL => call SetTypeFontB ;; ret tt
        | _ => ret tt
        end
    | None => ret tt
    end.

Definition thermalItem (item : PrintContent) : M Driver unit :=
  match item with
  | PrintText content format =>
      applyTextFormatting format ;;
      call (Println content) ;; ret tt
  | PrintLine character length =>
      let lineChar := Js.or_string character "-" in
      lineLength <-
        (if match length with
            | Some n => Js.truthy_num n
            | None => false
            end
         then ret (Js.or_num length 0)
         else w <- call GetWidth ;; ret (num_or w 0)) ;;
      match repeat_checked lineChar lineLength with
      | inl e => throw e
      | inr value => call (Println value) ;; ret tt
      end
  | PrintFeed lines =>
      times (Z.to_nat lines) (call NewLine ;; ret tt)
  | PrintBarcode data format _ _ _ =>
      call (ThermalBarcode data format) ;; ret tt
  | PrintQRCode data size errorLevel =>
      call (ThermalQR data (Js.or_num size 3)
              (match errorLevel with Some l => l | None => QR_M end)) ;;
      ret tt
  | PrintCut partial =>
      (if Js.truthy_obool partial then call PartialCut else call Cut) ;;
      ret tt
  | PrintImage _ _ _ _ => ret tt
  end.

Definition printWithThermalPrinter (content : list PrintContent)
    (jc : PrintJobConfig) : M Driver unit :=
  tp <- gets thermalPrinter ;;
  if negb tp then throw (JsError "Error" "ThermalPrinter not initialized")
  else
    call Clear ;;
    for_each content thermalItem ;;
    success <- call Execute ;;
    if negb (truthy success)
    then throw (JsError "Error" "Failed to execute thermal printer commands")
    else ret tt.

(** *** Hardware operations *)

Definition cutPaper (partial : bool) : M Driver unit :=
  try_catch
    (tp <- gets thermalPrinter ;;
     when tp
       ((if partial then call PartialCut else call Cut) ;;
        call Execute ;; ret tt))
    (fun error =>
       i <- gets drv_id ;;
       throw (PrinterError ("Failed to cut paper: " ++ errorMessage error)
                COMMAND_ERROR (Some i) (Some (asError error)))).

(** [openCashDrawer()]; the name without the underscore is the field of
    [PrintJobConfig]. *)
Definition openCashDrawer_ : M Driver unit :=
  try_catch
    (tp <- gets thermalPrinter ;;
     when tp (call OpenCashDrawer ;; call Execute ;; ret tt))
    (fun error =>
       i <- gets drv_id ;;
       throw (PrinterError
                ("Failed to open cash drawer: " ++ errorMessage error)
                COMMAND_ERROR (Some i) (Some (asError error)))).

Definition feedPaper (lines : Z) : M Driver unit :=
  try_catch
    (tp <- gets thermalPrinter ;;
     when tp
       (times (Z.to_nat lines) (call NewLine ;; ret tt) ;;
        call Execute ;; ret tt))
    (fun error =>
       i <- gets drv_id ;;
       throw (PrinterError ("Failed to feed paper: " ++ errorMessage error)
                COMMAND_ERROR (Some i) (Some (asError error)))).

(** *** [print] *)

(** [`cbx_${this.id}_${n}_${Date.now()}`] *)
Definition jobIdOf (i : string) (n now : Z) : string :=
  "cbx_" ++ i ++ "_" ++ Js.dec n ++ "_" ++ Js.dec now.

(** The middle of the [try] block of [print]: translation and execution,
    then the cut and the drawer. *)
Definition print_body (content : list PrintContent) (jc : PrintJobConfig)
  : M Driver unit :=
  pp <- gets posPrinter ;;
  tp <- gets thermalPrinter ;;
  (if pp then printWithPosPrinter content jc
   else if tp then printWithThermalPrinter content jc
   else throw (JsError "Error" "No printer interface available")) ;;
  when (match paperCut jc with Some false => false | _ => true end)
    (cutPaper false) ;;
  when (Js.truthy_obool (openCashDrawer jc)) openCashDrawer_.

(** The [try] block of [print]. *)
Definition print_try (jobId : string) (content : list PrintContent)
    (jc : PrintJobConfig) : M Driver string :=
  setStatus PRINTING ;;
  emitEvent JOB_STARTED (JobData jobId) ;;
  print_body content jc ;;
  setStatus IDLE ;;
  emitEvent JOB_COMPLETED (JobData jobId) ;;
  ret jobId.

(** The [catch] block of [print]. *)
Definition print_catch (jobId : string) (error : Exn) : M Driver string :=
  setStatus ERROR ;;
  emitEvent JOB_FAILED (JobFailedData jobId (errorMessage error)) ;;
  i <- gets drv_id ;;
  throw (PrinterError ("Print job failed: " ++ errorMessage error)
           COMMAND_ERROR (Some i) (Some (asError error))).

(** [print(content, config)]; [now] is the value of [Date.now()]. *)
Definition print (now : Z) (content : list PrintContent)
    (jc : PrintJobConfig) : M Driver string :=
  modify (fun d => set_lastJobId (lastJobId d + 1) d) ;;
  n <- gets lastJobId ;;
  i <- gets drv_id ;;
  let jobId := jobIdOf i n now in
  connected <- gets _isConnected ;;
  if negb connected then
    throw (PrinterError "Printer not connected" PRINTER_OFFLINE (Some i)
             None)
  else try_catch (print_try jobId content jc) (print_catch jobId).

(** [BasePrinter.printText] *)
Definition printText (now : Z) (text : string) (jc : PrintJobConfig)
  : M Driver string :=
  print now [PrintText text None] jc.

Definition selfTest (now : Z) : M Driver bool :=
  try_catch
    (connected <- gets _isConnected ;;
     if negb connected then ret false
     else
       tp <- gets thermalPrinter ;;
       if tp then
         r <- call IsPrinterConnected ;; ret (truthy r)
       else
         printText now "TEST"
           (mkPrintJobConfig None None None None (Some false) None) ;;
         ret true)
    (fun _ => ret false).

(** [BasePrinter.dispose] *)
Definition dispose : M Driver unit :=
  connected <- gets _isConnected ;;
  when connected disconnect ;;
  removeAllListeners.

End WithDevice.

End CbxPos89ePrinter.

(** ** Strings: the methods and patterns the sources use *)

Module Str.

Definition is_digit (c : ascii) : bool :=
  let n := nat_of_ascii c in (48 <=? n)%nat && (n <=? 57)%nat.

(** White space of [\s], of [trim] and of [parseInt], among the code units
    below 256: the space, the controls from tab to carriage return, and the
    no-break space. *)
Definition is_space (c : ascii) : bool :=
  let n := nat_of_ascii c in
  (n =? 32)%nat || ((9 <=? n)%nat && (n <=? 13)%nat) || (n =? 160)%nat.

(** The lower case of a code unit below 256: the letters A-Z, and the
    accented capitals from U+00C0 to U+00DE but the multiplication sign. *)
Definition lower (c : ascii) : ascii :=
  let n := nat_of_ascii c in
  if ((65 <=? n)%nat && (n <=? 90)%nat)
     || ((192 <=? n)%nat && (n <=? 222)%nat && negb (n =? 215)%nat)
  then ascii_of_nat (n + 32) else c.

(** [s.toLowerCase()] *)
Fixpoint toLowerCase (s : string) : string :=
  match s with
  | EmptyString => EmptyString
  | String c r => String (lower c) (toLowerCase r)
  end.

Definition startsWith (s p : string) : bool := String.prefix p s.

(** [s.includes(p)] *)
Fixpoint includes (s p : string) : bool :=
  if String.prefix p s then true
  else match s with
       | EmptyString => false
       | String _ r => includes r p
       end.

(** [\d+] up to the end of the input. *)
Fixpoint all_digits (s : string) : bool :=
  match s with
  | EmptyString => true
  | String c r => is_digit c && all_digits r
  end.

Definition digits1 (s : string) : bool :=
  negb (String.eqb s "") && all_digits s.

(** [.+] up to the end of the input: no line terminator. *)
Fixpoint no_newline (s : string) : bool :=
  match s with
  | EmptyString => true
  | String c r =>
      negb (Ascii.eqb c "010"%char) && negb (Ascii.eqb c "013"%char)
      && no_newline r
  end.

(** The rest of [s] after the prefix [p], when [s] starts with [p]. *)
Fixpoint strip (p s : string) : option string :=
  match p, s with
  | EmptyString, _ => Some s
  | String a p', String b s' => if Ascii.eqb a b then strip p' s' else None
  | String _ _, EmptyString => None
  end.

(** [s.split(sep)] for a separator of one code unit. *)
Fixpoint split_aux (sep : ascii) (s : string) (cur : string) : list string :=
  match s with
  | EmptyString => [cur]
  | String c r =>
      if Ascii.eqb c sep then cur :: split_aux sep r ""
      else split_aux sep r (cur ++ String c "")
  end.

Definition split (sep : ascii) (s : string) : list string :=
  split_aux sep s "".

(** The value of a string of decimal digits, most significant first. *)
Fixpoint digits_value (acc : Z) (s : string) : Z * bool :=
  match s with
  | EmptyString => (acc, false)
  | String c r =>
      if is_digit c then
        let '(v, _) :=
          digits_value (10 * acc + Z.of_nat (nat_of_ascii c - 48)) r in
        (v, true)
      else (acc, false)
  end.

Fixpoint skip_spaces (s : string) : string :=
  match s with
  | String c r => if is_space c then skip_spaces r else s
  | EmptyString => s
  end.

(** [parseInt(s, 10)]; [None] is [NaN]. *)
Definition parseInt (s : string) : option Z :=
  let s1 := skip_spaces s in
  let '(neg, s2) :=
    match s1 with
    | String "-"%char r => (true, r)
    | String "+"%char r => (false, r)
    | _ => (false, s1)
    end in
  match digits_value 0 s2 with
  | (v, true) => Some (if neg then - v else v)
  | (_, false) => None
  end.

(** [s.trim()] *)
Fixpoint trimEnd (s : string) : string :=
  match s with
  | EmptyString => EmptyString
  | String c r =>
      match trimEnd r with
      | EmptyString => if is_space c then EmptyString else String c EmptyString
      | r' => String c r'
      end
  end.

Definition trim (s : string) : string := trimEnd (skip_spaces s).

Fixpoint endsWith_char (s : string) (c : ascii) : bool :=
  match s with
  | EmptyString => false
  | String a EmptyString => Ascii.eqb a c
  | String _ r => endsWith_char r c
  end.

(** [s.split(/\s+/)]; [in_run] tells that the code unit before was white
    space. *)
Fixpoint split_ws_aux (s cur : string) (in_run : bool) : list string :=
  match s with
  | EmptyString => [cur]
  | String c r =>
      if is_space c then
        if in_run then split_ws_aux r "" true
        else cur :: split_ws_aux r "" true
      else split_ws_aux r (cur ++ String c "") false
  end.

Definition split_ws (s : string) : list string := split_ws_aux s "" false.

(** [xs.join(sep)] *)
Definition join (sep : string) (xs : list string) : string :=
  String.concat sep xs.

(** [s.replace(/\s+/g, '_')] *)
Fixpoint replace_ws_aux (s : string) (in_run : bool) : string :=
  match s with
  | EmptyString => EmptyString
  | String c r =>
      if is_space c then
        if in_run then replace_ws_aux r true
        else String "_" (replace_ws_aux r true)
      else String c (replace_ws_aux r false)
  end.

Definition replace_ws (s : string) : string := replace_ws_aux s false.

(** [s.replace(c, '')]: the first occurrence goes. *)
Fixpoint remove_first (c : ascii) (s : string) : string :=
  match s with
  | EmptyString => EmptyString
  | String a r => if Ascii.eqb a c then r else String a (remove_first c r)
  end.

(** [s.replace(/\./g, '_')] *)
Fixpoint replace_dots (s : string) : string :=
  match s with
  | EmptyString => EmptyString
  | String a r =>
      String (if Ascii.eqb a "."%char then "_"%char else a) (replace_dots r)
  end.

(** The rest of [s] after a longest run of one or more digits. *)
Fixpoint after_digits (s : string) (seen : bool) : option string :=
  match s with
  | String c r =>
      if is_digit c then after_digits r true
      else if seen then Some s else None
  | EmptyString => if seen then Some s else None
  end.

Definition after_dot (s : string) : option string :=
  match s with
  | String "."%char r => Some r
  | _ => None
  end.

(** [/\d+\.\d+\.\d+\.\d+/] matched at the start of [s]. *)
Definition ip_here (s : string) : bool :=
  match after_digits s false with
  | Some s1 =>
      match after_dot s1 with
      | Some s2 =>
          match after_digits s2 false with
          | Some s3 =>
              match after_dot s3 with
              | Some s4 =>
                  match after_digits s4 false with
                  | Some s5 =>
                      match after_dot s5 with
                      | Some s6 =>
                          match after_digits s6 false with
                          | Some _ => true
                          | None => false
                          end
                      | None => false
                      end
                  | None => false
                  end
              | None => false
              end
          | None => false
          end
      | None => false
      end
  | None => false
  end.

(** [/\d+\.\d+\.\d+\.\d+/.test(s)] *)
Fixpoint has_ip (s : string) : bool :=
  ip_here s
  || match s with
     | EmptyString => false
     | String _ r => has_ip r
     end.

End Str.

(** ** [Map<string, V>]: an association list in insertion order *)

Module JsMap.

Section WithValues.

Variable V : Type.

Definition t : Type := list (string * V).

Fixpoint get (m : t) (k : string) : option V :=
  match m with
  | [] => None
  | (k', v) :: r => if String.eqb k k' then Some v else get r k
  end.

Definition has (m : t) (k : string) : bool :=
  match get m k with Some _ => true | None => false end.

(** [m.set(k, v)]: an existing key keeps its place, a new one goes last. *)
Fixpoint set (m : t) (k : string) (v : V) : t :=
  match m with
  | [] => [(k, v)]
  | (k', v') :: r =>
      if String.eqb k k' then (k, v) :: r else (k', v') :: set r k v
  end.

Fixpoint delete (m : t) (k : string) : t :=
  match m with
  | [] => []
  | (k', v) :: r =>
      if String.eqb k k' then r else (k', v) :: delete r k
  end.

Definition keys (m : t) : list string := map fst m.

Definition values (m : t) : list V := map snd m.

Definition size (m : t) : nat := List.length m.

(** [m.keys().next().value] *)
Definition first_key (m : t) : option string :=
  match m with
  | [] => None
  | (k, _) :: _ => Some k
  end.

End WithValues.

End JsMap.

(** ** [interfaces.ts]: the interfaces the registry and the service use *)

Module IPrinter.

(** A printer implementation over the state [P] of its objects.  [now] is
    the clock reading a job identifier is made from; [on_forward] is the
    subscription of the registry's forwarding listeners. *)
Class ops (P : Type) := {
  id : P -> string;
  config : P -> PrinterConfig;
  isConnected : P -> bool;
  connect : M P unit;
  disconnect : M P unit;
  print : Z -> list PrintContent -> PrintJobConfig -> M P string;
  printText : Z -> string -> PrintJobConfig -> M P string;
  selfTest : Z -> M P bool;
  on_forward : M P unit;
  dispose : M P unit
}.

End IPrinter.

Module IPrinterFactory.

Record t (P : Type) := mk {
  createPrinter : PrinterConfig -> outcome P;
  getSupportedTypes : list string;
  validateConfig : PrinterConfig -> bool
}.

End IPrinterFactory.

(** ** [PrinterFactory.ts] *)

Module PrinterFactory.

Definition validateUSBConnection (connectionString : string) : bool :=
  if negb (Js.truthy_string connectionString)
     || (String.length connectionString =? 0)%nat
  then false
  else (0 <? String.length connectionString)%nat
       && (String.length connectionString <? 256)%nat.

(** [/^COM\d+$/i] *)
Definition windowsPattern (s : string) : bool :=
  String.eqb (Str.toLowerCase (String.substring 0 3 s)) "com"
  && Str.digits1 (String.substring 3 (String.length s - 3) s).

(** [/^\/dev\/(tty(USB|ACM|S)\d+|cu\..+)$/] *)
Definition unixPattern (s : string) : bool :=
  match Str.strip "/dev/" s with
  | None => false
  | Some r =>
      match Str.strip "tty" r with
      | Some r1 =>
          match Str.strip "USB" r1, Str.strip "ACM" r1, Str.strip "S" r1 with
          | Some r2, _, _ | None, Some r2, _ | None, None, Some r2 =>
              Str.digits1 r2
          | None, None, None => false
          end
      | None =>
          match Str.strip "cu." r with
          | Some r1 => negb (String.eqb r1 "") && Str.no_newline r1
          | None => false
          end
      end
  end.

Definition validateSerialConnection (connectionString : string) : bool :=
  if negb (Js.truthy_string connectionString) then false
  else windowsPattern connectionString || unixPattern connectionString.

Definition validateNetworkConnection (connectionString : string) : bool :=
  if negb (Js.truthy_string connectionString) then false
  else
    match Str.split ":" connectionString with
    | [host; portStr] =>
        if negb (Js.truthy_string host) || (String.length host =? 0)%nat
        then false
        else
          match Str.parseInt portStr with
          | None => false
          | Some port =>
              if (port <? 1) || (port >? 65535) then false else true
          end
    | _ => false
    end.

(** [config.timeout && (config.timeout < lo || config.timeout > hi)] *)
Definition out_of_range (x : option Js.number) (lo hi : Z) : bool :=
  match x with
  | Some n => Js.truthy_number n && (Js.lt n lo || Js.gt n hi)
  | None => false
  end.

Definition validateBasicConfig (config : PrinterConfig) : bool :=
  if negb (Js.truthy_string (id config))
     || negb (Js.truthy_string (name config))
     || negb (Js.truthy_string (type config))
     || negb (Js.truthy_string (connectionString config))
  then false
  else if negb (includes PrinterType_values (type config)) then false
  else if negb (includes PrinterConnectionType_values
                  (connectionType config))
  then false
  else if negb (includes PaperSize_values (paperSize config)) then false
  else if out_of_range (timeout config) 0 60000 then false
  else if out_of_range (retryAttempts config) 0 10 then false
  else true.

Definition validateCbxPos89eConfig (config : PrinterConfig) : bool :=
  let supportedSizes := map PaperSize_value [MM_80; MM_58; MM_57] in
  if negb (includes supportedSizes (paperSize config)) then false
  else if String.eqb (connectionType config)
            (PrinterConnectionType_value USB)
  then validateUSBConnection (connectionString config)
  else if String.eqb (connectionType config)
            (PrinterConnectionType_value SERIAL)
  then validateSerialConnection (connectionString config)
  else if String.eqb (connectionType config)
            (PrinterConnectionType_value NETWORK)
  then validateNetworkConnection (connectionString config)
  else false.

Definition validateGenericEscPosConfig (config : PrinterConfig) : bool :=
  true.

Section WithPrinters.

Variable P : Type.

(** [new (id, config) => IPrinter] *)
Definition PrinterConstructor : Type :=
  string -> PrinterConfig -> outcome P.

(** A validator registered at run time may throw. *)
Definition Validator : Type := PrinterConfig -> outcome bool.

Record Factory := mkFactory {
  printerRegistry : JsMap.t PrinterConstructor;
  configValidators : JsMap.t Validator
}.

Definition registerPrinterType (t : string)
    (constructor : PrinterConstructor) (validator : option Validator)
    (f : Factory) : Factory :=
  mkFactory (JsMap.set (printerRegistry f) t constructor)
    (match validator with
     | Some v => JsMap.set (configValidators f) t v
     | None => configValidators f
     end).

(** [registerDefaultPrinters], for the constructor of the CBX driver. *)
Definition registerDefaultPrinters (cbx : PrinterConstructor)
    (f : Factory) : Factory :=
  registerPrinterType (PrinterType_value GENERIC_ESC_POS) cbx
    (Some (fun c => Returned (validateGenericEscPosConfig c)))
    (registerPrinterType (PrinterType_value CBX_POS_89E) cbx
       (Some (fun c => Returned (validateCbxPos89eConfig c))) f).

(** [new PrinterFactory()] *)
Definition new (cbx : PrinterConstructor) : Factory :=
  registerDefaultPrinters cbx (mkFactory [] []).

Definition validateConfig (f : Factory) (config : PrinterConfig) : bool :=
  if negb (validateBasicConfig config) then false
  else
    match JsMap.get (configValidators f) (type config) with
    | Some validator =>
        match validator config with
        | Returned ok => if negb ok then false else true
        | Threw _ => false
        end
    | None => true
    end.

Definition createPrinter (f : Factory) (config : PrinterConfig)
  : outcome P :=
  if negb (validateConfig f config) then
    Threw (PrinterError
             ("Invalid configuration for printer type: "
                ++ Js.template (type_ config))
             INVALID_CONFIG None None)
  else
    match JsMap.get (printerRegistry f) (type config) with
    | None =>
        Threw (PrinterError
                 ("Unsupported printer type: " ++ Js.template (type_ config))
                 UNSUPPORTED_OPERATION None None)
    | Some PrinterClass =>
        match PrinterClass (id config) config with
        | Returned p => Returned p
        | Threw error =>
            Threw (PrinterError
                     ("Failed to create printer instance: "
                        ++ errorMessage error)
                     INVALID_CONFIG None (Some (asError error)))
        end
    end.

Definition getSupportedTypes (f : Factory) : list string :=
  JsMap.keys (printerRegistry f).

Definition isTypeSupported (f : Factory) (t : string) : bool :=
  JsMap.has (printerRegistry f) t.

(** The factory seen through [IPrinterFactory]. *)
Definition as_interface (f : Factory) : IPrinterFactory.t P :=
  IPrinterFactory.mk (createPrinter f) (getSupportedTypes f)
    (validateConfig f).

End WithPrinters.

End PrinterFactory.

(** ** [utils.ts] *)

Module Utils.

(** [{ ...base, ...options }]: the keys of [options] win. *)
Definition spread (base : PrinterConfig) (options : PartialPrinterConfig)
  : PrinterConfig :=
  let pick {A} (o : option A) (b : A) : A :=
    match o with Some x => x | None => b end in
  let pick_opt {A} (o : option A) (b : option A) : option A :=
    match o with Some x => Some x | None => b end in
  mkConfig
    (pick (p_id options) (id base))
    (pick (p_name options) (name base))
    (pick_opt (p_type options) (type_ base))
    (pick (p_connectionType options) (connectionType base))
    (pick (p_connectionString options) (connectionString base))
    (pick (p_paperSize options) (paperSize base))
    (pick_opt (p_characterSet options) (characterSet base))
    (pick_opt (p_timeout options) (timeout base))
    (pick_opt (p_retryAttempts options) (retryAttempts base))
    (pick_opt (p_isDefault options) (isDefault base)).

(** [createCbxPos89eConfig(name, connectionString, options = {})]; [now] is
    the value of [Date.now()]. *)
Definition createCbxPos89eConfig (now : Z) (name connectionString : string)
    (options : PartialPrinterConfig) : PrinterConfig :=
  spread
    (mkPrinterConfig
       (Js.or_string (p_id options) ("cbx_" ++ Js.dec now))
       name
       (PrinterType_value CBX_POS_89E)
       (Js.or_string (p_connectionType options)
          (PrinterConnectionType_value USB))
       connectionString
       (Js.or_string (p_paperSize options) (PaperSize_value MM_80))
       (Some (Js.or_string (p_characterSet options) "UTF-8"))
       (Some (Js.or_number (p_timeout options) (Js.Int 3000)))
       (Some (Js.or_number (p_retryAttempts options) (Js.Int 3)))
       (Some (Js.or_bool (p_isDefault options) false)))
    options.

(** [validateConnectionString(connectionString, connectionType)] *)
Definition validateConnectionString (connectionString connectionType : string)
  : bool :=
  if negb (Js.truthy_string connectionString)
     || (String.length connectionString =? 0)%nat
  then false
  else if String.eqb connectionType (PrinterConnectionType_value USB) then
    (0 <? String.length connectionString)%nat
    && (String.length connectionString <? 256)%nat
  else if String.eqb connectionType (PrinterConnectionType_value SERIAL) then
    PrinterFactory.windowsPattern connectionString
    || PrinterFactory.unixPattern connectionString
  else if String.eqb connectionType (PrinterConnectionType_value NETWORK) then
    match Str.split ":" connectionString with
    | [host; portStr] =>
        (0 <? String.length host)%nat
        && match Str.parseInt portStr with
           | Some port => (port >? 0) && (port <=? 65535)
           | None => false
           end
    | _ => false
    end
  else if String.eqb connectionType (PrinterConnectionType_value BLUETOOTH)
  then
    Str.includes connectionString ":"
    || Str.includes (Str.toLowerCase connectionString) "bt"
  else false.

(** An entry of the [items] of a receipt. *)
Record ReceiptItem := mkReceiptItem {
  item_name : string;
  item_price : string;
  item_qty : option Z
}.

Record ReceiptOptions := mkReceiptOptions {
  storeName : option string;
  address : option string;
  phone : option string;
  footer : option string
}.

(** [left + ' '.repeat(Math.max(1, 48 - left.length - right.length)) + right] *)
Definition padded (left right : string) : string :=
  let padding :=
    48 - Z.of_nat (String.length left) - Z.of_nat (String.length right) in
  left ++ Js.repeat " " (Z.to_nat (Z.max 1 padding)) ++ right.

(** The line of one item of a receipt. *)
Definition itemLine (item : ReceiptItem) : string :=
  let qtyText :=
    match item_qty item with
    | Some q => if Js.truthy_num q then Js.dec q ++ "x " else ""
    | None => ""
    end in
  padded (qtyText ++ item_name item) (item_price item).

(** [createReceiptContent(title, items, total, options = {})]; [date] is
    [new Date().toLocaleString()]. *)
Definition createReceiptContent (date title : string)
    (items : list ReceiptItem) (total : string) (options : ReceiptOptions)
  : list PrintContent :=
  let centered := Some (mkTextFormat (Some CENTER) None None) in
  ((if Js.truthy_ostring (storeName options) then
      [PrintText (Js.or_string (storeName options) "")
         (Some (mkTextFormat (Some CENTER) (Some BOLD) (Some LARGE)))]
    else [])
     ++ (if Js.truthy_ostring (address options) then
           [PrintText (Js.or_string (address options) "") centered]
         else [])
     ++ (if Js.truthy_ostring (phone options) then
           [PrintText (Js.or_string (phone options) "") centered]
         else [])
     ++ [PrintLine (Some "=") (Some 48);
         PrintText title (Some (mkTextFormat (Some CENTER) (Some BOLD) None));
         PrintFeed 1]
     ++ map (fun item => PrintText (itemLine item) None) items
     ++ [PrintLine (Some "-") (Some 48);
         PrintText (padded "TOTAL:" total)
           (Some (mkTextFormat None (Some BOLD) None));
         PrintFeed 1;
         PrintText ("Date: " ++ date) centered]
     ++ (if Js.truthy_ostring (footer options) then
           [PrintFeed 1;
            PrintText (Js.or_string (footer options) "") centered]
         else [])
     ++ [PrintFeed 3; PrintCut (Some false)])%list.

End Utils.

(** ** [PrinterFactory.ts]: templates and recommendations *)

Module PrinterFactoryTemplates.

Definition set_name (n : string) (c : PrinterConfig) : PrinterConfig :=
  mkConfig (id c) n (type_ c) (connectionType c) (connectionString c)
    (paperSize c) (characterSet c) (timeout c) (retryAttempts c)
    (isDefault c).

Definition set_paperSize (p : string) (c : PrinterConfig) : PrinterConfig :=
  mkConfig (id c) (name c) (type_ c) (connectionType c)
    (connectionString c) p (characterSet c) (timeout c) (retryAttempts c)
    (isDefault c).

(** [createDefaultConfig(type, overrides = {})]; [now] is the value of
    [Date.now()]. *)
Definition createDefaultConfig (now : Z) (type : string)
    (overrides : PartialPrinterConfig) : PrinterConfig :=
  let baseConfig :=
    Utils.spread
      (mkPrinterConfig
         (Js.or_string (p_id overrides) ("printer_" ++ Js.dec now))
         (Js.or_string (p_name overrides) (type ++ " Printer"))
         type
         (PrinterConnectionType_value USB)
         ""
         (PaperSize_value MM_80)
         (Some "UTF-8") (Some (Js.Int 5000)) (Some (Js.Int 3)) (Some false))
      overrides in
  if String.eqb type (PrinterType_value CBX_POS_89E) then
    set_paperSize
      (Js.or_string (p_paperSize overrides) (PaperSize_value MM_80))
      (set_name (Js.or_string (p_name overrides) "CBX POS 89E Printer")
         baseConfig)
  else if String.eqb type (PrinterType_value GENERIC_ESC_POS) then
    set_name (Js.or_string (p_name overrides) "Generic ESC/POS Printer")
      baseConfig
  else baseConfig.

Definition detectPrinterType (connectionString : string)
  : list PrinterType :=
  ((if Str.includes (Str.toLowerCase connectionString) "cbx"
       || Str.includes (Str.toLowerCase connectionString) "pos"
       || Str.includes (Str.toLowerCase connectionString) "89e"
    then [CBX_POS_89E] else [])
     ++ [GENERIC_ESC_POS])%list.

End PrinterFactoryTemplates.

(** ** [PrinterRegistry.ts] *)

(** What the registry emits on its own behalf.  The events of the printers,
    which the forwarding listeners emit again on the registry, stay in the
    logs of the printers. *)
Inductive RegistryEvent :=
| PrinterRegistered (printerId : string) (config : PrinterConfig)
| PrinterUnregistered (printerId : string)
| DefaultPrinterChanged (printerId : string) (oldDefaultId : option string)
| PrinterConfigUpdated (printerId : string) (oldConfig newConfig : PrinterConfig).

Module PrinterRegistry.

Section WithPrinters.

Context {P : Type} {ops : IPrinter.ops P}.

(** The factory that the constructor receives; the field is never assigned
    again, so it is a parameter of the methods and not a part of the state. *)
Variable factory : IPrinterFactory.t P.

Record Registry := mkRegistry {
  printers : JsMap.t P;
  configs : JsMap.t PrinterConfig;
  defaultPrinterId : option string;
  emitted : list RegistryEvent
}.

(** [new PrinterRegistry(factory)] *)
Definition new : Registry := mkRegistry [] [] None [].

Definition set_printers (m : JsMap.t P) (r : Registry) : Registry :=
  mkRegistry m (configs r) (defaultPrinterId r) (emitted r).

Definition set_configs (m : JsMap.t PrinterConfig) (r : Registry)
  : Registry :=
  mkRegistry (printers r) m (defaultPrinterId r) (emitted r).

Definition set_defaultPrinterId (k : option string) (r : Registry)
  : Registry :=
  mkRegistry (printers r) (configs r) k (emitted r).

Definition emit (e : RegistryEvent) : M Registry unit :=
  modify (fun r =>
            mkRegistry (printers r) (configs r) (defaultPrinterId r)
              (emitted r ++ [e])).

(** A method call on the printer object that the map holds under [k]:
    the object is shared, so what the call does to it is seen in the map,
    also when the call throws. *)
Definition on_printer {A} (k : string) (p : P) (c : M P A)
  : M Registry A :=
  fun r =>
    let '(o, p') := c p in
    (o, set_printers (JsMap.set (printers r) k p') r).

(** Lifting of a factory call, which has no effect on the registry. *)
Definition lift {A} (o : outcome A) : M Registry A := fun r => (o, r).

Definition setupPrinterEventForwarding (k : string) (p : P)
  : M Registry unit :=
  on_printer k p IPrinter.on_forward.

Definition registerPrinter (config : PrinterConfig) : M Registry string :=
  try_catch
    ((if negb (IPrinterFactory.validateConfig factory config)
      then throw (PrinterError "Invalid printer configuration"
                    INVALID_CONFIG None None)
      else ret tt) ;;
     ps <- gets printers ;;
     (if JsMap.has ps (id config)
      then throw (PrinterError
                    ("Printer with ID '" ++ id config
                       ++ "' already exists")
                    INVALID_CONFIG None None)
      else ret tt) ;;
     printer <- lift (IPrinterFactory.createPrinter factory config) ;;
     modify (fun r =>
               set_printers (JsMap.set (printers r) (id config) printer)
                 r) ;;
     modify (fun r =>
               set_configs (JsMap.set (configs r) (id config) config) r) ;;
     setupPrinterEventForwarding (id config) printer ;;
     ps' <- gets printers ;;
     when (Js.truthy_obool (isDefault config)
           || (JsMap.size ps' =? 1)%nat)
       (modify (set_defaultPrinterId (Some (id config)))) ;;
     emit (PrinterRegistered (id config) config) ;;
     ret (id config))
    (fun error =>
       throw (PrinterError
                ("Failed to register printer: " ++ dotMessage error)
                INVALID_CONFIG (Some (id config)) (Some error))).

Definition unregisterPrinter (k : string) : M Registry unit :=
  ps <- gets printers ;;
  match JsMap.get ps k with
  | None =>
      throw (PrinterError ("Printer '" ++ k ++ "' not found")
               PRINTER_NOT_FOUND (Some k) None)
  | Some printer =>
      try_catch
        (on_printer k printer IPrinter.dispose ;;
         modify (fun r => set_printers (JsMap.delete (printers r) k) r) ;;
         modify (fun r => set_configs (JsMap.delete (configs r) k) r) ;;
         d <- gets defaultPrinterId ;;
         when (match d with
               | Some d' => String.eqb d' k
               | None => false
               end)
           (modify (fun r =>
                      set_defaultPrinterId
                        (if (0 <? JsMap.size (printers r))%nat
                         then JsMap.first_key (printers r)
                         else None) r)) ;;
         emit (PrinterUnregistered k))
        (fun error =>
           throw (PrinterError
                    ("Failed to unregister printer: " ++ dotMessage error)
                    CONNECTION_FAILED (Some k) (Some error)))
  end.

Definition getPrinter (r : Registry) (k : string) : option P :=
  JsMap.get (printers r) k.

Definition getAllPrinters (r : Registry) : list P :=
  JsMap.values (printers r).

Definition getAvailablePrinters (r : Registry) : list P :=
  filter IPrinter.isConnected (JsMap.values (printers r)).

Definition set_isDefault (b : bool) (c : PrinterConfig) : PrinterConfig :=
  mkConfig (id c) (name c) (type_ c) (connectionType c)
    (connectionString c) (paperSize c) (characterSet c) (timeout c)
    (retryAttempts c) (Some b).

(** [const c = this.configs.get(k); if (c) { c.isDefault = b }] *)
Definition mark_default (k : string) (b : bool) : M Registry unit :=
  modify (fun r =>
            match JsMap.get (configs r) k with
            | Some c =>
                set_configs (JsMap.set (configs r) k (set_isDefault b c)) r
            | None => r
            end).

Definition setDefaultPrinter (k : string) : M Registry unit :=
  ps <- gets printers ;;
  if negb (JsMap.has ps k) then
    throw (PrinterError ("Printer '" ++ k ++ "' not found")
             PRINTER_NOT_FOUND (Some k) None)
  else
    oldDefaultId <- gets defaultPrinterId ;;
    modify (set_defaultPrinterId (Some k)) ;;
    mark_default k true ;;
    match oldDefaultId with
    | Some old =>
        when (Js.truthy_string old && negb (String.eqb old k))
          (mark_default old false)
    | None => ret tt
    end ;;
    emit (DefaultPrinterChanged k oldDefaultId).

Definition getDefaultPrinter (r : Registry) : option P :=
  match defaultPrinterId r with
  | Some k => if Js.truthy_string k then getPrinter r k else None
  | None => None
  end.

Definition getPrinterConfig (r : Registry) (k : string)
  : option PrinterConfig :=
  JsMap.get (configs r) k.

Definition set_id (k : string) (c : PrinterConfig) : PrinterConfig :=
  mkConfig k (name c) (type_ c) (connectionType c)
    (connectionString c) (paperSize c) (characterSet c) (timeout c)
    (retryAttempts c) (isDefault c).

Definition updatePrinterConfig (k : string)
    (updates : PartialPrinterConfig) : M Registry unit :=
  cs <- gets configs ;;
  match JsMap.get cs k with
  | None =>
      throw (PrinterError ("Printer '" ++ k ++ "' not found")
               PRINTER_NOT_FOUND (Some k) None)
  | Some currentConfig =>
      let newConfig := set_id k (Utils.spread currentConfig updates) in
      if negb (IPrinterFactory.validateConfig factory newConfig) then
        throw (PrinterError "Invalid configuration update" INVALID_CONFIG
                 (Some k) None)
      else
        try_catch
          (ps <- gets printers ;;
           match JsMap.get ps k with
           | Some currentPrinter =>
               let wasConnected := IPrinter.isConnected currentPrinter in
               on_printer k currentPrinter
                 (when wasConnected IPrinter.disconnect ;;
                  IPrinter.dispose) ;;
               newPrinter <-
                 lift (IPrinterFactory.createPrinter factory newConfig) ;;
               on_printer k newPrinter
                 (IPrinter.on_forward ;;
                  when wasConnected IPrinter.connect)
           | None => ret tt
           end ;;
           modify (fun r =>
                     set_configs (JsMap.set (configs r) k newConfig) r) ;;
           emit (PrinterConfigUpdated k currentConfig newConfig))
          (fun error =>
             throw (PrinterError
                      ("Failed to update printer configuration: "
                         ++ dotMessage error)
                      INVALID_CONFIG (Some k) (Some error)))
  end.

(** [validatePrinter(id)]; [now] is the clock reading for a self-test
    that prints. *)
Definition validatePrinter (now : Z) (k : string) : M Registry bool :=
  ps <- gets printers ;;
  match JsMap.get ps k with
  | None => ret false
  | Some printer =>
      try_catch (on_printer k printer (IPrinter.selfTest now))
        (fun _ => ret false)
  end.

(** The disposal of every printer, one failure not stopping the next. *)
Fixpoint dispose_all (ks : list (string * P)) : M Registry unit :=
  match ks with
  | [] => ret tt
  | (k, p) :: rest =>
      try_catch (on_printer k p IPrinter.dispose) (fun _ => ret tt) ;;
      dispose_all rest
  end.

Definition dispose : M Registry unit :=
  ps <- gets printers ;;
  dispose_all ps ;;
  modify (fun r => mkRegistry [] [] None (emitted r)).

End WithPrinters.

Arguments Registry P : clear implicits.

End PrinterRegistry.

(** ** [ConfigManager.ts] *)

(** A JSON text is the tree it denotes: [JSON.parse] of what
    [JSON.stringify] wrote gives back the tree that was written. *)
#[warnings="-register-all"]
Inductive Json :=
| JNull
| JBool (b : bool)
| JNum (z : Z)
| JStr (s : string)
| JArr (items : list Json)
| JObj (fields : list (string * Json)).

Module ConfigManager.

(** [o[k]] on the properties of an object. *)
Fixpoint prop (fields : list (string * Json)) (k : string) : option Json :=
  match fields with
  | [] => None
  | (k', v) :: r => if String.eqb k k' then Some v else prop r k
  end.

(** What [JSON.stringify] writes for a number: [-0] is written as [0], and
    what is not finite as [null]. *)
Definition encode_number (n : Js.number) : Json :=
  match n with
  | Js.Int z => JNum z
  | Js.NegZero => JNum 0
  | Js.NaN | Js.Infinity | Js.NegInfinity | Js.Null => JNull
  end.

(** What [JSON.stringify] writes for a configuration: the properties that
    are [undefined] are left out. *)
Definition encode (c : PrinterConfig) : Json :=
  let opt {A} (k : string) (f : A -> Json) (o : option A) :=
    match o with Some x => [(k, f x)] | None => [] end in
  JObj ([ ("id", JStr (id c)); ("name", JStr (name c)) ]
          ++ opt "type" JStr (type_ c)
          ++ [ ("connectionType", JStr (connectionType c));
               ("connectionString", JStr (connectionString c));
               ("paperSize", JStr (paperSize c)) ]
          ++ opt "characterSet" JStr (characterSet c)
          ++ opt "timeout" encode_number (timeout c)
          ++ opt "retryAttempts" encode_number (retryAttempts c)
          ++ opt "isDefault" JBool (isDefault c))%list.

(** A parsed object read as a [PrinterConfig].  A property that is not
    there reads as absent, and a number that is [null] as [null].  The
    embedding takes a record at the declared types of its properties: what
    is not an object, or has a property of another type, is [None]. *)
Definition decode (j : Json) : option PrinterConfig :=
  let str (fs : list (string * Json)) (k : string) : option string :=
    match prop fs k with
    | None => Some ""
    | Some (JStr s) => Some s
    | Some _ => None
    end in
  let ostr (fs : list (string * Json)) (k : string)
    : option (option string) :=
    match prop fs k with
    | None => Some None
    | Some (JStr s) => Some (Some s)
    | Some _ => None
    end in
  let onum (fs : list (string * Json)) (k : string)
    : option (option Js.number) :=
    match prop fs k with
    | None => Some None
    | Some (JNum z) => Some (Some (Js.Int z))
    | Some JNull => Some (Some Js.Null)
    | Some _ => None
    end in
  let obool (fs : list (string * Json)) (k : string)
    : option (option bool) :=
    match prop fs k with
    | None => Some None
    | Some (JBool b) => Some (Some b)
    | Some _ => None
    end in
  match j with
  | JObj fs =>
      match str fs "id", str fs "name", ostr fs "type",
            str fs "connectionType", str fs "connectionString",
            str fs "paperSize", ostr fs "characterSet", onum fs "timeout",
            onum fs "retryAttempts", obool fs "isDefault" with
      | Some i, Some n, Some t, Some ct, Some cs, Some ps, Some ch, Some to,
        Some ra, Some df =>
          Some (mkConfig i n t ct cs ps ch to ra df)
      | _, _, _, _, _, _, _, _, _, _ => None
      end
  | _ => None
  end.

(** The state of a manager; [written] is what it has written to its file. *)
Record Store := mkStore {
  defaultConfigId : option string;
  configCache : JsMap.t PrinterConfig;
  written : list Json
}.

(** [new ConfigManager()] *)
Definition new : Store := mkStore None [] [].

Definition set_defaultConfigId (k : option string) (s : Store) : Store :=
  mkStore k (configCache s) (written s).

Definition set_configCache (m : JsMap.t PrinterConfig) (s : Store) : Store :=
  mkStore (defaultConfigId s) m (written s).

Definition set_isDefault (b : bool) (c : PrinterConfig) : PrinterConfig :=
  mkConfig (id c) (name c) (type_ c) (connectionType c)
    (connectionString c) (paperSize c) (characterSet c) (timeout c)
    (retryAttempts c) (Some b).

Definition validateConfig (config : PrinterConfig) : bool :=
  if negb (Js.truthy_string (id config))
     || negb (Js.truthy_string (name config))
     || negb (Js.truthy_string (type config))
     || negb (Js.truthy_string (connectionString config))
  then false
  else if negb (includes PrinterType_values (type config)) then false
  else if negb (includes PrinterConnectionType_values
                  (connectionType config))
  then false
  else if negb (includes PaperSize_values (paperSize config)) then false
  else if PrinterFactory.out_of_range (timeout config) 0 60000 then false
  else if PrinterFactory.out_of_range (retryAttempts config) 0 10 then false
  else true.

Definition default_json (d : option string) : Json :=
  match d with Some k => JStr k | None => JNull end.

(** [getConfigTemplate(type)]; [now] is the value of [Date.now()]. *)
Definition getConfigTemplate (now : Z) (type : string) : PrinterConfig :=
  let baseTemplate (name : string) (timeout : Z) :=
    mkPrinterConfig ("template_" ++ type ++ "_" ++ Js.dec now) name type
      (PrinterConnectionType_value USB) "" (PaperSize_value MM_80)
      (Some "UTF-8") (Some (Js.Int timeout)) (Some (Js.Int 3)) (Some false) in
  if String.eqb type (PrinterType_value CBX_POS_89E) then
    baseTemplate "CBX POS 89E Thermal Printer" 3000
  else if String.eqb type (PrinterType_value EPSON) then
    baseTemplate "Epson Thermal Printer" 4000
  else if String.eqb type (PrinterType_value STAR) then
    baseTemplate "Star Thermal Printer" 4000
  else if String.eqb type (PrinterType_value GENERIC_ESC_POS) then
    baseTemplate "Generic ESC/POS Printer" 5000
  else baseTemplate (type ++ " Printer") 5000.

Section WithFiles.

(** The file system: what [fs.writeFile] answers, what [fs.readFile]
    reads ([None] for a file that is missing or is not JSON), and the
    clock as an ISO date. *)
Variable writeFile : Json -> outcome unit.
Variable readFile : option Json.
Variable mkdir : outcome unit.
Variable isoDate : string.

(** The document that [saveConfigurationsToFile] writes. *)
Definition configData (s : Store) : Json :=
  JObj [ ("version", JStr "1.0"); ("lastUpdated", JStr isoDate);
         ("defaultConfigId", default_json (defaultConfigId s));
         ("configurations",
           JArr (map encode (JsMap.values (configCache s)))) ].

Definition saveConfigurationsToFile : M Store unit :=
  fun s =>
    (writeFile (configData s),
     mkStore (defaultConfigId s) (configCache s)
       (written s ++ [configData s])).

(** The loop of [saveConfig] that clears the flag of the other entries. *)
Definition clear_other_defaults (k : string) (m : JsMap.t PrinterConfig)
  : JsMap.t PrinterConfig :=
  map (fun '(k', existingConfig) =>
         if negb (String.eqb k' k)
            && Js.truthy_obool (isDefault existingConfig)
         then (k', set_isDefault false existingConfig)
         else (k', existingConfig)) m.

Definition saveConfig (config : PrinterConfig) : M Store unit :=
  try_catch
    ((if negb (validateConfig config)
      then throw (PrinterError "Invalid printer configuration"
                    INVALID_CONFIG (Some (id config)) None)
      else ret tt) ;;
     modify (fun s =>
               set_configCache (JsMap.set (configCache s) (id config) config)
                 s) ;;
     when (Js.truthy_obool (isDefault config))
       (modify (fun s =>
                  set_defaultConfigId (Some (id config))
                    (set_configCache
                       (clear_other_defaults (id config) (configCache s))
                       s))) ;;
     saveConfigurationsToFile)
    (fun error =>
       throw (PrinterError
                ("Failed to save printer configuration: "
                   ++ errorMessage error)
                INVALID_CONFIG (Some (id config)) (Some (asError error)))).

Definition loadConfig (s : Store) (k : string) : option PrinterConfig :=
  JsMap.get (configCache s) k.

Definition loadAllConfigs (s : Store) : list PrinterConfig :=
  JsMap.values (configCache s).

Definition deleteConfig (k : string) : M Store unit :=
  try_catch
    (c <- gets configCache ;;
     (if negb (JsMap.has c k)
      then throw (PrinterError ("Configuration '" ++ k ++ "' not found")
                    PRINTER_NOT_FOUND (Some k) None)
      else ret tt) ;;
     modify (fun s => set_configCache (JsMap.delete (configCache s) k) s) ;;
     d <- gets defaultConfigId ;;
     when (match d with Some d' => String.eqb d' k | None => false end)
       (modify (fun s =>
                  set_defaultConfigId
                    (if (0 <? JsMap.size (configCache s))%nat
                     then JsMap.first_key (configCache s)
                     else None) s)) ;;
     saveConfigurationsToFile)
    (fun error =>
       throw (PrinterError
                ("Failed to delete configuration: " ++ errorMessage error)
                INVALID_CONFIG (Some k) (Some (asError error)))).

Definition getDefaultConfig (s : Store) : option PrinterConfig :=
  match defaultConfigId s with
  | Some k =>
      if Js.truthy_string k then JsMap.get (configCache s) k else None
  | None => None
  end.

(** [const c = this.configCache.get(k); if (c) { c.isDefault = b }] *)
Definition mark_default (k : string) (b : bool) : M Store unit :=
  modify (fun s =>
            match JsMap.get (configCache s) k with
            | Some c =>
                set_configCache
                  (JsMap.set (configCache s) k (set_isDefault b c)) s
            | None => s
            end).

Definition setDefaultConfig (k : string) : M Store unit :=
  c <- gets configCache ;;
  if negb (JsMap.has c k) then
    throw (PrinterError ("Configuration '" ++ k ++ "' not found")
             PRINTER_NOT_FOUND (Some k) None)
  else
    d <- gets defaultConfigId ;;
    match d with
    | Some old =>
        when (Js.truthy_string old && negb (String.eqb old k))
          (mark_default old false)
    | None => ret tt
    end ;;
    mark_default k true ;;
    modify (set_defaultConfigId (Some k)) ;;
    saveConfigurationsToFile.

(** [exportConfigs()]: the document that is stringified. *)
Definition exportConfigs (s : Store) : Json :=
  JObj [ ("version", JStr "1.0"); ("exportDate", JStr isoDate);
         ("defaultConfigId", default_json (defaultConfigId s));
         ("configurations",
           JArr (map encode (JsMap.values (configCache s)))) ].

(** One turn of the validation loop of [importConfigs]: the record, or the
    error that the loop throws for it.  For a record that is [null],
    [validateConfig] catches the [TypeError] of [config.id] and answers
    false, and the message of the error to throw reads [config.id] again.
    A record that is no object has no [id] and is not valid. *)
Definition validate_record (j : Json) : Exn + PrinterConfig :=
  match j with
  | JNull =>
      inl (JsError "TypeError"
             "Cannot read properties of null (reading 'id')")
  | _ =>
      match decode j with
      | None => inl (JsError "Error" "Invalid configuration: unknown")
      | Some config =>
          if negb (validateConfig config) then
            inl (JsError "Error"
                   ("Invalid configuration: "
                      ++ Js.or_string (Some (id config)) "unknown"))
          else inr config
      end
  end.

(** The validation loop of [importConfigs]. *)
Fixpoint validate_all (items : list Json) : Exn + list PrinterConfig :=
  match items with
  | [] => inr []
  | j :: rest =>
      match validate_record j with
      | inl e => inl e
      | inr config =>
          match validate_all rest with
          | inl e => inl e
          | inr more => inr (config :: more)
          end
      end
  end.

(** The loop of [importConfigs] that fills the cache. *)
Definition fill (configs : list PrinterConfig) : JsMap.t PrinterConfig :=
  fold_left (fun m config => JsMap.set m (id config) config) configs [].

(** [importConfigs(data)]; [data] is what [JSON.parse] answers: the tree of
    the text, or the [SyntaxError] that it throws. *)
Definition importConfigs (data : outcome Json) : M Store unit :=
  try_catch
    (match data with
     | Threw error => throw error
     | Returned JNull =>
         throw (JsError "TypeError"
                  "Cannot read properties of null (reading 'configurations')")
     | Returned (JObj importData) =>
         match prop importData "configurations" with
         | Some (JArr configurations) =>
             match validate_all configurations with
             | inl e => throw e
             | inr configs =>
                 modify (set_configCache []) ;;
                 modify (set_configCache (fill configs)) ;;
                 c <- gets configCache ;;
                 match prop importData "defaultConfigId" with
                 | Some (JStr d) =>
                     if Js.truthy_string d && JsMap.has c d then
                       modify (set_defaultConfigId (Some d))
                     else
                       match JsMap.first_key c with
                       | Some firstKey =>
                           modify (set_defaultConfigId (Some firstKey)) ;;
                           mark_default firstKey true
                       | None => ret tt
                       end
                 | _ =>
                     match JsMap.first_key c with
                     | Some firstKey =>
                         modify (set_defaultConfigId (Some firstKey)) ;;
                         mark_default firstKey true
                     | None => ret tt
                     end
                 end ;;
                 saveConfigurationsToFile
             end
         | _ => throw (JsError "Error" "Invalid import data format")
         end
     | Returned _ => throw (JsError "Error" "Invalid import data format")
     end)
    (fun error =>
       throw (PrinterError
                ("Failed to import configurations: " ++ errorMessage error)
                INVALID_CONFIG None (Some (asError error)))).

(** [loadConfigurationsFromFile]: the records of the file are taken as
    they are; a file that cannot be used gives the empty store. *)
Definition loadConfigurationsFromFile : M Store unit :=
  fun s =>
    let empty := mkStore None [] (written s) in
    match readFile with
    | None | Some JNull => (Returned tt, empty)
    | Some (JObj configData) =>
        match prop configData "configurations" with
        | Some (JArr configurations) =>
            let decoded := map decode configurations in
            if forallb (fun o => match o with Some _ => true | None => false end)
                 decoded
            then
              let configs :=
                flat_map (fun o => match o with Some c => [c] | None => [] end)
                  decoded in
              (Returned tt,
               mkStore
                 (match prop configData "defaultConfigId" with
                  | Some (JStr d) => Some d
                  | _ => None
                  end)
                 (fill configs) (written s))
            else (Returned tt, empty)
        | _ => (Returned tt, s)
        end
    | Some _ => (Returned tt, s)
    end.

Definition initialize : M Store unit :=
  try_catch
    ((fun s => (mkdir, s)) ;; loadConfigurationsFromFile)
    (fun error =>
       throw (PrinterError "Failed to initialize configuration manager"
                INVALID_CONFIG None (Some (asError error)))).

Definition dispose : M Store unit :=
  try_catch saveConfigurationsToFile (fun _ => ret tt) ;;
  modify (fun s => mkStore None [] (written s)).

End WithFiles.

End ConfigManager.

(** ** [PrinterService.ts] *)

Inductive ServiceEvent :=
| ServiceInitialized
| ServiceShutdown
| PrinterAdded (printerId : string) (config : PrinterConfig)
| PrinterRemoved (printerId : string).

Module PrinterService.

Section WithPrinters.

Context {P : Type} {ops : IPrinter.ops P}.

(** The factory of the registry of the service. *)
Variable factory : IPrinterFactory.t P.

Variable writeFile : Json -> outcome unit.
Variable readFile : option Json.
Variable mkdir : outcome unit.
Variable isoDate : string.

Record Service := mkService {
  registry : PrinterRegistry.Registry P;
  configManager : ConfigManager.Store;
  initialized : bool;
  emitted : list ServiceEvent
}.

(** [new PrinterService(registry, configManager)] *)
Definition new (r : PrinterRegistry.Registry P) (c : ConfigManager.Store)
  : Service :=
  mkService r c false [].

Definition set_initialized (b : bool) (s : Service) : Service :=
  mkService (registry s) (configManager s) b (emitted s).

Definition emit (e : ServiceEvent) : M Service unit :=
  modify (fun s =>
            mkService (registry s) (configManager s) (initialized s)
              (emitted s ++ [e])).

(** A call on the registry object of the service. *)
Definition in_registry {A} (c : M (PrinterRegistry.Registry P) A)
  : M Service A :=
  fun s =>
    let '(o, r') := c (registry s) in
    (o, mkService r' (configManager s) (initialized s) (emitted s)).

(** A call on the configuration manager of the service. *)
Definition in_store {A} (c : M ConfigManager.Store A) : M Service A :=
  fun s =>
    let '(o, c') := c (configManager s) in
    (o, mkService (registry s) c' (initialized s) (emitted s)).

Definition ensureInitialized : M Service unit :=
  i <- gets initialized ;;
  if negb i then
    throw (PrinterError "Printer service not initialized" INVALID_CONFIG
             None None)
  else ret tt.

Definition initialize : M Service unit :=
  i <- gets initialized ;;
  if i then ret tt
  else
    try_catch
      (in_store (ConfigManager.initialize readFile mkdir) ;;
       configs <- gets (fun s => ConfigManager.loadAllConfigs
                                   (configManager s)) ;;
       for_each configs
         (fun config =>
            try_catch
              (in_registry (PrinterRegistry.registerPrinter factory config) ;;
               ret tt)
              (fun _ => ret tt)) ;;
       modify (set_initialized true) ;;
       emit ServiceInitialized)
      (fun error =>
         throw (PrinterError
                  ("Failed to initialize printer service: "
                     ++ errorMessage error)
                  INVALID_CONFIG None (Some (asError error)))).

Definition shutdown : M Service unit :=
  i <- gets initialized ;;
  if negb i then ret tt
  else
    try_catch
      (in_registry PrinterRegistry.dispose ;;
       in_store (ConfigManager.dispose writeFile isoDate) ;;
       modify (set_initialized false) ;;
       emit ServiceShutdown)
      (fun _ => ret tt).

(** [print(printerId, content, config)]; [now] is the clock reading for
    the job identifier. *)
Definition print (now : Z) (printerId : string)
    (content : list PrintContent) (jc : PrintJobConfig)
  : M Service string :=
  ensureInitialized ;;
  r <- gets registry ;;
  match PrinterRegistry.getPrinter r printerId with
  | None =>
      throw (PrinterError ("Printer '" ++ printerId ++ "' not found")
               PRINTER_NOT_FOUND (Some printerId) None)
  | Some printer =>
      in_registry
        (PrinterRegistry.on_printer printerId printer
           (when (negb (IPrinter.isConnected printer)) IPrinter.connect ;;
            IPrinter.print now content jc))
  end.

Definition printText (now : Z) (printerId text : string)
    (jc : PrintJobConfig) : M Service string :=
  print now printerId [PrintText text None] jc.

(** [quickPrint(text, printerId?)] *)
Definition quickPrint (now : Z) (text : string)
    (printerId : option string) : M Service string :=
  ensureInitialized ;;
  r <- gets registry ;;
  let target :=
    if Js.truthy_ostring printerId then
      match printerId with
      | Some k =>
          match PrinterRegistry.getPrinter r k with
          | Some p => Some (k, p)
          | None => None
          end
      | None => None
      end
    else
      match PrinterRegistry.defaultPrinterId r,
            PrinterRegistry.getDefaultPrinter r with
      | Some k, Some p => Some (k, p)
      | _, _ => None
      end in
  match target with
  | None =>
      throw (PrinterError
               (if Js.truthy_ostring printerId
                then "Printer '" ++ Js.or_string printerId "" ++ "' not found"
                else "No default printer configured")
               PRINTER_NOT_FOUND printerId None)
  | Some (k, targetPrinter) =>
      in_registry
        (PrinterRegistry.on_printer k targetPrinter
           (when (negb (IPrinter.isConnected targetPrinter))
              IPrinter.connect ;;
            IPrinter.printText now text no_job_config))
  end.

Definition addPrinter (config : PrinterConfig) : M Service string :=
  ensureInitialized ;;
  try_catch
    (in_store (ConfigManager.saveConfig writeFile isoDate config) ;;
     printerId <-
       in_registry (PrinterRegistry.registerPrinter factory config) ;;
     emit (PrinterAdded printerId config) ;;
     ret printerId)
    (fun error =>
       throw (PrinterError
                ("Failed to add printer: " ++ errorMessage error)
                INVALID_CONFIG (Some (id config)) (Some (asError error)))).

Definition removePrinter (k : string) : M Service unit :=
  ensureInitialized ;;
  try_catch
    (in_registry (PrinterRegistry.unregisterPrinter k) ;;
     in_store (ConfigManager.deleteConfig writeFile isoDate k) ;;
     emit (PrinterRemoved k))
    (fun error =>
       throw (PrinterError
                ("Failed to remove printer: " ++ errorMessage error)
                PRINTER_NOT_FOUND (Some k) (Some (asError error)))).

(** [testPrinter(id)] *)
Definition testPrinter (now : Z) (k : string) : M Service bool :=
  ensureInitialized ;;
  in_registry (PrinterRegistry.validatePrinter now k).

Definition cancelJob (jobId : string) : M Service unit :=
  throw (PrinterError "Job cancellation not implemented"
           UNSUPPORTED_OPERATION None None).

(** [listPrinters()] *)
Definition listPrinters : M Service (list PrinterInfo) :=
  ensureInitialized ;;
  r <- gets registry ;;
  ret (map (fun printer =>
              mkPrinterInfo (IPrinter.id printer)
                (name (IPrinter.config printer))
                (type (IPrinter.config printer))
                (if IPrinter.isConnected printer then IDLE else OFFLINE)
                (IPrinter.isConnected printer))
         (PrinterRegistry.getAllPrinters r)).

(** The configuration that [autoConfigurePrinter] builds. *)
Definition discoveredConfig (discoveryResult : PrinterDiscoveryResult)
  : PrinterConfig :=
  mkPrinterConfig (dr_id discoveryResult) (dr_name discoveryResult)
    (PrinterType_value (dr_type discoveryResult))
    (PrinterConnectionType_value (dr_connectionType discoveryResult))
    (dr_connectionString discoveryResult) (PaperSize_value MM_80)
    (Some "UTF-8") (Some (Js.Int 5000)) (Some (Js.Int 3)) (Some false).

Definition autoConfigurePrinter (discoveryResult : PrinterDiscoveryResult)
  : M Service string :=
  ensureInitialized ;;
  addPrinter (discoveredConfig discoveryResult).

Definition getDefaultPrinterId : M Service string :=
  r <- gets registry ;;
  match PrinterRegistry.getDefaultPrinter r with
  | None =>
      throw (PrinterError "No default printer configured" PRINTER_NOT_FOUND
               None None)
  | Some defaultPrinter => ret (IPrinter.id defaultPrinter)
  end.

(** [printHelloWorld(printerId?)]; [date] is
    [new Date().toLocaleString()]. *)
Definition printHelloWorld (now : Z) (date : string)
    (printerId : option string) : M Service string :=
  ensureInitialized ;;
  let centered := Some (mkTextFormat (Some CENTER) None None) in
  let helloWorldContent :=
    [ PrintText "================================" centered;
      PrintText "HELLO WORLD!"
        (Some (mkTextFormat (Some CENTER) (Some BOLD) None));
      PrintText "Thermal Printer Test" centered;
      PrintText "================================" centered;
      PrintFeed 1;
      PrintText ("Printed at: " ++ date) None;
      PrintText ("Printer ID: " ++ Js.or_string printerId "default") None;
      PrintFeed 2;
      PrintCut (Some false) ] in
  target <-
    (if Js.truthy_ostring printerId then ret (Js.or_string printerId "")
     else getDefaultPrinterId) ;;
  print now target helloWorldContent no_job_config.

(** [exportConfigurations()]: the document that is stringified. *)
Definition exportConfigurations : M Service Json :=
  ensureInitialized ;;
  gets (fun s => ConfigManager.exportConfigs isoDate (configManager s)).

End WithPrinters.

Arguments Service P : clear implicits.

End PrinterService.

(** ** Discovery ([PrinterRegistry.ts], second half) *)

Inductive Platform := Darwin | Win32 | OtherPlatform.

Module Discovery.

(** The host: [process.platform], what [execSync(command)] gives (the
    output, or the exception of a tool that is missing or fails), and what
    the socket probe of [checkNetworkPrinter(ip, port)] gives. *)
Record Host := mkHost {
  platform : Platform;
  execSync : string -> outcome string;
  checkNetworkPrinter : string -> Z -> outcome bool
}.

Definition isLikelyThermalPrinter (name : string) : bool :=
  let nameLower := Str.toLowerCase name in
  if Str.includes nameLower "cbx" || Str.includes nameLower "89e"
     || Str.includes nameLower "pos"
  then true
  else
    let thermalKeywords :=
      [ "thermal"; "receipt"; "pos"; "epson"; "star"; "citizen"; "zebra";
        "esc/pos"; "tm-"; "tsp"; "rp"; "ct-"; "zd"; "gk"; "gx" ] in
    existsb (fun keyword => Str.includes nameLower keyword) thermalKeywords.

Definition guessePrinterType (name : string) : PrinterType :=
  let nameLower := Str.toLowerCase name in
  if Str.includes nameLower "cbx" || Str.includes nameLower "89e"
  then CBX_POS_89E
  else if Str.includes nameLower "epson" then EPSON
  else if Str.includes nameLower "star" then STAR
  else GENERIC_ESC_POS.

Definition guessConnectionType (port : string) : PrinterConnectionType :=
  let portLower := Str.toLowerCase port in
  if Str.includes portLower "usb" || Str.includes portLower "hid" then USB
  else if Str.includes portLower "com" || Str.includes portLower "tty"
  then SERIAL
  else if Str.includes portLower "ip" || Str.has_ip port then NETWORK
  else USB.

Definition usb_result (name : string) : PrinterDiscoveryResult :=
  mkDiscovery ("usb_" ++ Str.replace_ws name) name (guessePrinterType name)
    USB name true.

(** The loop over the lines of [system_profiler]; the vendor and product
    identifiers that the source collects are not used by
    [isLikelyThermalPrinter] and are left out. *)
Fixpoint usb_darwin_lines (lines : list string) (currentDevice : string)
  : list PrinterDiscoveryResult * string :=
  match lines with
  | [] => ([], currentDevice)
  | line :: rest =>
      let trimmed := Str.trim line in
      if Str.endsWith_char trimmed ":"
         && negb (Str.includes trimmed "Product ID")
         && negb (Str.includes trimmed "Vendor ID")
      then
        let found :=
          if Js.truthy_string currentDevice
             && isLikelyThermalPrinter currentDevice
          then [usb_result currentDevice] else [] in
        let '(more, last) :=
          usb_darwin_lines rest (Str.remove_first ":" trimmed) in
        ((found ++ more)%list, last)
      else usb_darwin_lines rest currentDevice
  end.

Definition usb_darwin (output : string) : list PrinterDiscoveryResult :=
  let '(found, currentDevice) :=
    usb_darwin_lines (Str.split "010" output) "" in
  (found
     ++ (if Js.truthy_string currentDevice
            && isLikelyThermalPrinter currentDevice
         then [usb_result currentDevice] else []))%list.

(** [parts.slice(0, -1)] *)
Definition drop_last (xs : list string) : list string := removelast xs.

Definition usb_win32 (output : string) : list PrinterDiscoveryResult :=
  flat_map
    (fun line =>
       let trimmed := Str.trim line in
       if Js.truthy_string trimmed
          && negb (Str.startsWith trimmed "Name")
          && negb (Str.startsWith trimmed "----")
          && (0 <? String.length trimmed)%nat
       then
         let parts := Str.split_ws trimmed in
         let name := Str.join " " (drop_last parts) in
         if Js.truthy_string name && isLikelyThermalPrinter name
         then [usb_result name] else []
       else [])
    (Str.split "010" output).

Definition usb_linux (output : string) : list PrinterDiscoveryResult :=
  flat_map
    (fun line =>
       if isLikelyThermalPrinter line then
         let parts := Str.split " " line in
         let name := Str.join " " (skipn 6 parts) in
         if Js.truthy_string name then [usb_result name] else []
       else [])
    (Str.split "010" output).

(** [try { parse(execSync(command)) } catch (error) { log }] on a list of
    results that the parse extends. *)
Definition probe (h : Host) (command : string)
    (parse : string -> list PrinterDiscoveryResult)
  : list PrinterDiscoveryResult :=
  match execSync h command with
  | Returned output => parse output
  | Threw _ => []
  end.

Definition powershell_command : string :=
  let quote := String "034"%char EmptyString in
  "powershell " ++ quote
    ++ "Get-WmiObject -Class Win32_PnPEntity | Where-Object {$_.Name -like '*printer*' -or $_.Name -like '*CBX*' -or $_.Name -like '*POS*'} | Select-Object Name, DeviceID"
    ++ quote.

Definition discoverUSBPrinters (h : Host)
  : outcome (list PrinterDiscoveryResult) :=
  Returned
    (match platform h with
     | Darwin => probe h "system_profiler SPUSBDataType" usb_darwin
     | Win32 => probe h powershell_command usb_win32
     | OtherPlatform => probe h "lsusb" usb_linux
     end).

(** The lines of [wmic printer get name,portname] after the header. *)
Definition wmic (output : string) : list PrinterDiscoveryResult :=
  flat_map
    (fun line =>
       match Str.split_ws (Str.trim line) with
       | name :: port :: _ =>
           [mkDiscovery ("discovered_" ++ Str.replace_ws name) name
              (guessePrinterType name) (guessConnectionType port)
              name true]
       | _ => []
       end)
    (tl (Str.split "010" output)).

Definition discoverWindowsPrinters (h : Host)
  : outcome (list PrinterDiscoveryResult) :=
  Returned (probe h "wmic printer get name,portname" wmic).

(** The lines of [lpstat -p], for macOS and for Linux. *)
Definition lpstat (output : string) : list PrinterDiscoveryResult :=
  flat_map
    (fun line =>
       if Str.startsWith line "printer " then
         let name := nth 1 (Str.split " " line) "" in
         [mkDiscovery ("discovered_" ++ name) name (guessePrinterType name)
            USB name true]
       else [])
    (Str.split "010" output).

Definition discoverMacOSPrinters (h : Host)
  : outcome (list PrinterDiscoveryResult) :=
  Returned (probe h "lpstat -p" lpstat).

Definition discoverLinuxPrinters (h : Host)
  : outcome (list PrinterDiscoveryResult) :=
  Returned (probe h "lpstat -p" lpstat).

Definition commonIPs : list string :=
  [ "192.168.1.100"; "192.168.1.101"; "192.168.0.100"; "192.168.0.101" ].

Definition discoverNetworkPrinters (h : Host)
  : outcome (list PrinterDiscoveryResult) :=
  Returned
    (flat_map
       (fun ip =>
          match checkNetworkPrinter h ip 9100 with
          | Returned true =>
              [mkDiscovery ("network_" ++ Str.replace_dots ip)
                 ("Network Printer (" ++ ip ++ ")") GENERIC_ESC_POS NETWORK
                 (ip ++ ":9100") true]
          | Returned false => []
          | Threw _ => []
          end)
       commonIPs).

(** [discoverPrinters()]: the three paths in turn inside one [try]; what
    was pushed before an exception is returned. *)
Definition discoverPrinters (h : Host)
  : outcome (list PrinterDiscoveryResult) :=
  match discoverUSBPrinters h with
  | Threw _ => Returned []
  | Returned usb =>
      match (match platform h with
             | Win32 => discoverWindowsPrinters h
             | Darwin => discoverMacOSPrinters h
             | OtherPlatform => discoverLinuxPrinters h
             end) with
      | Threw _ => Returned usb
      | Returned installed =>
          match discoverNetworkPrinters h with
          | Threw _ => Returned (usb ++ installed)%list
          | Returned network => Returned (usb ++ installed ++ network)%list
          end
      end
  end.

End Discovery.

(** ** The CBX driver as an [IPrinter], and the factory that builds it *)

Definition CbxPos89ePrinter_ops (dev : Device)
  : IPrinter.ops CbxPos89ePrinter.Driver :=
  {| IPrinter.id := CbxPos89ePrinter.drv_id;
     IPrinter.config := CbxPos89ePrinter.config;
     IPrinter.isConnected := CbxPos89ePrinter.isConnected;
     IPrinter.connect := CbxPos89ePrinter.connect dev;
     IPrinter.disconnect := CbxPos89ePrinter.disconnect dev;
     IPrinter.print := CbxPos89ePrinter.print dev;
     IPrinter.printText := CbxPos89ePrinter.printText dev;
     IPrinter.selfTest := CbxPos89ePrinter.selfTest dev;
     IPrinter.on_forward := modify (CbxPos89ePrinter.set_forwarding true);
     IPrinter.dispose := CbxPos89ePrinter.dispose dev |}.

(** [new PrinterFactory()] *)
Definition defaultFactory (dev : Device)
  : PrinterFactory.Factory CbxPos89ePrinter.Driver :=
  PrinterFactory.new (CbxPos89ePrinter.new dev).

(** [new PrinterRegistry()] *)
Definition defaultRegistry : PrinterRegistry.Registry CbxPos89ePrinter.Driver :=
  PrinterRegistry.new.

(** * The vocabulary of the statements, and sample data *)

(** [d'] differs from [d] by calls appended to the [io] log only. *)
Definition only_io (d d' : CbxPos89ePrinter.Driver) : Prop :=
  exists calls,
    d' = CbxPos89ePrinter.mkDriver (CbxPos89ePrinter.drv_id d)
           (CbxPos89ePrinter.config d) (CbxPos89ePrinter._isConnected d)
           (CbxPos89ePrinter._status d) (CbxPos89ePrinter.posPrinter d)
           (CbxPos89ePrinter.thermalPrinter d) (CbxPos89ePrinter.lastJobId d)
           (CbxPos89ePrinter.forwarding d) (CbxPos89ePrinter.emitted d)
           (CbxPos89ePrinter.io d ++ calls).

(** A computation that changes the [io] log only, whatever its outcome. *)
Definition io_only {A} (c : M CbxPos89ePrinter.Driver A) : Prop :=
  forall d, only_io d (snd (c d)).

(** The events of a driver, as [emitEvent] builds them. *)
Definition status_changed (printerId : string) (oldStatus newStatus : PrinterStatus)
  : PrinterEvent :=
  mkPrinterEvent STATUS_CHANGED printerId (StatusData oldStatus newStatus).

Definition job_started (printerId jobId : string) : PrinterEvent :=
  mkPrinterEvent JOB_STARTED printerId (JobData jobId).

Definition job_completed (printerId jobId : string) : PrinterEvent :=
  mkPrinterEvent JOB_COMPLETED printerId (JobData jobId).

Definition job_failed (printerId jobId error : string) : PrinterEvent :=
  mkPrinterEvent JOB_FAILED printerId (JobFailedData jobId error).

(** What [setStatus(newStatus)] emits from [oldStatus]. *)
Definition transition (printerId : string) (oldStatus newStatus : PrinterStatus)
  : list PrinterEvent :=
  if CbxPos89ePrinter.PrinterStatus_eqb oldStatus newStatus then []
  else [status_changed printerId oldStatus newStatus].

Definition is_job_event (e : PrinterEvent) : bool :=
  match ev_type e with
  | JOB_STARTED | JOB_COMPLETED | JOB_FAILED => true
  | _ => false
  end.

(** The state in which [print] leaves a connected driver: the counter
    advanced, the status [st], the events [evs] after [job_started], the
    native calls [calls]. *)
Definition after_print (d : CbxPos89ePrinter.Driver) (jobId : string)
    (st : PrinterStatus) (evs : list PrinterEvent) (calls : list DevCall)
  : CbxPos89ePrinter.Driver :=
  let i := CbxPos89ePrinter.drv_id d in
  CbxPos89ePrinter.mkDriver i (CbxPos89ePrinter.config d) true st
    (CbxPos89ePrinter.posPrinter d) (CbxPos89ePrinter.thermalPrinter d)
    (CbxPos89ePrinter.lastJobId d + 1) (CbxPos89ePrinter.forwarding d)
    (CbxPos89ePrinter.emitted d
       ++ transition i (CbxPos89ePrinter._status d) PRINTING
       ++ [job_started i jobId] ++ evs)
    (CbxPos89ePrinter.io d ++ calls).

(** The state in which the translation starts: the counter advanced, the
    status [PRINTING], [job_started] emitted. *)
Definition printing_state (d : CbxPos89ePrinter.Driver) (jobId : string)
  : CbxPos89ePrinter.Driver :=
  let i := CbxPos89ePrinter.drv_id d in
  CbxPos89ePrinter.mkDriver i (CbxPos89ePrinter.config d)
    (CbxPos89ePrinter._isConnected d) PRINTING
    (CbxPos89ePrinter.posPrinter d) (CbxPos89ePrinter.thermalPrinter d)
    (CbxPos89ePrinter.lastJobId d + 1) (CbxPos89ePrinter.forwarding d)
    (CbxPos89ePrinter.emitted d
       ++ transition i (CbxPos89ePrinter._status d) PRINTING
       ++ [job_started i jobId])
    (CbxPos89ePrinter.io d).

Definition sample_config : PrinterConfig :=
  mkPrinterConfig "p1" "Front desk" "cbx_pos_89e" "usb" "CBX POS 89E Printer"
    "80mm" (Some "UTF-8") (Some (Js.Int 3000)) (Some (Js.Int 3)) (Some false).

(** Libraries that work: the printer answers, every command is accepted. *)
Definition device_ok : Device :=
  fun _ _ c =>
    match c with
    | IsPrinterConnected | Execute => Returns (VBool true)
    | _ => Returns VUndefined
    end.

(** Libraries whose print spooler rejects every job. *)
Definition device_no_spooler : Device :=
  fun _ _ c =>
    match c with
    | IsPrinterConnected | Execute => Returns (VBool true)
    | PosPrint _ _ => Throws (JsError "Error" "spooler unavailable")
    | _ => Returns VUndefined
    end.

(** The driver of [sample_config] as its constructor leaves it. *)
Definition sample_offline : CbxPos89ePrinter.Driver :=
  CbxPos89ePrinter.mkDriver "p1" sample_config false OFFLINE true true 0 false
    [] [NewThermalPrinter "printer:CBX POS 89E Printer" 48].

(** The same driver after [connect()]. *)
Definition sample_connected : CbxPos89ePrinter.Driver :=
  CbxPos89ePrinter.mkDriver "p1" sample_config true IDLE true true 0 false
    [status_changed "p1" OFFLINE IDLE;
     mkPrinterEvent CONNECTION_RESTORED "p1" NoData]
    [NewThermalPrinter "printer:CBX POS 89E Printer" 48; IsPrinterConnected].

Definition sample_content : list PrintContent :=
  [PrintText "HELLO WORLD!" (Some (mkTextFormat (Some CENTER) (Some BOLD) None));
   PrintFeed 2; PrintCut (Some false)].

Definition connection_restored (printerId : string) : PrinterEvent :=
  mkPrinterEvent CONNECTION_RESTORED printerId NoData.

Definition connection_lost (printerId : string) : PrinterEvent :=
  mkPrinterEvent CONNECTION_LOST printerId NoData.

(** [d] with events and native calls appended, and the status [st]. *)
Definition extended (d : CbxPos89ePrinter.Driver) (st : PrinterStatus)
    (evs : list PrinterEvent) (calls : list DevCall)
  : CbxPos89ePrinter.Driver :=
  CbxPos89ePrinter.mkDriver (CbxPos89ePrinter.drv_id d)
    (CbxPos89ePrinter.config d) (CbxPos89ePrinter._isConnected d) st
    (CbxPos89ePrinter.posPrinter d) (CbxPos89ePrinter.thermalPrinter d)
    (CbxPos89ePrinter.lastJobId d) (CbxPos89ePrinter.forwarding d)
    (CbxPos89ePrinter.emitted d ++ evs) (CbxPos89ePrinter.io d ++ calls).

(** A number that the test [x && (x < lo || x > hi)] lets through: an
    integer from [lo] to [hi], or a value that is not true. *)
Definition within (n : Js.number) (lo hi : Z) : Prop :=
  match n with
  | Js.Int z => lo <= z <= hi
  | Js.NegZero | Js.NaN | Js.Null => True
  | Js.Infinity | Js.NegInfinity => False
  end.

(** A number outside the range from [lo] to [hi]. *)
Definition outside (n : Js.number) (lo hi : Z) : Prop :=
  match n with
  | Js.Int z => z < lo \/ hi < z
  | Js.Infinity | Js.NegInfinity => True
  | Js.NegZero | Js.NaN | Js.Null => False
  end.

(** What a configuration that passes the generic validation satisfies. *)
Record basic_valid (c : PrinterConfig) : Prop := mk_basic_valid {
  bv_id : id c <> "";
  bv_name : name c <> "";
  bv_type : includes PrinterType_values (type c) = true;
  bv_connectionType :
    includes PrinterConnectionType_values (connectionType c) = true;
  bv_connectionString : connectionString c <> "";
  bv_paperSize : includes PaperSize_values (paperSize c) = true;
  bv_timeout : forall n, timeout c = Some n -> within n 0 60000;
  bv_retryAttempts : forall n, retryAttempts c = Some n -> within n 0 10
}.

(** A required field that is missing, or a time-out or a retry count out of
    its range. *)
Definition missing_or_out_of_range (c : PrinterConfig) : Prop :=
  id c = "" \/ name c = "" \/ type c = "" \/ connectionString c = ""
  \/ (exists n, timeout c = Some n /\ outside n 0 60000)
  \/ (exists n, retryAttempts c = Some n /\ outside n 0 10).

(** The first call of a driver: the thermal printer of the library, for
    the interface and the width of the configuration. *)
Definition thermal_setup (c : PrinterConfig) : DevCall :=
  NewThermalPrinter (CbxPos89ePrinter.getInterfaceString c)
    (CbxPos89ePrinter.getWidthFromPaperSize (paperSize c)).

(** The driver as its constructor leaves it. *)
Definition fresh_driver (i : string) (c : PrinterConfig)
  : CbxPos89ePrinter.Driver :=
  CbxPos89ePrinter.mkDriver i c false OFFLINE true true 0 false []
    [thermal_setup c].

(** The error of [createPrinter] for an exception of the constructor. *)
Definition creation_failed (error : Exn) : Exn :=
  PrinterError ("Failed to create printer instance: " ++ errorMessage error)
    INVALID_CONFIG None (Some (asError error)).

(** A configuration on the bounds of both ranges, and one without [type]. *)
Definition bounds_config : PrinterConfig :=
  mkPrinterConfig "p2" "Bar" "cbx_pos_89e" "usb" "CBX" "80mm" None
    (Some (Js.Int 60000)) (Some (Js.Int 10)) None.

Definition untyped_config : PrinterConfig :=
  mkConfig "p3" "Bar" None "usb" "CBX" "80mm" None None None None.

(** The types for which [new PrinterFactory()] has a constructor. *)
Definition has_driver (t : string) : Prop :=
  t = PrinterType_value CBX_POS_89E \/ t = PrinterType_value GENERIC_ESC_POS.

Definition epson_config : PrinterConfig :=
  mkPrinterConfig "e1" "Kitchen" "epson" "usb" "EPSON TM-T20" "80mm" None None
    None None.

(** A service that has not been initialized, over the default registry. *)
Definition fresh_service : PrinterService.Service CbxPos89ePrinter.Driver :=
  PrinterService.new defaultRegistry ConfigManager.new.

(** A printer whose self-test throws. *)
Definition faulty_ops : IPrinter.ops unit :=
  {| IPrinter.id := fun _ => "faulty";
     IPrinter.config := fun _ => sample_config;
     IPrinter.isConnected := fun _ => true;
     IPrinter.connect := ret tt;
     IPrinter.disconnect := ret tt;
     IPrinter.print := fun _ _ _ => throw (JsError "Error" "no paper path");
     IPrinter.printText := fun _ _ _ => throw (JsError "Error" "no paper path");
     IPrinter.selfTest := fun _ => throw (JsError "Error" "self-test crashed");
     IPrinter.on_forward := ret tt;
     IPrinter.dispose := ret tt |}.

Definition faulty_registry : PrinterRegistry.Registry unit :=
  PrinterRegistry.mkRegistry [("faulty", tt)] [("faulty", sample_config)]
    (Some "faulty") [].

Definition first_config : PrinterConfig :=
  mkPrinterConfig "p1" "Front desk" "cbx_pos_89e" "usb" "CBX POS 89E Printer"
    "80mm" (Some "UTF-8") (Some (Js.Int 3000)) (Some (Js.Int 3)) (Some true).

Definition second_config (flag : bool) : PrinterConfig :=
  mkPrinterConfig "p2" "Bar" "generic_esc_pos" "network" "192.168.1.100:9100"
    "58mm" None None None (Some flag).

(** [registerPrinter] and [unregisterPrinter] of the default registry, on
    libraries that work. *)
Abbreviation register_ok c :=
  (@PrinterRegistry.registerPrinter _ (CbxPos89ePrinter_ops device_ok)
     (PrinterFactory.as_interface (defaultFactory device_ok)) c).

Abbreviation unregister_ok k :=
  (@PrinterRegistry.unregisterPrinter _ (CbxPos89ePrinter_ops device_ok) k).

(** The registry after [first_config]; after [second_config flag] too; after
    the removal of the first; after the removal of both. *)
Definition one_printer : PrinterRegistry.Registry CbxPos89ePrinter.Driver :=
  snd (register_ok first_config defaultRegistry).

Definition two_printers (flag : bool)
  : PrinterRegistry.Registry CbxPos89ePrinter.Driver :=
  snd (register_ok (second_config flag) one_printer).

Definition second_only : PrinterRegistry.Registry CbxPos89ePrinter.Driver :=
  snd (unregister_ok "p1" (two_printers false)).

Definition none_left : PrinterRegistry.Registry CbxPos89ePrinter.Driver :=
  snd (unregister_ok "p2" second_only).

(** The command of each probe path, by platform, and what is read from its
    output. *)
Definition usb_command (p : Platform) : string :=
  match p with
  | Darwin => "system_profiler SPUSBDataType"
  | Win32 => Discovery.powershell_command
  | OtherPlatform => "lsusb"
  end.

Definition usb_parse (p : Platform) : string -> list PrinterDiscoveryResult :=
  match p with
  | Darwin => Discovery.usb_darwin
  | Win32 => Discovery.usb_win32
  | OtherPlatform => Discovery.usb_linux
  end.

Definition installed_command (p : Platform) : string :=
  match p with
  | Win32 => "wmic printer get name,portname"
  | Darwin | OtherPlatform => "lpstat -p"
  end.

(** What each path contributes: nothing when its tool throws. *)
Definition usb_found (h : Discovery.Host) : list PrinterDiscoveryResult :=
  match Discovery.execSync h (usb_command (Discovery.platform h)) with
  | Returned output => usb_parse (Discovery.platform h) output
  | Threw _ => []
  end.

Definition installed_parse (p : Platform)
  : string -> list PrinterDiscoveryResult :=
  match p with
  | Win32 => Discovery.wmic
  | Darwin | OtherPlatform => Discovery.lpstat
  end.

Definition installed_found (h : Discovery.Host) : list PrinterDiscoveryResult :=
  match Discovery.execSync h (installed_command (Discovery.platform h)) with
  | Returned output => installed_parse (Discovery.platform h) output
  | Threw _ => []
  end.

(** What one candidate address contributes. *)
Definition network_candidate (h : Discovery.Host) (ip : string)
  : list PrinterDiscoveryResult :=
  match Discovery.checkNetworkPrinter h ip 9100 with
  | Returned true =>
      [mkDiscovery ("network_" ++ Str.replace_dots ip)
         ("Network Printer (" ++ ip ++ ")") GENERIC_ESC_POS NETWORK
         (ip ++ ":9100") true]
  | _ => []
  end.

(** A Linux host without [lsusb] and [lpstat], on a network where nothing
    answers. *)
Definition bare_host : Discovery.Host :=
  Discovery.mkHost OtherPlatform
    (fun command => Threw (JsError "Error" ("spawnSync " ++ command ++ " ENOENT")))
    (fun _ _ => Returned false).

(** A Linux host where [lsusb] lists a CBX printer, [lpstat] is missing and
    one address answers. *)
Definition usb_host : Discovery.Host :=
  Discovery.mkHost OtherPlatform
    (fun command =>
       if String.eqb command "lsusb"
       then Returned
              "Bus 001 Device 004: ID 0483:5743 CBX POS 89E Printer"
       else Threw (JsError "Error" ("spawnSync " ++ command ++ " ENOENT")))
    (fun ip _ => Returned (String.eqb ip "192.168.0.100")).

(** Each configuration is stored under its own identifier. *)
Definition keyed_by_id (m : JsMap.t PrinterConfig) : Prop :=
  Forall (fun kc => fst kc = id (snd kc)) m.

Definition all_valid (m : JsMap.t PrinterConfig) : Prop :=
  Forall (fun kc => ConfigManager.validateConfig (snd kc) = true) m.

(** A store whose default identifier names one of its configurations, or
    which holds none. *)
Definition default_is_stored (s : ConfigManager.Store) : Prop :=
  ConfigManager.configCache s = []
  \/ exists d,
      ConfigManager.defaultConfigId s = Some d
      /\ JsMap.has (ConfigManager.configCache s) d = true.

(** A number that JSON writes and reads back as it is. *)
Definition json_number (x : option Js.number) : Prop :=
  match x with
  | None | Some (Js.Int _) | Some Js.Null => True
  | Some _ => False
  end.

(** The numbers of every configuration are read back as they are. *)
Definition json_numbers (m : JsMap.t PrinterConfig) : Prop :=
  Forall (fun kc => json_number (timeout (snd kc))
                    /\ json_number (retryAttempts (snd kc))) m.

(** A file system that accepts every write. *)
Definition accept_write : Json -> outcome unit := fun _ => Returned tt.

(** The store after [saveConfig(sample_config)] on a new manager, and after
    the export and import of that store. *)
Definition saved_once : ConfigManager.Store :=
  snd (ConfigManager.saveConfig accept_write "2024-01-01T00:00:00.000Z"
         sample_config ConfigManager.new).

Definition reimported : ConfigManager.Store :=
  snd (ConfigManager.importConfigs accept_write "2024-01-02T00:00:00.000Z"
         (Returned (ConfigManager.exportConfigs "2024-01-02T00:00:00.000Z"
                  saved_once))
         saved_once).

(** A default configuration whose time-out is not a number, the store after
    [saveConfig] of it on a new manager, and that store after the export and
    import. *)
Definition nan_config : PrinterConfig :=
  mkPrinterConfig "p1" "Front desk" "cbx_pos_89e" "usb" "CBX POS 89E Printer"
    "80mm" (Some "UTF-8") (Some Js.NaN) (Some (Js.Int 3)) (Some true).

Definition saved_nan : ConfigManager.Store :=
  snd (ConfigManager.saveConfig accept_write "2024-01-01T00:00:00.000Z"
         nan_config ConfigManager.new).

Definition reimported_nan : ConfigManager.Store :=
  snd (ConfigManager.importConfigs accept_write "2024-01-02T00:00:00.000Z"
         (Returned (ConfigManager.exportConfigs "2024-01-02T00:00:00.000Z"
                  saved_nan))
         saved_nan).

(** The store after [saveConfig(first_config)] and
    [saveConfig(second_config false)] on a new manager. *)
Definition saved_two : ConfigManager.Store :=
  snd (ConfigManager.saveConfig accept_write "2024-01-01T00:00:01.000Z"
         (second_config false)
         (snd (ConfigManager.saveConfig accept_write "2024-01-01T00:00:00.000Z"
                 first_config ConfigManager.new))).

(** The methods of a driver as calls, and the state in which a call, or a
    sequence of calls, leaves the driver, whatever the outcomes. *)
Inductive DriverCall :=
| CallConnect
| CallDisconnect
| CallGetStatus
| CallPrint (now : Z) (content : list PrintContent) (jc : PrintJobConfig)
| CallPrintText (now : Z) (text : string) (jc : PrintJobConfig)
| CallSelfTest (now : Z)
| CallCutPaper (partial : bool)
| CallOpenCashDrawer
| CallFeedPaper (lines : Z)
| CallDispose.

Definition after_call (dev : Device) (c : DriverCall)
    (d : CbxPos89ePrinter.Driver) : CbxPos89ePrinter.Driver :=
  match c with
  | CallConnect => snd (CbxPos89ePrinter.connect dev d)
  | CallDisconnect => snd (CbxPos89ePrinter.disconnect dev d)
  | CallGetStatus => snd (CbxPos89ePrinter.getStatus dev d)
  | CallPrint now content jc =>
      snd (CbxPos89ePrinter.print dev now content jc d)
  | CallPrintText now text jc =>
      snd (CbxPos89ePrinter.printText dev now text jc d)
  | CallSelfTest now => snd (CbxPos89ePrinter.selfTest dev now d)
  | CallCutPaper partial => snd (CbxPos89ePrinter.cutPaper dev partial d)
  | CallOpenCashDrawer => snd (CbxPos89ePrinter.openCashDrawer_ dev d)
  | CallFeedPaper lines => snd (CbxPos89ePrinter.feedPaper dev lines d)
  | CallDispose => snd (CbxPos89ePrinter.dispose dev d)
  end.

Definition after_calls (dev : Device) (cs : list DriverCall)
    (d : CbxPos89ePrinter.Driver) : CbxPos89ePrinter.Driver :=
  fold_left (fun d c => after_call dev c d) cs d.

(** What holds of a driver of the identifier [i] and the configuration [c]
    between two calls. *)
Record driver_consistent (i : string) (c : PrinterConfig)
    (d : CbxPos89ePrinter.Driver) : Prop := mk_driver_consistent {
  dc_id : CbxPos89ePrinter.drv_id d = i;
  dc_config : CbxPos89ePrinter.config d = c;
  dc_posPrinter : CbxPos89ePrinter.posPrinter d = true;
  dc_thermalPrinter : CbxPos89ePrinter.thermalPrinter d = true;
  dc_offline :
    CbxPos89ePrinter._isConnected d = false ->
    CbxPos89ePrinter._status d = OFFLINE;
  dc_counter : 0 <= CbxPos89ePrinter.lastJobId d
}.

Definition error_event (printerId : string) (error : Exn) : PrinterEvent :=
  mkPrinterEvent ERROR_EVENT printerId (ErrorData error).

(** The options that [printWithPosPrinter] passes for a job. *)
Definition pos_options (c : PrinterConfig) (jc : PrintJobConfig)
  : PosPrintOptions :=
  mkPosPrintOptions false "0 0 0 0" (Js.or_num (copies jc) 1)
    (connectionString c) (Js.or_number (timeout c) (Js.Int 400)) true.

(** The native calls of a job that succeeds on a driver with both
    interfaces. *)
Definition job_calls (c : PrinterConfig) (jc : PrintJobConfig)
    (data : list PosPrintData) : list DevCall :=
  ([PosPrint data (pos_options c jc)]
     ++ (match paperCut jc with
         | Some false => []
         | _ => [Cut; Execute]
         end)
     ++ (if Js.truthy_obool (openCashDrawer jc)
         then [OpenCashDrawer; Execute] else []))%list.

(** A line whose length is given and negative. *)
Definition negative_line (item : PrintContent) : Prop :=
  match item with
  | PrintLine _ (Some n) => n < 0
  | _ => False
  end.

(** Libraries where the printer does not answer. *)
Definition device_silent : Device :=
  fun _ _ c =>
    match c with
    | IsPrinterConnected => Returns (VBool false)
    | Execute => Returns (VBool true)
    | _ => Returns VUndefined
    end.

(** The libraries answer every call made on behalf of the printer [i]. *)
Definition answers (dev : Device) (i : string) : Prop :=
  forall history c, exists v, dev i history c = Returns v.

(** A hardware operation: native calls only; nothing to do without the
    thermal interface; done as soon as the libraries answer, whatever they
    answer; an exception wrapped as a [COMMAND_ERROR] of the printer. *)
Definition hardware_operation (dev : Device) (prefix : string)
    (c : M CbxPos89ePrinter.Driver unit) : Prop :=
  forall d,
    only_io d (snd (c d))
    /\ (CbxPos89ePrinter.thermalPrinter d = false -> c d = (Returned tt, d))
    /\ (answers dev (CbxPos89ePrinter.drv_id d) -> fst (c d) = Returned tt)
    /\ (forall e,
           fst (c d) = Threw e ->
           exists cause,
             e = PrinterError (prefix ++ errorMessage cause) COMMAND_ERROR
                   (Some (CbxPos89ePrinter.drv_id d)) (Some (asError cause))).

(** A computation that changes the log of native calls only, and returns
    once the libraries answer. *)
Definition answered (dev : Device) {A} (c : M CbxPos89ePrinter.Driver A)
  : Prop :=
  io_only c
  /\ forall d,
      answers dev (CbxPos89ePrinter.drv_id d) ->
      exists a, fst (c d) = Returned a.

(** The code unit [c] is not among those of [s]. *)
Fixpoint lacks (c : ascii) (s : string) : bool :=
  match s with
  | EmptyString => true
  | String a r => negb (Ascii.eqb a c) && lacks c r
  end.

(** [d'] is a later state of the driver [d]: the same identifier, and a job
    counter that has not gone down. *)
Definition counter_grows (d d' : CbxPos89ePrinter.Driver) : Prop :=
  CbxPos89ePrinter.drv_id d' = CbxPos89ePrinter.drv_id d
  /\ CbxPos89ePrinter.lastJobId d <= CbxPos89ePrinter.lastJobId d'.

(** A connection string of the form [host:port]: one colon, a host that is
    not empty, and a port whose leading integer is within 1..65535. *)
Definition host_and_port (s : string) : Prop :=
  exists host portStr port,
    s = host ++ ":" ++ portStr
    /\ lacks ":" host = true /\ lacks ":" portStr = true
    /\ host <> ""
    /\ Str.parseInt portStr = Some port
    /\ 1 <= port <= 65535.

(** What [createPrinter] makes of the outcome of a constructor. *)
Definition created {P} (o : outcome P) : outcome P :=
  match o with
  | Returned p => Returned p
  | Threw error =>
      Threw (PrinterError
               ("Failed to create printer instance: " ++ errorMessage error)
               INVALID_CONFIG None (Some (asError error)))
  end.

(** The overrides [{ connectionString }]. *)
Definition only_connectionString (connectionString : string)
  : PartialPrinterConfig :=
  mkPartialPrinterConfig None None None None (Some connectionString) None
    None None None None.

(** The error of a lookup that finds no printer. *)
Definition not_found (k : string) : Exn :=
  PrinterError ("Printer '" ++ k ++ "' not found") PRINTER_NOT_FOUND (Some k)
    None.

(** The methods of a registry as calls, and the state in which a call, or a
    sequence of calls, leaves the registry, whatever the outcomes. *)
Inductive RegistryCall :=
| CallRegister (config : PrinterConfig)
| CallUnregister (k : string)
| CallSetDefault (k : string)
| CallUpdate (k : string) (updates : PartialPrinterConfig)
| CallValidate (now : Z) (k : string)
| CallDisposeAll.

Definition after_registry_call {P : Type} {ops : IPrinter.ops P}
    (factory : IPrinterFactory.t P) (call : RegistryCall)
    (r : PrinterRegistry.Registry P) : PrinterRegistry.Registry P :=
  match call with
  | CallRegister config =>
      snd (PrinterRegistry.registerPrinter factory config r)
  | CallUnregister k => snd (PrinterRegistry.unregisterPrinter k r)
  | CallSetDefault k => snd (PrinterRegistry.setDefaultPrinter k r)
  | CallUpdate k updates =>
      snd (PrinterRegistry.updatePrinterConfig factory k updates r)
  | CallValidate now k => snd (PrinterRegistry.validatePrinter now k r)
  | CallDisposeAll => snd (PrinterRegistry.dispose r)
  end.

Definition after_registry_calls {P : Type} {ops : IPrinter.ops P}
    (factory : IPrinterFactory.t P) (calls : list RegistryCall)
    (r : PrinterRegistry.Registry P) : PrinterRegistry.Registry P :=
  fold_left (fun r call => after_registry_call factory call r) calls r.

(** What holds of a registry between two calls: the printers and the
    configurations are kept under the same identifiers, no identifier
    twice, and the default identifier, when there is one, is that of a
    registered printer. *)
Record registry_consistent {P : Type} (r : PrinterRegistry.Registry P)
  : Prop := mk_registry_consistent {
  rc_keys :
    JsMap.keys (PrinterRegistry.printers r)
    = JsMap.keys (PrinterRegistry.configs r);
  rc_nodup : NoDup (JsMap.keys (PrinterRegistry.printers r));
  rc_default :
    forall k,
      PrinterRegistry.defaultPrinterId r = Some k ->
      JsMap.has (PrinterRegistry.printers r) k = true
}.

(** A registry that holds a printer has a default printer. *)
Definition has_default {P : Type} (r : PrinterRegistry.Registry P) : Prop :=
  PrinterRegistry.printers r <> [] ->
  PrinterRegistry.defaultPrinterId r <> None.

(** [r'] has the identifiers and the default of [r]. *)
Definition same_shape {P : Type} (r r' : PrinterRegistry.Registry P) : Prop :=
  JsMap.keys (PrinterRegistry.printers r')
  = JsMap.keys (PrinterRegistry.printers r)
  /\ JsMap.keys (PrinterRegistry.configs r')
     = JsMap.keys (PrinterRegistry.configs r)
  /\ PrinterRegistry.defaultPrinterId r' = PrinterRegistry.defaultPrinterId r.

(** A computation that keeps the shape of every registry that holds [k]
    among its printers and among its configurations. *)
Definition keeps_shape {P : Type} {A : Type} (k : string)
    (c : M (PrinterRegistry.Registry P) A) : Prop :=
  forall r,
    JsMap.has (PrinterRegistry.printers r) k = true ->
    JsMap.has (PrinterRegistry.configs r) k = true ->
    same_shape r (snd (c r)).

(** The methods of a configuration manager as calls, each with the date of
    its write, and the state in which a call, or a sequence of calls, leaves
    the manager, whatever the outcomes. *)
Inductive StoreCall :=
| CallSaveConfig (isoDate : string) (config : PrinterConfig)
| CallDeleteConfig (isoDate : string) (k : string)
| CallSetDefaultConfig (isoDate : string) (k : string)
| CallImportConfigs (isoDate : string) (data : outcome Json).

Definition after_store_call (writeFile : Json -> outcome unit)
    (call : StoreCall) (s : ConfigManager.Store) : ConfigManager.Store :=
  match call with
  | CallSaveConfig isoDate config =>
      snd (ConfigManager.saveConfig writeFile isoDate config s)
  | CallDeleteConfig isoDate k =>
      snd (ConfigManager.deleteConfig writeFile isoDate k s)
  | CallSetDefaultConfig isoDate k =>
      snd (ConfigManager.setDefaultConfig writeFile isoDate k s)
  | CallImportConfigs isoDate data =>
      snd (ConfigManager.importConfigs writeFile isoDate data s)
  end.

Definition after_store_calls (writeFile : Json -> outcome unit)
    (calls : list StoreCall) (s : ConfigManager.Store) : ConfigManager.Store :=
  fold_left (fun s call => after_store_call writeFile call s) calls s.

(** A cache in which each configuration is valid and kept under its own
    identifier, and no identifier occurs twice. *)
Definition cache_consistent (m : JsMap.t PrinterConfig) : Prop :=
  keyed_by_id m /\ NoDup (JsMap.keys m) /\ all_valid m.


(** A record that has the declared types: what is no object, or an object
    that is read as a configuration. *)
Definition typed_record (j : Json) : Prop :=
  match j with
  | JObj _ => ConfigManager.decode j <> None
  | _ => True
  end.

(** A document whose records have the declared types. *)
Definition typed_document (data : outcome Json) : Prop :=
  match data with
  | Returned (JObj fields) =>
      match ConfigManager.prop fields "configurations" with
      | Some (JArr items) => Forall typed_record items
      | _ => True
      end
  | _ => True
  end.

(** A file whose records are [null] or have the declared types and an
    identifier, and whose default identifier, when it has one, is a string
    or [null]. *)
Definition typed_file (readFile : option Json) : Prop :=
  match readFile with
  | Some (JObj fields) =>
      match ConfigManager.prop fields "configurations" with
      | Some (JArr items) =>
          Forall (fun j =>
                    match j with
                    | JNull => True
                    | JObj record =>
                        ConfigManager.decode j <> None
                        /\ ConfigManager.prop record "id" <> None
                    | _ => False
                    end) items
          /\ match ConfigManager.prop fields "defaultConfigId" with
             | None | Some JNull | Some (JStr _) => True
             | Some _ => False
             end
      | _ => True
      end
  | _ => True
  end.

(** The calls of a sequence import documents of the declared types. *)
Definition typed_calls (calls : list StoreCall) : Prop :=
  Forall (fun call =>
            match call with
            | CallImportConfigs _ data => typed_document data
            | _ => True
            end) calls.

(** The error of the configuration manager for [k]. *)
Definition configuration_not_found (k : string) : Exn :=
  PrinterError ("Configuration '" ++ k ++ "' not found") PRINTER_NOT_FOUND
    (Some k) None.

(** The cache and the default in which [saveConfig] leaves the manager when
    the configuration is valid. *)
Definition saved (c : PrinterConfig) (s : ConfigManager.Store)
  : ConfigManager.Store :=
  if Js.truthy_obool (isDefault c) then
    ConfigManager.mkStore (Some (id c))
      (ConfigManager.clear_other_defaults (id c)
         (JsMap.set (ConfigManager.configCache s) (id c) c))
      (ConfigManager.written s)
  else
    ConfigManager.mkStore (ConfigManager.defaultConfigId s)
      (JsMap.set (ConfigManager.configCache s) (id c) c)
      (ConfigManager.written s).

(** The state after a write of the file on the date [isoDate]. *)
Definition wrote (isoDate : string) (s : ConfigManager.Store)
  : ConfigManager.Store :=
  ConfigManager.mkStore (ConfigManager.defaultConfigId s)
    (ConfigManager.configCache s)
    (ConfigManager.written s ++ [ConfigManager.configData isoDate s]).

(** The cache and the default in which [deleteConfig] leaves the manager
    when it holds [k]. *)
Definition deleted (k : string) (s : ConfigManager.Store)
  : ConfigManager.Store :=
  let cache := JsMap.delete (ConfigManager.configCache s) k in
  ConfigManager.mkStore
    (if match ConfigManager.defaultConfigId s with
        | Some d => String.eqb d k
        | None => false
        end
     then if (0 <? JsMap.size cache)%nat then JsMap.first_key cache else None
     else ConfigManager.defaultConfigId s)
    cache (ConfigManager.written s).

(** The error of a service that has not been initialized. *)
Definition not_initialized : Exn :=
  PrinterError "Printer service not initialized" INVALID_CONFIG None None.

(** The call [c] throws [e] in the state [s] and leaves it as it is. *)
Definition rejected_with {S A : Type} (e : Exn) (c : M S A) (s : S) : Prop :=
  c s = (Threw e, s).


(** The service [s] with the printer of [k] in the state [p]. *)
Definition with_printer {P : Type} (k : string) (p : P)
    (s : PrinterService.Service P) : PrinterService.Service P :=
  PrinterService.mkService
    (PrinterRegistry.set_printers
       (JsMap.set (PrinterRegistry.printers (PrinterService.registry s)) k p)
       (PrinterService.registry s))
    (PrinterService.configManager s) (PrinterService.initialized s)
    (PrinterService.emitted s).

(** An initialized service over the default registry. *)
Definition ready_service : PrinterService.Service CbxPos89ePrinter.Driver :=
  PrinterService.mkService defaultRegistry ConfigManager.new true [].



(** * Properties *)

(** ** The driver: what a native call can change *)

Section DriverFrames.

Import CbxPos89ePrinter.

Variable dev : Device.

Lemma only_io_refl d : only_io d d.
Proof. exists []. destruct d; cbn. now rewrite app_nil_r. Qed.

Lemma only_io_trans d1 d2 d3 :
  only_io d1 d2 -> only_io d2 d3 -> only_io d1 d3.
Proof.
  intros [c1 ->] [c2 ->]. exists (c1 ++ c2)%list. cbn.
  now rewrite app_assoc.
Qed.

Lemma io_only_ret {A} (a : A) : io_only (ret a).
Proof. intro d. apply only_io_refl. Qed.

Lemma io_only_throw {A} e : io_only (@throw Driver A e).
Proof. intro d. apply only_io_refl. Qed.

Lemma io_only_gets {A} (f : Driver -> A) : io_only (gets f).
Proof. intro d. apply only_io_refl. Qed.

Lemma io_only_call c : io_only (call dev c).
Proof.
  intro d. unfold call.
  destruct (dev (drv_id d) (io d) c); cbn; now exists [c].
Qed.

Lemma io_only_bind {A B} (c : M Driver A) (k : A -> M Driver B) :
  io_only c -> (forall a, io_only (k a)) -> io_only (bind c k).
Proof.
  intros Hc Hk d. unfold bind. specialize (Hc d).
  destruct (c d) as [[a | e] d1]; cbn in *.
  - eapply only_io_trans; [exact Hc | apply Hk].
  - exact Hc.
Qed.

Lemma io_only_try_catch {A} (c : M Driver A) (h : Exn -> M Driver A) :
  io_only c -> (forall e, io_only (h e)) -> io_only (try_catch c h).
Proof.
  intros Hc Hh d. unfold try_catch. specialize (Hc d).
  destruct (c d) as [[a | e] d1]; cbn in *.
  - exact Hc.
  - eapply only_io_trans; [exact Hc | apply Hh].
Qed.

Lemma io_only_when b (c : M Driver unit) : io_only c -> io_only (when b c).
Proof. destruct b; cbn; [trivial | intros _; apply io_only_ret]. Qed.

Lemma io_only_times n (c : M Driver unit) :
  io_only c -> io_only (times n c).
Proof.
  intro Hc. induction n as [| n IH]; cbn.
  - apply io_only_ret.
  - apply io_only_bind; [exact Hc | intros _; exact IH].
Qed.

Lemma io_only_for_each {A} (xs : list A) (f : A -> M Driver unit) :
  (forall x, io_only (f x)) -> io_only (for_each xs f).
Proof.
  intro Hf. induction xs as [| x xs IH]; cbn.
  - apply io_only_ret.
  - apply io_only_bind; [apply Hf | intros _; exact IH].
Qed.

Ltac io_only_step :=
  first
    [ apply io_only_ret | apply io_only_throw | apply io_only_gets
    | apply io_only_call | apply io_only_bind | apply io_only_try_catch
    | apply io_only_when | apply io_only_times | apply io_only_for_each
    | match goal with
      | |- forall _, _ => intro
      | |- io_only (if ?b then _ else _) => destruct b
      | |- io_only (match ?x with _ => _ end) => destruct x
      end ].

Lemma io_only_printWithPosPrinter content jc :
  io_only (printWithPosPrinter dev content jc).
Proof. unfold printWithPosPrinter. repeat io_only_step. Qed.

Lemma io_only_applyTextFormatting f :
  io_only (applyTextFormatting dev f).
Proof. unfold applyTextFormatting. repeat io_only_step. Qed.

Lemma io_only_thermalItem item : io_only (thermalItem dev item).
Proof.
  destruct item; cbn [thermalItem]; repeat io_only_step;
    apply io_only_applyTextFormatting.
Qed.

Lemma io_only_printWithThermalPrinter content jc :
  io_only (printWithThermalPrinter dev content jc).
Proof.
  unfold printWithThermalPrinter. repeat io_only_step.
  apply io_only_thermalItem.
Qed.

Lemma io_only_cutPaper partial : io_only (cutPaper dev partial).
Proof. unfold cutPaper. repeat io_only_step. Qed.

Lemma io_only_openCashDrawer : io_only (openCashDrawer_ dev).
Proof. unfold openCashDrawer_. repeat io_only_step. Qed.

(** Translation, execution, the cut and the drawer leave the status, the
    connection flag and the event log as they are. *)
Lemma io_only_print_body content jc : io_only (print_body dev content jc).
Proof.
  unfold print_body.
  repeat first
    [ apply io_only_printWithPosPrinter
    | apply io_only_printWithThermalPrinter
    | apply io_only_cutPaper | apply io_only_openCashDrawer
    | io_only_step ].
Qed.

End DriverFrames.

(** ** The driver: [print] *)

Section DriverPrint.

Import CbxPos89ePrinter.

Variable dev : Device.

Lemma print_of_connected now content jc d :
  _isConnected d = true ->
  print dev now content jc d
  = try_catch
      (print_try dev (jobIdOf (drv_id d) (lastJobId d + 1) now) content jc)
      (print_catch (jobIdOf (drv_id d) (lastJobId d + 1) now))
      (set_lastJobId (lastJobId d + 1) d).
Proof.
  intro Hc. unfold print, bind, modify, gets. cbn.
  rewrite Hc. reflexivity.
Qed.

Lemma print_prologue jobId d :
  (setStatus PRINTING ;; emitEvent JOB_STARTED (JobData jobId)) d
  = (Returned tt,
     mkDriver (drv_id d) (config d) (_isConnected d) PRINTING (posPrinter d)
       (thermalPrinter d) (lastJobId d) (forwarding d)
       (emitted d ++ transition (drv_id d) (_status d) PRINTING
          ++ [job_started (drv_id d) jobId])
       (io d)).
Proof.
  destruct d as [di dc dconn dst dpp dtp dn dfw dem dio].
  unfold transition, status_changed, job_started.
  unfold bind, setStatus, emitEvent, modify, push_event, set_status.
  destruct dst; cbn; rewrite <- ?app_assoc; reflexivity.
Qed.

Lemma print_try_steps jobId content jc d :
  print_try dev jobId content jc d
  = match (setStatus PRINTING ;; emitEvent JOB_STARTED (JobData jobId)) d with
    | (Returned _, d1) =>
        match print_body dev content jc d1 with
        | (Returned _, d2) =>
            (setStatus IDLE ;; emitEvent JOB_COMPLETED (JobData jobId) ;;
             ret jobId) d2
        | (Threw e, d2) => (Threw e, d2)
        end
    | (Threw e, d1) => (Threw e, d1)
    end.
Proof.
  unfold print_try, bind.
  destruct (setStatus PRINTING d) as [[[] | e] d1]; reflexivity.
Qed.

(** The two ways in which [print] ends on a connected driver, by the outcome
    of the translation and execution. *)
Lemma print_connected now content jc d :
  _isConnected d = true ->
  let i := drv_id d in
  let jobId := jobIdOf i (lastJobId d + 1) now in
  exists calls,
    match print_body dev content jc (printing_state d jobId) with
    | (Returned _, d2) =>
        io d2 = (io d ++ calls)%list
        /\ print dev now content jc d
           = (Returned jobId,
              after_print d jobId IDLE
                [status_changed i PRINTING IDLE; job_completed i jobId] calls)
    | (Threw error, d2) =>
        io d2 = (io d ++ calls)%list
        /\ print dev now content jc d
           = (Threw (PrinterError ("Print job failed: " ++ errorMessage error)
                       COMMAND_ERROR (Some i) (Some (asError error))),
              after_print d jobId ERROR
                [status_changed i PRINTING ERROR;
                 job_failed i jobId (errorMessage error)] calls)
    end.
Proof.
  intros Hc i jobId.
  rewrite (print_of_connected now content jc d Hc).
  fold i. fold jobId. clearbody jobId.
  unfold try_catch. rewrite print_try_steps, print_prologue.
  replace (mkDriver (drv_id (set_lastJobId (lastJobId d + 1) d))
             (config (set_lastJobId (lastJobId d + 1) d))
             (_isConnected (set_lastJobId (lastJobId d + 1) d)) PRINTING
             (posPrinter (set_lastJobId (lastJobId d + 1) d))
             (thermalPrinter (set_lastJobId (lastJobId d + 1) d))
             (lastJobId (set_lastJobId (lastJobId d + 1) d))
             (forwarding (set_lastJobId (lastJobId d + 1) d))
             (emitted (set_lastJobId (lastJobId d + 1) d)
                ++ transition (drv_id (set_lastJobId (lastJobId d + 1) d))
                     (_status (set_lastJobId (lastJobId d + 1) d)) PRINTING
                ++ [job_started (drv_id (set_lastJobId (lastJobId d + 1) d))
                      jobId])
             (io (set_lastJobId (lastJobId d + 1) d)))
    with (printing_state d jobId) by reflexivity.
  destruct (io_only_print_body dev content jc (printing_state d jobId))
    as [calls Hcalls].
  exists calls.
  destruct (print_body dev content jc (printing_state d jobId))
    as [[[] | error] d2];
    cbn in Hcalls; subst d2; (split; [reflexivity |]);
    unfold after_print; destruct d; cbn in *; subst;
    unfold status_changed, job_completed, job_failed, push_event, set_status;
    cbn; rewrite <- ?app_assoc; reflexivity.
Qed.

End DriverPrint.

(** ** The sample printer is what the constructor and [connect] give *)

Example sample_offline_is_new :
  CbxPos89ePrinter.new device_ok "p1" sample_config = Returned sample_offline.
Proof. reflexivity. Qed.

Example sample_connected_is_connect :
  CbxPos89ePrinter.connect device_ok sample_offline
  = (Returned tt, sample_connected).
Proof. reflexivity. Qed.

(** ** C1, C2, C3: [print] *)

Lemma new_events_app (old new : list PrinterEvent) :
  skipn (List.length old) (old ++ new) = new.
Proof.
  induction old as [| e old IH]; cbn; [reflexivity | exact IH].
Qed.

(** C1.  On a connected driver, when the translation and execution of the
    content succeed, [print] returns the job identifier; the job ran with the
    status [PRINTING] and the driver ends [IDLE] and connected; what the call
    emitted is the change to [PRINTING] (when the status was another one),
    [job_started], the change from [PRINTING] to [IDLE] and [job_completed],
    in this order; the job events among them are exactly [job_started] then
    [job_completed], both with the identifier returned. *)
Theorem print_success_events :
  forall (dev : Device) (now : Z) (content : list PrintContent)
         (jc : PrintJobConfig) (d d2 : CbxPos89ePrinter.Driver),
    let i := CbxPos89ePrinter.drv_id d in
    let jobId :=
      CbxPos89ePrinter.jobIdOf i (CbxPos89ePrinter.lastJobId d + 1) now in
    CbxPos89ePrinter.isConnected d = true ->
    CbxPos89ePrinter.print_body dev content jc (printing_state d jobId)
    = (Returned tt, d2) ->
    exists d',
      CbxPos89ePrinter.print dev now content jc d = (Returned jobId, d')
      /\ CbxPos89ePrinter._status (printing_state d jobId) = PRINTING
      /\ CbxPos89ePrinter._status d' = IDLE
      /\ CbxPos89ePrinter.isConnected d' = true
      /\ CbxPos89ePrinter.emitted d'
         = (CbxPos89ePrinter.emitted d
              ++ transition i (CbxPos89ePrinter._status d) PRINTING
              ++ [job_started i jobId; status_changed i PRINTING IDLE;
                  job_completed i jobId])%list
      /\ filter is_job_event
           (skipn (List.length (CbxPos89ePrinter.emitted d))
              (CbxPos89ePrinter.emitted d'))
         = [job_started i jobId; job_completed i jobId].
Proof.
  intros dev now content jc d d2 i jobId Hc Hbody.
  destruct (print_connected dev now content jc d Hc) as [calls H].
  fold i in H. fold jobId in H. rewrite Hbody in H. destruct H as [_ H].
  eexists. split; [exact H |].
  unfold after_print. cbn.
  repeat split.
  rewrite new_events_app.
  unfold transition, status_changed.
  destruct (CbxPos89ePrinter._status d); reflexivity.
Qed.

(** The sample printer prints the sample content. *)
Lemma print_success_events_witness :
  exists d',
    CbxPos89ePrinter.print device_ok 1700 sample_content no_job_config
      sample_connected
    = (Returned "cbx_p1_1_1700", d')
    /\ CbxPos89ePrinter._status d' = IDLE
    /\ filter is_job_event
         (skipn (List.length (CbxPos89ePrinter.emitted sample_connected))
            (CbxPos89ePrinter.emitted d'))
       = [job_started "p1" "cbx_p1_1_1700"; job_completed "p1" "cbx_p1_1_1700"].
Proof.
  destruct (print_success_events device_ok 1700 sample_content no_job_config
              sample_connected eq_refl eq_refl)
    as [d' [Hp [_ [Hs [_ [_ Hf]]]]]].
  exists d'. split; [exact Hp |]. split; [exact Hs | exact Hf].
Defined.

(** C2, as stated, fails: the rejected call advances the job counter. *)
Lemma print_offline_counter_counterexample :
  CbxPos89ePrinter.isConnected sample_offline = false
  /\ CbxPos89ePrinter.lastJobId sample_offline = 0
  /\ CbxPos89ePrinter.lastJobId
       (snd (CbxPos89ePrinter.print device_ok 1700 sample_content
               no_job_config sample_offline))
     = 1.
Proof. repeat split. Qed.

(** C2, amended.  On a driver that is not connected, [print] throws a
    [PrinterError] with the code [PRINTER_OFFLINE]; it makes no native call,
    emits no event and leaves the status and the connection flag as they are;
    the one thing it changes is the job counter, advanced by one. *)
Theorem print_offline_rejected :
  forall (dev : Device) (now : Z) (content : list PrintContent)
         (jc : PrintJobConfig) (d : CbxPos89ePrinter.Driver),
    CbxPos89ePrinter.isConnected d = false ->
    CbxPos89ePrinter.print dev now content jc d
    = (Threw (PrinterError "Printer not connected" PRINTER_OFFLINE
                (Some (CbxPos89ePrinter.drv_id d)) None),
       CbxPos89ePrinter.set_lastJobId (CbxPos89ePrinter.lastJobId d + 1) d)
    /\ (let d' := snd (CbxPos89ePrinter.print dev now content jc d) in
        CbxPos89ePrinter.io d' = CbxPos89ePrinter.io d
        /\ CbxPos89ePrinter.emitted d' = CbxPos89ePrinter.emitted d
        /\ CbxPos89ePrinter._status d' = CbxPos89ePrinter._status d
        /\ CbxPos89ePrinter.isConnected d' = false
        /\ CbxPos89ePrinter.lastJobId d' = CbxPos89ePrinter.lastJobId d + 1).
Proof.
  intros dev now content jc d Hc.
  assert (H : CbxPos89ePrinter.print dev now content jc d
              = (Threw (PrinterError "Printer not connected" PRINTER_OFFLINE
                          (Some (CbxPos89ePrinter.drv_id d)) None),
                 CbxPos89ePrinter.set_lastJobId
                   (CbxPos89ePrinter.lastJobId d + 1) d)).
  { unfold CbxPos89ePrinter.print, bind, modify, gets. cbn.
    unfold CbxPos89ePrinter.isConnected in Hc. rewrite Hc. reflexivity. }
  split; [exact H |]. rewrite H. cbn. repeat split. exact Hc.
Qed.

Lemma print_offline_rejected_witness :
  CbxPos89ePrinter.print device_ok 1700 sample_content no_job_config
    sample_offline
  = (Threw (PrinterError "Printer not connected" PRINTER_OFFLINE (Some "p1")
              None),
     CbxPos89ePrinter.set_lastJobId 1 sample_offline).
Proof.
  exact (proj1 (print_offline_rejected device_ok 1700 sample_content
                  no_job_config sample_offline eq_refl)).
Defined.

(** C3.  On a connected driver, when the translation or the execution throws
    [error], [print] throws a [PrinterError] that wraps it, with the code
    [COMMAND_ERROR]; the driver ends with the status [ERROR], which is not
    [IDLE], and still connected; after [job_started] it has emitted the change
    from [PRINTING] to [ERROR] and [job_failed] with the job identifier and
    the text of the error. *)
Theorem print_failure_state :
  forall (dev : Device) (now : Z) (content : list PrintContent)
         (jc : PrintJobConfig) (d d2 : CbxPos89ePrinter.Driver) (error : Exn),
    let i := CbxPos89ePrinter.drv_id d in
    let jobId :=
      CbxPos89ePrinter.jobIdOf i (CbxPos89ePrinter.lastJobId d + 1) now in
    CbxPos89ePrinter.isConnected d = true ->
    CbxPos89ePrinter.print_body dev content jc (printing_state d jobId)
    = (Threw error, d2) ->
    exists d',
      CbxPos89ePrinter.print dev now content jc d
      = (Threw (PrinterError ("Print job failed: " ++ errorMessage error)
                  COMMAND_ERROR (Some i) (Some (asError error))),
         d')
      /\ CbxPos89ePrinter._status d' = ERROR
      /\ CbxPos89ePrinter._status d' <> IDLE
      /\ CbxPos89ePrinter.isConnected d' = true
      /\ CbxPos89ePrinter.emitted d'
         = (CbxPos89ePrinter.emitted d
              ++ transition i (CbxPos89ePrinter._status d) PRINTING
              ++ [job_started i jobId; status_changed i PRINTING ERROR;
                  job_failed i jobId (errorMessage error)])%list.
Proof.
  intros dev now content jc d d2 error i jobId Hc Hbody.
  destruct (print_connected dev now content jc d Hc) as [calls H].
  fold i in H. fold jobId in H. rewrite Hbody in H. destruct H as [_ H].
  eexists. split; [exact H |].
  unfold after_print. cbn.
  repeat split. discriminate.
Qed.

(** The spooler rejects the job of the sample printer. *)
Lemma print_failure_state_witness :
  exists d',
    CbxPos89ePrinter.print device_no_spooler 1700 sample_content no_job_config
      sample_connected
    = (Threw (PrinterError "Print job failed: spooler unavailable"
                COMMAND_ERROR (Some "p1")
                (Some (JsError "Error" "spooler unavailable"))),
       d')
    /\ CbxPos89ePrinter._status d' = ERROR
    /\ CbxPos89ePrinter.isConnected d' = true.
Proof.
  destruct (print_failure_state device_no_spooler 1700 sample_content
              no_job_config sample_connected
              (error := JsError "Error" "spooler unavailable") eq_refl eq_refl)
    as [d' [Hp [Hs [_ [Hc _]]]]].
  exists d'. split; [exact Hp |]. split; [exact Hs | exact Hc].
Defined.

(** ** C6: [connect] and [disconnect] called again *)

(** C6, as stated, fails: [connect] on the connected sample printer asks the
    device again and emits [connection_restored] again; [disconnect] on the
    offline sample printer clears the buffer and emits [connection_lost]. *)
Lemma connect_again_counterexample :
  CbxPos89ePrinter.isConnected sample_connected = true
  /\ CbxPos89ePrinter.connect device_ok sample_connected
     = (Returned tt,
        extended sample_connected IDLE [connection_restored "p1"]
          [IsPrinterConnected])
  /\ CbxPos89ePrinter.isConnected sample_offline = false
  /\ CbxPos89ePrinter._status sample_offline = OFFLINE
  /\ CbxPos89ePrinter.disconnect device_ok sample_offline
     = (Returned tt,
        extended sample_offline OFFLINE [connection_lost "p1"] [Clear]).
Proof. repeat split. Qed.

(** C6, amended.  For a driver with its thermal interface: [connect] on a
    connected driver asks the device once more and, when the device answers,
    returns with the driver connected and [IDLE], having emitted the change to
    [IDLE] (when the status was another one) and [connection_restored];
    [disconnect] on an offline driver clears the buffer once more and, when
    that returns, leaves the driver offline, having emitted no status change
    and one [connection_lost].  Called twice, each leaves the connection flag
    and the status as the first call left them. *)
Theorem connect_disconnect_again :
  forall (dev : Device) (d : CbxPos89ePrinter.Driver) (v : Value),
    CbxPos89ePrinter.thermalPrinter d = true ->
    (CbxPos89ePrinter.isConnected d = true ->
     dev (CbxPos89ePrinter.drv_id d) (CbxPos89ePrinter.io d) IsPrinterConnected
     = Returns v ->
     truthy v = true ->
     CbxPos89ePrinter.connect dev d
     = (Returned tt,
        extended d IDLE
          (transition (CbxPos89ePrinter.drv_id d) (CbxPos89ePrinter._status d)
             IDLE
             ++ [connection_restored (CbxPos89ePrinter.drv_id d)])
          [IsPrinterConnected]))
    /\ (CbxPos89ePrinter.isConnected d = false ->
        CbxPos89ePrinter._status d = OFFLINE ->
        dev (CbxPos89ePrinter.drv_id d) (CbxPos89ePrinter.io d) Clear
        = Returns v ->
        CbxPos89ePrinter.disconnect dev d
        = (Returned tt,
           extended d OFFLINE [connection_lost (CbxPos89ePrinter.drv_id d)]
             [Clear])).
Proof.
  intros dev d v Htp.
  destruct d as [di dc dconn dst dpp dtp dn dfw dem dio].
  cbn in Htp. subst dtp. split.
  - unfold CbxPos89ePrinter.isConnected. cbn. intros -> Hdev Hv.
    unfold CbxPos89ePrinter.connect, try_catch, bind, gets, when,
      CbxPos89ePrinter.call, CbxPos89ePrinter.setStatus,
      CbxPos89ePrinter.emitEvent, modify.
    unfold extended, transition, status_changed, connection_restored.
    destruct dst; cbn; rewrite Hdev; cbn; rewrite Hv; cbn;
      unfold CbxPos89ePrinter.push_event; cbn;
      rewrite <- ?app_assoc; reflexivity.
  - unfold CbxPos89ePrinter.isConnected. cbn. intros -> -> Hdev.
    unfold CbxPos89ePrinter.disconnect, try_catch, bind, gets, when,
      CbxPos89ePrinter.call, CbxPos89ePrinter.setStatus,
      CbxPos89ePrinter.emitEvent, modify.
    unfold extended, connection_lost.
    cbn. rewrite Hdev. reflexivity.
Qed.

Lemma connect_disconnect_again_witness :
  CbxPos89ePrinter.connect device_ok sample_connected
  = (Returned tt,
     extended sample_connected IDLE [connection_restored "p1"]
       [IsPrinterConnected])
  /\ CbxPos89ePrinter.disconnect device_ok sample_offline
     = (Returned tt,
        extended sample_offline OFFLINE [connection_lost "p1"] [Clear]).
Proof.
  split.
  - exact (proj1 (connect_disconnect_again device_ok sample_connected
                    (VBool true) eq_refl)
             eq_refl eq_refl eq_refl).
  - exact (proj2 (connect_disconnect_again device_ok sample_offline
                    VUndefined eq_refl)
             eq_refl eq_refl eq_refl).
Defined.

(** ** C4: validation and creation in the factory *)

Lemma truthy_string_false s : Js.truthy_string s = false <-> s = "".
Proof.
  unfold Js.truthy_string. rewrite negb_false_iff. apply String.eqb_eq.
Qed.

Lemma truthy_string_true s : Js.truthy_string s = true <-> s <> "".
Proof.
  unfold Js.truthy_string. rewrite negb_true_iff. apply String.eqb_neq.
Qed.

Lemma out_of_range_spec x lo hi :
  lo <= 0 <= hi ->
  PrinterFactory.out_of_range x lo hi = false
  <-> forall n, x = Some n -> within n lo hi.
Proof.
  intro Hb. destruct x as [n |]; cbn.
  - split.
    + intros H n' E. injection E as <-.
      destruct n as [z | | | | |]; cbn in *; try exact I; try discriminate.
      unfold Js.truthy_num in H.
      destruct (Z.eqb_spec z 0) as [-> | Hz]; [exact Hb |].
      cbn in H. apply orb_false_iff in H. destruct H as [H1 H2].
      apply Z.ltb_ge in H1. rewrite Z.gtb_ltb in H2. apply Z.ltb_ge in H2.
      lia.
    + intro H. specialize (H n eq_refl).
      destruct n as [z | | | | |]; cbn in *; try reflexivity;
        try contradiction.
      destruct (Js.truthy_num z); [| reflexivity]. cbn.
      apply orb_false_iff. split; [apply Z.ltb_ge; lia |].
      rewrite Z.gtb_ltb. apply Z.ltb_ge. lia.
  - split; [discriminate | reflexivity].
Qed.

Lemma outside_not_within n lo hi : outside n lo hi -> ~ within n lo hi.
Proof. destruct n; cbn; intros H1 H2; try contradiction; lia. Qed.

Lemma validateBasicConfig_true c :
  PrinterFactory.validateBasicConfig c = true -> basic_valid c.
Proof.
  unfold PrinterFactory.validateBasicConfig. intro H.
  destruct (Js.truthy_string (id c)) eqn:Hid;
    cbn [negb orb] in H; [| discriminate].
  destruct (Js.truthy_string (name c)) eqn:Hname;
    cbn [negb orb] in H; [| discriminate].
  destruct (Js.truthy_string (type c)) eqn:Htype;
    cbn [negb orb] in H; [| discriminate].
  destruct (Js.truthy_string (connectionString c)) eqn:Hcs;
    cbn [negb orb] in H; [| discriminate].
  destruct (includes PrinterType_values (type c)) eqn:Ht;
    cbn [negb] in H; [| discriminate].
  destruct (includes PrinterConnectionType_values (connectionType c)) eqn:Hct;
    cbn [negb] in H; [| discriminate].
  destruct (includes PaperSize_values (paperSize c)) eqn:Hps;
    cbn [negb] in H; [| discriminate].
  destruct (PrinterFactory.out_of_range (timeout c) 0 60000) eqn:Hto;
    [discriminate |].
  destruct (PrinterFactory.out_of_range (retryAttempts c) 0 10) eqn:Hra;
    [discriminate |].
  constructor; try (now apply truthy_string_true); try assumption.
  - apply out_of_range_spec; [lia | exact Hto].
  - apply out_of_range_spec; [lia | exact Hra].
Qed.

Lemma basic_valid_validates c :
  basic_valid c -> PrinterFactory.validateBasicConfig c = true.
Proof.
  intros [H1 H2 H3 H4 H5 H6 H7 H8].
  unfold PrinterFactory.validateBasicConfig.
  apply truthy_string_true in H1, H2, H5.
  assert (Ht : Js.truthy_string (type c) = true).
  { apply truthy_string_true. intro E. rewrite E in H3. discriminate. }
  rewrite H1, H2, Ht, H5, H3, H4, H6. cbn.
  apply out_of_range_spec in H7; [| lia].
  apply out_of_range_spec in H8; [| lia].
  now rewrite H7, H8.
Qed.

Lemma validateBasicConfig_rejects c :
  missing_or_out_of_range c -> PrinterFactory.validateBasicConfig c = false.
Proof.
  intro H. destruct (PrinterFactory.validateBasicConfig c) eqn:E; [| reflexivity].
  apply validateBasicConfig_true in E. destruct E.
  destruct H as [H | [H | [H | [H | [[n [Hn H]] | [n [Hn H]]]]]]];
    try contradiction.
  - rewrite H in bv_type0. discriminate.
  - apply outside_not_within in H. exfalso. apply H. now apply bv_timeout0.
  - apply outside_not_within in H. exfalso. apply H.
    now apply bv_retryAttempts0.
Qed.

(** The validators and the constructors of [new PrinterFactory()]. *)
Lemma default_validateConfig dev c :
  PrinterFactory.validateConfig (defaultFactory dev) c
  = PrinterFactory.validateBasicConfig c
    && (negb (String.eqb (type c) (PrinterType_value CBX_POS_89E))
        || PrinterFactory.validateCbxPos89eConfig c).
Proof.
  unfold PrinterFactory.validateConfig.
  destruct (PrinterFactory.validateBasicConfig c); [| reflexivity].
  cbn [negb andb].
  unfold defaultFactory, PrinterFactory.new,
    PrinterFactory.registerDefaultPrinters,
    PrinterFactory.registerPrinterType.
  cbn [PrinterFactory.configValidators JsMap.set PrinterType_value
       String.eqb Ascii.eqb Bool.eqb JsMap.get].
  destruct (String.eqb (type c) "cbx_pos_89e"); cbn [negb orb].
  - now destruct (PrinterFactory.validateCbxPos89eConfig c).
  - now destruct (String.eqb (type c) "generic_esc_pos").
Qed.

Lemma default_constructor dev t :
  JsMap.get (PrinterFactory.printerRegistry (defaultFactory dev)) t
  = if String.eqb t (PrinterType_value CBX_POS_89E)
       || String.eqb t (PrinterType_value GENERIC_ESC_POS)
    then Some (CbxPos89ePrinter.new dev)
    else None.
Proof.
  unfold defaultFactory, PrinterFactory.new,
    PrinterFactory.registerDefaultPrinters,
    PrinterFactory.registerPrinterType.
  cbn [PrinterFactory.printerRegistry JsMap.set PrinterType_value
       String.eqb Ascii.eqb Bool.eqb JsMap.get].
  destruct (String.eqb t "cbx_pos_89e"); [reflexivity |].
  now destruct (String.eqb t "generic_esc_pos").
Qed.

(** The constructor of the driver: one call of the thermal library, whose
    exception comes out wrapped. *)
Lemma new_outcome dev i c :
  CbxPos89ePrinter.new dev i c
  = match dev i [] (thermal_setup c) with
    | Returns _ => Returned (fresh_driver i c)
    | Throws e =>
        Threw (PrinterError
                 ("Failed to initialize CBX POS 89E printer: "
                    ++ errorMessage e)
                 INVALID_CONFIG (Some i) (Some (asError e)))
    end.
Proof.
  unfold CbxPos89ePrinter.new, CbxPos89ePrinter.initializePrinters,
    try_catch, bind, modify, gets, CbxPos89ePrinter.call, thermal_setup,
    fresh_driver, throw.
  cbn.
  destruct (dev i []
              (NewThermalPrinter (CbxPos89ePrinter.getInterfaceString c)
                 (CbxPos89ePrinter.getWidthFromPaperSize (paperSize c))));
    reflexivity.
Qed.

Lemma has_driver_eqb t :
  has_driver t
  <-> String.eqb t (PrinterType_value CBX_POS_89E)
      || String.eqb t (PrinterType_value GENERIC_ESC_POS) = true.
Proof.
  unfold has_driver. rewrite orb_true_iff, !String.eqb_eq. reflexivity.
Qed.

(** C4, as stated, fails: a configuration of type [epson] passes both phases
    of the validation, and [createPrinter] throws for it. *)
Lemma createPrinter_epson_counterexample :
  PrinterFactory.validateBasicConfig epson_config = true
  /\ PrinterFactory.validateConfig (defaultFactory device_ok) epson_config
     = true
  /\ PrinterFactory.createPrinter (defaultFactory device_ok) epson_config
     = Threw (PrinterError "Unsupported printer type: epson"
                UNSUPPORTED_OPERATION None None).
Proof. repeat split; reflexivity. Qed.

(** C4, amended.  With the factory as [new PrinterFactory()] builds it.
    [validateConfig] answers true exactly for the configurations that pass
    the generic validation (identifier, name and connection string not
    empty; type, connection type and paper size in their enumerations; a
    time-out from 0 to 60000 and a retry count from 0 to 10, the bounds
    included) and, for the type [cbx_pos_89e], the validation of the CBX
    driver.  For such a configuration [createPrinter] throws no error of its
    own when the type has a driver ([cbx_pos_89e], [generic_esc_pos]): it
    constructs the driver for the identifier and the configuration, with
    one call of the thermal library, and what comes out is the driver, not
    connected, or the exception of that call, wrapped.  When the type has
    no driver, which is the case of [epson] and [star], it throws
    [UNSUPPORTED_OPERATION].  A configuration with a required field missing,
    or with a time-out outside 0..60000 or a retry count outside 0..10, is
    refused by [validateConfig], and [createPrinter] throws
    [INVALID_CONFIG] for it before it looks for a constructor. *)
Theorem factory_validates_then_creates :
  forall (dev : Device) (c : PrinterConfig),
    (PrinterFactory.validateConfig (defaultFactory dev) c = true
     <-> basic_valid c
         /\ (type c = PrinterType_value CBX_POS_89E ->
             PrinterFactory.validateCbxPos89eConfig c = true))
    /\ (PrinterFactory.validateConfig (defaultFactory dev) c = true ->
        (has_driver (type c) ->
         PrinterFactory.createPrinter (defaultFactory dev) c
         = match dev (id c) [] (thermal_setup c) with
           | Returns _ => Returned (fresh_driver (id c) c)
           | Throws e =>
               Threw (creation_failed
                        (PrinterError
                           ("Failed to initialize CBX POS 89E printer: "
                              ++ errorMessage e)
                           INVALID_CONFIG (Some (id c)) (Some (asError e))))
           end)
        /\ (~ has_driver (type c) ->
            (type c = PrinterType_value EPSON
             \/ type c = PrinterType_value STAR)
            /\ PrinterFactory.createPrinter (defaultFactory dev) c
               = Threw (PrinterError
                          ("Unsupported printer type: " ++ type c)
                          UNSUPPORTED_OPERATION None None)))
    /\ (missing_or_out_of_range c ->
        PrinterFactory.validateConfig (defaultFactory dev) c = false
        /\ PrinterFactory.createPrinter (defaultFactory dev) c
           = Threw (PrinterError
                      ("Invalid configuration for printer type: "
                         ++ Js.template (type_ c))
                      INVALID_CONFIG None None)).
Proof.
  intros dev c. split; [| split].
  - rewrite default_validateConfig, andb_true_iff. split.
    + intros [Hb Ht]. split; [now apply validateBasicConfig_true |].
      intro E. rewrite E, String.eqb_refl in Ht. exact Ht.
    + intros [Hb Ht]. split; [now apply basic_valid_validates |].
      destruct (String.eqb_spec (type c) (PrinterType_value CBX_POS_89E))
        as [E | E]; cbn [negb orb]; [now apply Ht | reflexivity].
  - intro Hv.
    assert (Hb : basic_valid c).
    { rewrite default_validateConfig in Hv. apply andb_true_iff in Hv.
      now apply validateBasicConfig_true. }
    assert (Hsome : exists t, type_ c = Some t).
    { destruct Hb as [_ _ Ht _ _ _ _ _]. unfold type in Ht.
      destruct (type_ c) as [t |]; [now exists t | discriminate]. }
    destruct Hsome as [t Ht].
    assert (Htype : type c = t) by (unfold type; now rewrite Ht).
    unfold PrinterFactory.createPrinter. rewrite Hv. cbn [negb].
    rewrite default_constructor. split.
    + intro Hd. apply has_driver_eqb in Hd. rewrite Hd, new_outcome.
      unfold creation_failed.
      now destruct (dev (id c) [] (thermal_setup c)).
    + intro Hd.
      assert (Hn : String.eqb (type c) (PrinterType_value CBX_POS_89E)
                   || String.eqb (type c) (PrinterType_value GENERIC_ESC_POS)
                   = false).
      { destruct (String.eqb (type c) (PrinterType_value CBX_POS_89E)
                  || String.eqb (type c) (PrinterType_value GENERIC_ESC_POS))
          eqn:E; [| reflexivity].
        apply has_driver_eqb in E. contradiction. }
      rewrite Hn, Ht, <- Htype. cbn [Js.template]. split; [| reflexivity].
      destruct Hb as [_ _ Hin _ _ _ _ _].
      apply orb_false_iff in Hn. destruct Hn as [Hn1 Hn2].
      unfold includes, PrinterType_values in Hin. cbn [map existsb] in Hin.
      rewrite Hn1, Hn2 in Hin. cbn [orb] in Hin.
      rewrite orb_false_r in Hin. apply orb_true_iff in Hin.
      rewrite !String.eqb_eq in Hin. exact Hin.
  - intro Hbad.
    assert (Hv : PrinterFactory.validateConfig (defaultFactory dev) c = false).
    { rewrite default_validateConfig.
      now rewrite (validateBasicConfig_rejects Hbad). }
    split; [exact Hv |].
    unfold PrinterFactory.createPrinter. now rewrite Hv.
Qed.

Lemma factory_validates_then_creates_witness :
  PrinterFactory.validateConfig (defaultFactory device_ok) bounds_config
  = true
  /\ PrinterFactory.createPrinter (defaultFactory device_ok) bounds_config
     = Returned (fresh_driver "p2" bounds_config)
  /\ PrinterFactory.validateConfig (defaultFactory device_ok)
       (mkPrinterConfig "p2" "Bar" "cbx_pos_89e" "usb" "CBX" "80mm" None
          (Some (Js.Int 60001)) None None)
     = false
  /\ PrinterFactory.createPrinter (defaultFactory device_ok) untyped_config
     = Threw (PrinterError
                "Invalid configuration for printer type: undefined"
                INVALID_CONFIG None None).
Proof.
  pose proof (factory_validates_then_creates device_ok bounds_config)
    as [Hiff [Hcreate _]].
  assert (Hv : PrinterFactory.validateConfig (defaultFactory device_ok)
                 bounds_config = true).
  { apply Hiff. split; [| reflexivity].
    constructor; cbn; try discriminate; try reflexivity.
    - intros n E. injection E as <-. cbn. lia.
    - intros n E. injection E as <-. cbn. lia. }
  split; [exact Hv |].
  split.
  { rewrite (proj1 (Hcreate Hv) (or_introl eq_refl)). reflexivity. }
  split.
  - refine (proj1 (proj2 (proj2 (factory_validates_then_creates device_ok _))
                     _)).
    unfold missing_or_out_of_range. cbn.
    right; right; right; right; left. exists (Js.Int 60001).
    split; [reflexivity | cbn; lia].
  - refine (proj2 (proj2 (proj2 (factory_validates_then_creates device_ok
                                   untyped_config))
                     _)).
    unfold missing_or_out_of_range. cbn. right; right; left. reflexivity.
Defined.

(** ** C9: the configuration helper *)

(** C9.  Without options, [createCbxPos89eConfig(name, connectionString)]
    gives the type [cbx_pos_89e], the connection type [usb], the paper size
    [80mm], the character set [UTF-8], the time-out 3000, three retries and
    [isDefault] false, with the name and the connection string given; the
    identifier is made from the clock. *)
Theorem createCbxPos89eConfig_defaults :
  forall (now : Z) (name connectionString : string),
    Utils.createCbxPos89eConfig now name connectionString no_options
    = mkPrinterConfig ("cbx_" ++ Js.dec now) name
        (PrinterType_value CBX_POS_89E) (PrinterConnectionType_value USB)
        connectionString (PaperSize_value MM_80) (Some "UTF-8")
        (Some (Js.Int 3000)) (Some (Js.Int 3)) (Some false).
Proof. reflexivity. Qed.

(** ** C10: [validatePrinter] and [testPrinter] *)

Section Validation.

Context {P : Type} {ops : IPrinter.ops P}.

Lemma validatePrinter_unknown now k (r : PrinterRegistry.Registry P) :
  PrinterRegistry.getPrinter r k = None ->
  PrinterRegistry.validatePrinter now k r = (Returned false, r).
Proof.
  unfold PrinterRegistry.getPrinter, PrinterRegistry.validatePrinter, bind, gets.
  intros ->. reflexivity.
Qed.

Lemma validatePrinter_known now k (r : PrinterRegistry.Registry P) p :
  PrinterRegistry.getPrinter r k = Some p ->
  PrinterRegistry.validatePrinter now k r
  = (match fst (IPrinter.selfTest now p) with
     | Returned b => Returned b
     | Threw _ => Returned false
     end,
     PrinterRegistry.set_printers
       (JsMap.set (PrinterRegistry.printers r) k
          (snd (IPrinter.selfTest now p))) r).
Proof.
  unfold PrinterRegistry.getPrinter, PrinterRegistry.validatePrinter, bind,
    gets, try_catch, PrinterRegistry.on_printer.
  intros ->.
  destruct (IPrinter.selfTest now p) as [[b | e] p']; reflexivity.
Qed.

Lemma validatePrinter_returns now k (r : PrinterRegistry.Registry P) :
  exists b r', PrinterRegistry.validatePrinter now k r = (Returned b, r').
Proof.
  destruct (PrinterRegistry.getPrinter r k) as [p |] eqn:Hp.
  - rewrite (validatePrinter_known now k r Hp).
    destruct (fst (IPrinter.selfTest now p)); eauto.
  - rewrite (validatePrinter_unknown now k r Hp). eauto.
Qed.

End Validation.

(** C10, as stated, fails for [testPrinter]: before [initialize()] it throws. *)
Lemma testPrinter_uninitialized_counterexample :
  PrinterService.initialized fresh_service = false
  /\ @PrinterService.testPrinter _ (CbxPos89ePrinter_ops device_ok) 1700
       "nonexistent-printer" fresh_service
     = (Threw (PrinterError "Printer service not initialized" INVALID_CONFIG
                 None None),
        fresh_service).
Proof. split; reflexivity. Qed.

(** C10, amended.  [validatePrinter(id)] never throws, whatever the printers
    are: it returns a boolean; for an identifier that the registry does not
    hold it returns false and changes nothing; when the self-test of the
    printer throws, it returns false.  On a service that has been
    initialized, [testPrinter(id)] returns what [validatePrinter(id)]
    returns, so it does not throw either. *)
Theorem validatePrinter_never_throws :
  forall (P : Type) (ops : IPrinter.ops P) (now : Z) (k : string),
    (forall r : PrinterRegistry.Registry P,
        (exists b r', PrinterRegistry.validatePrinter now k r = (Returned b, r'))
        /\ (PrinterRegistry.getPrinter r k = None ->
            PrinterRegistry.validatePrinter now k r = (Returned false, r))
        /\ (forall p e p',
               PrinterRegistry.getPrinter r k = Some p ->
               IPrinter.selfTest now p = (Threw e, p') ->
               exists r',
                 PrinterRegistry.validatePrinter now k r = (Returned false, r')))
    /\ (forall s : PrinterService.Service P,
           PrinterService.initialized s = true ->
           (exists b s', PrinterService.testPrinter now k s = (Returned b, s'))
           /\ fst (PrinterService.testPrinter now k s)
              = fst (PrinterRegistry.validatePrinter now k
                       (PrinterService.registry s))
           /\ (PrinterRegistry.getPrinter (PrinterService.registry s) k = None ->
               PrinterService.testPrinter now k s = (Returned false, s))).
Proof.
  intros P ops now k. split.
  - intro r. split; [apply validatePrinter_returns |].
    split; [apply validatePrinter_unknown |].
    intros p e p' Hp Hs. rewrite (validatePrinter_known now k r Hp), Hs.
    eauto.
  - intros s Hi.
    assert (Ht : PrinterService.testPrinter now k s
                 = (fst (PrinterRegistry.validatePrinter now k
                           (PrinterService.registry s)),
                    PrinterService.mkService
                      (snd (PrinterRegistry.validatePrinter now k
                              (PrinterService.registry s)))
                      (PrinterService.configManager s)
                      (PrinterService.initialized s)
                      (PrinterService.emitted s))).
    { unfold PrinterService.testPrinter, PrinterService.ensureInitialized,
        PrinterService.in_registry, bind, gets.
      rewrite Hi. cbn [negb]. unfold ret.
      destruct (PrinterRegistry.validatePrinter now k
                  (PrinterService.registry s));
        cbn; rewrite ?Hi; reflexivity. }
    rewrite Ht. cbn [fst].
    destruct (validatePrinter_returns now k (PrinterService.registry s))
      as [b [r' Hv]].
    split; [| split].
    + rewrite Hv. cbn. eauto.
    + reflexivity.
    + intro Hn. rewrite (validatePrinter_unknown now k _ Hn). cbn.
      destruct s; reflexivity.
Qed.

Lemma validatePrinter_never_throws_witness :
  (exists r',
      @PrinterRegistry.validatePrinter _ faulty_ops 1700 "faulty"
        faulty_registry
      = (Returned false, r'))
  /\ (exists b s',
         @PrinterService.testPrinter _ faulty_ops 1700 "faulty"
           (PrinterService.mkService faulty_registry ConfigManager.new true [])
         = (Returned b, s')).
Proof.
  split.
  - exact (proj2 (proj2 (proj1 (validatePrinter_never_throws faulty_ops 1700
                                  "faulty") faulty_registry))
             tt (JsError "Error" "self-test crashed") tt eq_refl eq_refl).
  - exact (proj1 (proj2 (validatePrinter_never_throws faulty_ops 1700 "faulty")
                    (PrinterService.mkService faulty_registry ConfigManager.new
                       true [])
                    eq_refl)).
Defined.

(** ** C5: the default printer of the registry *)

Lemma JsMap_set_set {V} (m : JsMap.t V) k v v' :
  JsMap.set (JsMap.set m k v) k v' = JsMap.set m k v'.
Proof.
  induction m as [| [k0 v0] m IH]; cbn.
  - now rewrite String.eqb_refl.
  - destruct (String.eqb k k0) eqn:E; cbn.
    + now rewrite String.eqb_refl.
    + now rewrite E, IH.
Qed.

Section RegistryDefault.

Context {P : Type} {ops : IPrinter.ops P}.

Variable factory : IPrinterFactory.t P.

(** What a registration that returns has done. *)
Lemma registerPrinter_returned c (r r' : PrinterRegistry.Registry P) k :
  PrinterRegistry.registerPrinter factory c r = (Returned k, r') ->
  k = id c
  /\ IPrinterFactory.validateConfig factory c = true
  /\ JsMap.has (PrinterRegistry.printers r) (id c) = false
  /\ exists p,
      PrinterRegistry.printers r'
      = JsMap.set (PrinterRegistry.printers r) (id c) p
      /\ PrinterRegistry.defaultPrinterId r'
         = (if Js.truthy_obool (isDefault c)
               || (JsMap.size (PrinterRegistry.printers r') =? 1)%nat
            then Some (id c) else PrinterRegistry.defaultPrinterId r).
Proof.
  unfold PrinterRegistry.registerPrinter, try_catch, bind, gets, modify,
    PrinterRegistry.lift, PrinterRegistry.setupPrinterEventForwarding,
    PrinterRegistry.on_printer, PrinterRegistry.emit, when, throw, ret.
  destruct (IPrinterFactory.validateConfig factory c);
    cbn [negb]; [| discriminate].
  destruct (JsMap.has (PrinterRegistry.printers r) (id c)); [discriminate |].
  destruct (IPrinterFactory.createPrinter factory c)
    as [p | e]; [| discriminate].
  cbn.
  destruct (IPrinter.on_forward p) as [[[] | e] p']; cbn; [| discriminate].
  rewrite JsMap_set_set.
  match goal with
  | |- context [if ?b then _ else _] => destruct b eqn:Hd
  end;
    cbn; intro H; inversion H; subst; cbn;
    (split; [reflexivity |]); (split; [reflexivity |]);
    (split; [reflexivity |]); exists p'; cbn; unfold JsMap.size;
    rewrite ?Hd; repeat split.
Qed.

(** What a removal that returns has done. *)
Lemma unregisterPrinter_returned k (r r' : PrinterRegistry.Registry P) :
  PrinterRegistry.unregisterPrinter k r = (Returned tt, r') ->
  exists p p',
    JsMap.get (PrinterRegistry.printers r) k = Some p
    /\ PrinterRegistry.printers r'
       = JsMap.delete (JsMap.set (PrinterRegistry.printers r) k p') k
    /\ PrinterRegistry.defaultPrinterId r'
       = (if match PrinterRegistry.defaultPrinterId r with
             | Some d => String.eqb d k
             | None => false
             end
          then if (0 <? JsMap.size (PrinterRegistry.printers r'))%nat
               then JsMap.first_key (PrinterRegistry.printers r')
               else None
          else PrinterRegistry.defaultPrinterId r).
Proof.
  unfold PrinterRegistry.unregisterPrinter, try_catch, bind, gets, modify,
    PrinterRegistry.on_printer, PrinterRegistry.emit, when, throw, ret.
  destruct (JsMap.get (PrinterRegistry.printers r) k) as [p |];
    [| discriminate].
  destruct (IPrinter.dispose p) as [[[] | e] p']; cbn; [| discriminate].
  match goal with
  | |- context [if ?b then _ else _] => destruct b eqn:Hd
  end;
    cbn; intro H; inversion H; subst; cbn; rewrite ?Hd;
    exists p, p'; repeat split.
Qed.

End RegistryDefault.

Lemma factory_validateConfig_basic {P} (f : PrinterFactory.Factory P) c :
  PrinterFactory.validateConfig f c = true -> basic_valid c.
Proof.
  unfold PrinterFactory.validateConfig. intro H.
  apply validateBasicConfig_true.
  destruct (PrinterFactory.validateBasicConfig c); [reflexivity | discriminate].
Qed.

(** The flag of the second printer: when it is set too, the second printer is
    the default after both registrations. *)
Example flagged_second_takes_over :
  isDefault first_config = Some true
  /\ register_ok first_config defaultRegistry = (Returned "p1", one_printer)
  /\ register_ok (second_config true) one_printer
     = (Returned "p2", two_printers true)
  /\ PrinterRegistry.defaultPrinterId (two_printers true) = Some "p2"
  /\ option_map CbxPos89ePrinter.drv_id
       (PrinterRegistry.getDefaultPrinter (two_printers true))
     = Some "p2".
Proof. repeat split; vm_compute; reflexivity. Qed.

(** C5.  In a registry built on a [PrinterFactory], when P1 is registered
    first, with the default flag, and P2 second, without the flag:
    [getDefaultPrinter()] returns the printer of P1; once
    [unregisterPrinter(P1)] has returned it returns the printer of P2; once
    [unregisterPrinter(P2)] has returned too it returns null. *)
Theorem default_printer_follows_registration :
  forall (P : Type) (ops : IPrinter.ops P) (f : PrinterFactory.Factory P)
         (c1 c2 : PrinterConfig) (k1 k2 : string)
         (r1 r2 : PrinterRegistry.Registry P),
    PrinterRegistry.registerPrinter (PrinterFactory.as_interface f) c1
      PrinterRegistry.new
    = (Returned k1, r1) ->
    PrinterRegistry.registerPrinter (PrinterFactory.as_interface f) c2 r1
    = (Returned k2, r2) ->
    isDefault c1 = Some true ->
    Js.truthy_obool (isDefault c2) = false ->
    (exists p1,
        PrinterRegistry.getPrinter r2 (id c1) = Some p1
        /\ PrinterRegistry.getDefaultPrinter r2 = Some p1)
    /\ (forall r3,
           PrinterRegistry.unregisterPrinter (id c1) r2 = (Returned tt, r3) ->
           (exists p2,
               PrinterRegistry.getPrinter r3 (id c2) = Some p2
               /\ PrinterRegistry.getDefaultPrinter r3 = Some p2)
           /\ (forall r4,
                  PrinterRegistry.unregisterPrinter (id c2) r3
                  = (Returned tt, r4) ->
                  PrinterRegistry.getDefaultPrinter r4 = None)).
Proof.
  intros P ops f c1 c2 k1 k2 r1 r2 H1 H2 Hflag1 Hflag2.
  apply registerPrinter_returned in H1.
  destruct H1 as [_ [Hv1 [_ [p1 [Hp1 Hd1]]]]].
  apply registerPrinter_returned in H2.
  destruct H2 as [_ [Hv2 [Hfresh [p2 [Hp2 Hd2]]]]].
  cbn in Hv1, Hv2, Hp1.
  pose proof (bv_id (factory_validateConfig_basic f c1 Hv1)) as Hid1.
  pose proof (bv_id (factory_validateConfig_basic f c2 Hv2)) as Hid2.
  apply truthy_string_true in Hid1, Hid2.
  rewrite Hp1 in Hd1. cbn in Hd1. rewrite orb_true_r in Hd1.
  rewrite Hp1 in Hfresh. unfold JsMap.has in Hfresh. cbn in Hfresh.
  destruct (String.eqb (id c2) (id c1)) eqn:Hne; [discriminate |].
  rewrite Hp1 in Hp2. cbn in Hp2. rewrite Hne in Hp2.
  rewrite Hp2, Hflag2, Hd1 in Hd2. cbn in Hd2.
  assert (Hne' : String.eqb (id c1) (id c2) = false)
    by (rewrite String.eqb_sym; exact Hne).
  split.
  - exists p1. unfold PrinterRegistry.getDefaultPrinter,
      PrinterRegistry.getPrinter.
    rewrite Hd2, Hid1, Hp2. cbn. rewrite String.eqb_refl. auto.
  - intros r3 H3. apply unregisterPrinter_returned in H3.
    destruct H3 as [q1 [q1' [_ [Hp3 Hd3]]]].
    rewrite Hp2 in Hp3. cbn in Hp3. rewrite !String.eqb_refl in Hp3.
    cbn in Hp3. rewrite String.eqb_refl in Hp3.
    rewrite Hd2, String.eqb_refl, Hp3 in Hd3. cbn in Hd3.
    split.
    + exists p2. unfold PrinterRegistry.getDefaultPrinter,
        PrinterRegistry.getPrinter.
      rewrite Hd3, Hid2, Hp3. cbn. rewrite String.eqb_refl. auto.
    + intros r4 H4. apply unregisterPrinter_returned in H4.
      destruct H4 as [q2 [q2' [_ [Hp4 Hd4]]]].
      rewrite Hp3 in Hp4. cbn in Hp4. rewrite !String.eqb_refl in Hp4.
      cbn in Hp4. rewrite String.eqb_refl in Hp4.
      rewrite Hd3, String.eqb_refl, Hp4 in Hd4. cbn in Hd4.
      unfold PrinterRegistry.getDefaultPrinter. now rewrite Hd4.
Qed.

Lemma default_printer_follows_registration_witness :
  (exists p1,
      PrinterRegistry.getPrinter (two_printers false) "p1" = Some p1
      /\ PrinterRegistry.getDefaultPrinter (two_printers false) = Some p1)
  /\ (exists p2,
         PrinterRegistry.getPrinter second_only "p2" = Some p2
         /\ PrinterRegistry.getDefaultPrinter second_only = Some p2)
  /\ PrinterRegistry.getDefaultPrinter none_left = None.
Proof.
  assert (E1 : register_ok first_config PrinterRegistry.new
               = (Returned "p1", one_printer)) by (vm_compute; reflexivity).
  assert (E2 : register_ok (second_config false) one_printer
               = (Returned "p2", two_printers false))
    by (vm_compute; reflexivity).
  assert (E3 : unregister_ok (id first_config) (two_printers false)
               = (Returned tt, second_only)) by (vm_compute; reflexivity).
  assert (E4 : unregister_ok (id (second_config false)) second_only
               = (Returned tt, none_left))
    by (vm_compute; reflexivity).
  destruct (@default_printer_follows_registration _
              (CbxPos89ePrinter_ops device_ok) (defaultFactory device_ok)
              first_config (second_config false) "p1" "p2" one_printer
              (two_printers false) E1 E2 eq_refl eq_refl)
    as [H2 H3].
  split; [exact H2 |].
  destruct (H3 second_only E3) as [H3' H4].
  split; [exact H3' | exact (H4 none_left E4)].
Defined.

(** ** C7: discovery *)

(** C7.  [discoverPrinters()] never throws: it returns what the USB path,
    the path of the installed printers and the network path found, one after
    the other.  A path whose tool throws contributes nothing and the other
    paths contribute what they find; an address whose probe fails or answers
    no contributes nothing and the other addresses are still probed.  When
    every tool throws and no address answers, the list is empty. *)
Theorem discoverPrinters_never_throws :
  forall h : Discovery.Host,
    Discovery.discoverPrinters h
    = Returned (usb_found h ++ installed_found h
                  ++ flat_map (network_candidate h) Discovery.commonIPs)%list
    /\ (forall e,
           Discovery.execSync h (usb_command (Discovery.platform h)) = Threw e ->
           usb_found h = [])
    /\ (forall e,
           Discovery.execSync h (installed_command (Discovery.platform h))
           = Threw e ->
           installed_found h = [])
    /\ (forall ip,
           Discovery.checkNetworkPrinter h ip 9100 <> Returned true ->
           network_candidate h ip = [])
    /\ ((forall command, exists e, Discovery.execSync h command = Threw e) ->
        (forall ip, Discovery.checkNetworkPrinter h ip 9100 <> Returned true) ->
        Discovery.discoverPrinters h = Returned []).
Proof.
  intro h.
  assert (Hall : Discovery.discoverPrinters h
                 = Returned (usb_found h ++ installed_found h
                               ++ flat_map (network_candidate h)
                                    Discovery.commonIPs)%list).
  { unfold usb_found, installed_found, Discovery.discoverPrinters,
      Discovery.discoverUSBPrinters, Discovery.discoverWindowsPrinters,
      Discovery.discoverMacOSPrinters, Discovery.discoverLinuxPrinters,
      Discovery.discoverNetworkPrinters, Discovery.probe.
    destruct h as [p ex ck].
    cbn [Discovery.platform Discovery.execSync Discovery.checkNetworkPrinter].
    destruct p; cbn iota beta; reflexivity. }
  assert (Hnet : forall ip,
             Discovery.checkNetworkPrinter h ip 9100 <> Returned true ->
             network_candidate h ip = []).
  { intros ip Hip. unfold network_candidate.
    destruct (Discovery.checkNetworkPrinter h ip 9100) as [[|] | ?];
      [contradiction | reflexivity | reflexivity]. }
  split; [exact Hall |].
  split; [intros e He; unfold usb_found; now rewrite He |].
  split; [intros e He; unfold installed_found; now rewrite He |].
  split; [exact Hnet |].
  intros Htools Hprobe. rewrite Hall.
  destruct (Htools (usb_command (Discovery.platform h))) as [e1 He1].
  destruct (Htools (installed_command (Discovery.platform h))) as [e2 He2].
  unfold usb_found, installed_found. rewrite He1, He2.
  cbn. rewrite !Hnet by apply Hprobe. reflexivity.
Qed.

Lemma discoverPrinters_never_throws_witness :
  Discovery.discoverPrinters bare_host = Returned []
  /\ Discovery.discoverPrinters usb_host
     = Returned
         [mkDiscovery "usb_CBX_POS_89E_Printer" "CBX POS 89E Printer"
            CBX_POS_89E USB "CBX POS 89E Printer" true;
          mkDiscovery "network_192_168_0_100" "Network Printer (192.168.0.100)"
            GENERIC_ESC_POS NETWORK "192.168.0.100:9100" true].
Proof.
  split.
  - apply (proj2 (proj2 (proj2 (proj2
             (discoverPrinters_never_throws bare_host))))).
    + intro command. eexists. reflexivity.
    + intros ip H. discriminate H.
  - rewrite (proj1 (discoverPrinters_never_throws usb_host)).
    vm_compute. reflexivity.
Defined.

(** ** C8: export, then import *)

Lemma decode_encode c :
  json_number (timeout c) -> json_number (retryAttempts c) ->
  ConfigManager.decode (ConfigManager.encode c) = Some c.
Proof.
  destruct c as [i n t ct cs ps ch to ra df]. cbn [timeout retryAttempts].
  intros Hto Hra.
  destruct to as [[z | | | | |] |]; try contradiction;
    destruct ra as [[z' | | | | |] |]; try contradiction;
    destruct t, ch, df; reflexivity.
Qed.

Lemma validate_record_encode c :
  json_number (timeout c) -> json_number (retryAttempts c) ->
  ConfigManager.validateConfig c = true ->
  ConfigManager.validate_record (ConfigManager.encode c) = inr c.
Proof.
  intros Hto Hra Hv.
  change (ConfigManager.validate_record (ConfigManager.encode c))
    with (match ConfigManager.decode (ConfigManager.encode c) with
          | None => inl (JsError "Error" "Invalid configuration: unknown")
          | Some config =>
              if negb (ConfigManager.validateConfig config) then
                inl (JsError "Error"
                       ("Invalid configuration: "
                          ++ Js.or_string (Some (id config)) "unknown"))
              else inr config
          end).
  now rewrite (decode_encode c Hto Hra), Hv.
Qed.

Lemma JsMap_set_fresh {V} (m : JsMap.t V) k v :
  ~ In k (JsMap.keys m) -> JsMap.set m k v = (m ++ [(k, v)])%list.
Proof.
  induction m as [| [k0 v0] m IH]; cbn; intro H; [reflexivity |].
  destruct (String.eqb_spec k k0) as [-> | Hne].
  - exfalso. apply H. now left.
  - rewrite IH; [reflexivity |]. intro Hin. apply H. now right.
Qed.

Lemma JsMap_has_in {V} (m : JsMap.t V) k :
  JsMap.has m k = true -> In k (JsMap.keys m).
Proof.
  unfold JsMap.has. induction m as [| [k0 v0] m IH]; cbn; [discriminate |].
  destruct (String.eqb_spec k k0) as [-> | Hne]; [now left |].
  intro H. right. exact (IH H).
Qed.

(** The loop that fills the cache rebuilds a map from its values. *)
Lemma fill_from (m2 m1 : JsMap.t PrinterConfig) :
  keyed_by_id m2 ->
  NoDup (JsMap.keys (m1 ++ m2)%list) ->
  fold_left (fun m config => JsMap.set m (id config) config)
    (JsMap.values m2) m1
  = (m1 ++ m2)%list.
Proof.
  revert m1. induction m2 as [| [k c] m2 IH]; intros m1 Hk Hnd; cbn.
  - now rewrite app_nil_r.
  - inversion Hk as [| ? ? Hkc Hk']; subst. cbn in Hkc. subst k.
    assert (Hfresh : ~ In (id c) (JsMap.keys m1)).
    { unfold JsMap.keys in *. rewrite map_app in Hnd. cbn in Hnd.
      apply NoDup_remove_2 in Hnd. intro Hin. apply Hnd.
      apply in_or_app. now left. }
    rewrite (@JsMap_set_fresh _ m1 (id c) c Hfresh).
    rewrite IH; [now rewrite <- app_assoc | exact Hk' |].
    now rewrite <- app_assoc.
Qed.

Lemma fill_values (m : JsMap.t PrinterConfig) :
  keyed_by_id m -> NoDup (JsMap.keys m) ->
  ConfigManager.fill (JsMap.values m) = m.
Proof. intros Hk Hnd. exact (@fill_from m [] Hk Hnd). Qed.

Lemma validate_all_encode (m : JsMap.t PrinterConfig) :
  all_valid m -> json_numbers m ->
  ConfigManager.validate_all (map ConfigManager.encode (JsMap.values m))
  = inr (JsMap.values m).
Proof.
  unfold JsMap.values.
  induction m as [| [k c] m IH]; intros Hv Hn;
    cbn [map snd ConfigManager.validate_all]; [reflexivity |].
  inversion Hv as [| ? ? Hc Hv']; subst. cbn [snd] in Hc.
  inversion Hn as [| ? ? [Hto Hra] Hn']; subst. cbn [snd] in Hto, Hra.
  now rewrite (validate_record_encode c Hto Hra Hc), (IH Hv' Hn').
Qed.

Lemma stored_key_truthy (m : JsMap.t PrinterConfig) d :
  keyed_by_id m -> all_valid m -> JsMap.has m d = true ->
  Js.truthy_string d = true.
Proof.
  intros Hk Hv Hd. apply JsMap_has_in in Hd.
  unfold JsMap.keys in Hd. apply in_map_iff in Hd.
  destruct Hd as [[k c] [Hkd Hin]]. cbn in Hkd. subst k.
  unfold keyed_by_id, all_valid in *. rewrite Forall_forall in Hk, Hv.
  specialize (Hk _ Hin). specialize (Hv _ Hin). cbn in Hk, Hv. subst d.
  apply truthy_string_true.
  exact (bv_id (validateBasicConfig_true c Hv)).
Qed.

(** What the import of the export of [s] does, in the state in which the
    cache has been filled again. *)
Lemma import_export_run writeFile exportDate importDate s :
  keyed_by_id (ConfigManager.configCache s) ->
  NoDup (JsMap.keys (ConfigManager.configCache s)) ->
  all_valid (ConfigManager.configCache s) ->
  json_numbers (ConfigManager.configCache s) ->
  ConfigManager.importConfigs writeFile importDate
    (Returned (ConfigManager.exportConfigs exportDate s)) s
  = let s' :=
      if match ConfigManager.defaultConfigId s with
         | Some d => JsMap.has (ConfigManager.configCache s) d
         | None => false
         end
      then s
      else
        match ConfigManager.configCache s with
        | [] => s
        | (k, c) :: rest =>
            ConfigManager.mkStore (Some k)
              ((k, ConfigManager.set_isDefault true c) :: rest)
              (ConfigManager.written s)
        end in
    (match writeFile (ConfigManager.configData importDate s') with
     | Returned _ => Returned tt
     | Threw error =>
         Threw (PrinterError
                  ("Failed to import configurations: "
                     ++ errorMessage error)
                  INVALID_CONFIG None (Some (asError error)))
     end,
     ConfigManager.mkStore (ConfigManager.defaultConfigId s')
       (ConfigManager.configCache s')
       (ConfigManager.written s
          ++ [ConfigManager.configData importDate s'])).
Proof.
  intros Hk Hnd Hv Hn.
  unfold ConfigManager.importConfigs, ConfigManager.exportConfigs.
  cbn [ConfigManager.prop String.eqb Ascii.eqb Bool.eqb].
  rewrite (validate_all_encode Hv Hn).
  unfold try_catch, bind, modify, gets.
  cbn [ConfigManager.set_configCache ConfigManager.configCache
       ConfigManager.defaultConfigId ConfigManager.written].
  rewrite (fill_values Hk Hnd).
  destruct s as [d cache w].
  cbn [ConfigManager.configCache ConfigManager.defaultConfigId
       ConfigManager.written] in *.
  assert (Hfin :
            forall s0 : ConfigManager.Store,
              ConfigManager.saveConfigurationsToFile writeFile importDate s0
              = (writeFile (ConfigManager.configData importDate s0),
                 ConfigManager.mkStore (ConfigManager.defaultConfigId s0)
                   (ConfigManager.configCache s0)
                   (ConfigManager.written s0
                      ++ [ConfigManager.configData importDate s0])))
    by reflexivity.
  destruct d as [d |]; cbn [ConfigManager.default_json].
  - destruct (JsMap.has cache d) eqn:Hhas.
    + rewrite (@stored_key_truthy _ _ Hk Hv Hhas). cbn [andb].
      cbv [ConfigManager.set_configCache ConfigManager.set_defaultConfigId
           ConfigManager.configCache ConfigManager.defaultConfigId
           ConfigManager.written].
      rewrite Hfin. cbn [ConfigManager.configCache
                         ConfigManager.defaultConfigId
                         ConfigManager.written].
      destruct (writeFile _) as [[] | e]; reflexivity.
    + rewrite andb_false_r.
      destruct cache as [| [k c] rest];
        cbv [JsMap.first_key ConfigManager.mark_default ret modify
             ConfigManager.set_configCache ConfigManager.set_defaultConfigId
             ConfigManager.configCache ConfigManager.defaultConfigId
             ConfigManager.written JsMap.get JsMap.set];
        rewrite ?String.eqb_refl; cbv beta iota zeta; rewrite Hfin;
        cbn [ConfigManager.configCache ConfigManager.defaultConfigId
             ConfigManager.written];
        destruct (writeFile _) as [[] | e]; reflexivity.
  - destruct cache as [| [k c] rest];
      cbv [JsMap.first_key ConfigManager.mark_default ret modify
           ConfigManager.set_configCache ConfigManager.set_defaultConfigId
           ConfigManager.configCache ConfigManager.defaultConfigId
           ConfigManager.written JsMap.get JsMap.set];
      rewrite ?String.eqb_refl; cbv beta iota zeta; rewrite Hfin;
      cbn [ConfigManager.configCache ConfigManager.defaultConfigId
           ConfigManager.written];
      destruct (writeFile _) as [[] | e]; reflexivity.
Qed.

(** C8, as stated, fails.  After [saveConfig] of a configuration that is not
    flagged as default the store has no default identifier; the import of its
    own export makes the configuration the default and sets its flag.  And
    after [saveConfig] of a configuration whose time-out is [NaN], which the
    validation lets through, the import of the export has [null] for the
    time-out. *)
Lemma import_export_default_counterexample :
  (fst (ConfigManager.saveConfig accept_write "2024-01-01T00:00:00.000Z"
          sample_config ConfigManager.new)
   = Returned tt
   /\ ConfigManager.defaultConfigId saved_once = None
   /\ ConfigManager.loadConfig saved_once "p1" = Some sample_config
   /\ isDefault sample_config = Some false
   /\ fst (ConfigManager.importConfigs accept_write
             "2024-01-02T00:00:00.000Z"
             (Returned (ConfigManager.exportConfigs "2024-01-02T00:00:00.000Z"
                      saved_once))
             saved_once)
      = Returned tt
   /\ ConfigManager.defaultConfigId reimported = Some "p1"
   /\ option_map isDefault (ConfigManager.loadConfig reimported "p1")
      = Some (Some true))
  /\ (fst (ConfigManager.saveConfig accept_write "2024-01-01T00:00:00.000Z"
             nan_config ConfigManager.new)
      = Returned tt
      /\ ConfigManager.defaultConfigId saved_nan = Some "p1"
      /\ ConfigManager.loadConfig saved_nan "p1" = Some nan_config
      /\ timeout nan_config = Some Js.NaN
      /\ fst (ConfigManager.importConfigs accept_write
                "2024-01-02T00:00:00.000Z"
                (Returned (ConfigManager.exportConfigs
                         "2024-01-02T00:00:00.000Z" saved_nan))
                saved_nan)
         = Returned tt
      /\ ConfigManager.defaultConfigId reimported_nan = Some "p1"
      /\ option_map timeout (ConfigManager.loadConfig reimported_nan "p1")
         = Some (Some Js.Null)).
Proof. repeat split; vm_compute; reflexivity. Qed.

(** C8, amended.  Take a store in which every configuration passes
    [validateConfig], is kept under its own identifier, and has for its
    time-out and its retry count a number that JSON writes as it is (or
    nothing).  When its default identifier names one of its configurations,
    or it holds none, the import of the export restores the state: the same
    configurations in the same order, field for field, and the same default
    identifier.  Otherwise the import makes the first configuration the
    default and sets its flag, and restores the rest.  The call returns when
    the file is written, and the store is as said also when the write
    fails. *)
Theorem import_export_restores :
  forall (writeFile : Json -> outcome unit) (exportDate importDate : string)
         (s : ConfigManager.Store),
    keyed_by_id (ConfigManager.configCache s) ->
    NoDup (JsMap.keys (ConfigManager.configCache s)) ->
    all_valid (ConfigManager.configCache s) ->
    json_numbers (ConfigManager.configCache s) ->
    let run :=
      ConfigManager.importConfigs writeFile importDate
        (Returned (ConfigManager.exportConfigs exportDate s)) s in
    (default_is_stored s ->
     ConfigManager.configCache (snd run) = ConfigManager.configCache s
     /\ ConfigManager.defaultConfigId (snd run)
        = ConfigManager.defaultConfigId s
     /\ (forall k,
            ConfigManager.loadConfig (snd run) k
            = ConfigManager.loadConfig s k))
    /\ (~ default_is_stored s ->
        exists k c rest,
          ConfigManager.configCache s = (k, c) :: rest
          /\ ConfigManager.configCache (snd run)
             = (k, ConfigManager.set_isDefault true c) :: rest
          /\ ConfigManager.defaultConfigId (snd run) = Some k)
    /\ (writeFile (ConfigManager.configData importDate (snd run))
        = Returned tt ->
        fst run = Returned tt).
Proof.
  intros writeFile exportDate importDate s Hk Hnd Hv Hn run.
  unfold run.
  rewrite (@import_export_run writeFile exportDate importDate s Hk Hnd Hv
             Hn).
  cbv zeta.
  destruct s as [d cache w].
  cbn [ConfigManager.configCache ConfigManager.defaultConfigId
       ConfigManager.written] in *.
  split; [| split].
  - intros [Hempty | [d0 [Hd0 Hhas]]];
      cbn [ConfigManager.configCache ConfigManager.defaultConfigId] in *.
    + subst cache. now destruct d as [d |].
    + subst d. rewrite Hhas. cbn. auto.
  - intro Hnot.
    assert (Hd : match d with
                 | Some d0 => JsMap.has cache d0
                 | None => false
                 end = false).
    { destruct d as [d0 |]; [| reflexivity].
      destruct (JsMap.has cache d0) eqn:E; [| reflexivity].
      exfalso. apply Hnot. right. exists d0. now split. }
    rewrite Hd.
    destruct cache as [| [k c] rest].
    + exfalso. apply Hnot. now left.
    + exists k, c, rest. cbn. auto.
  - match goal with
    | |- context [if ?b then _ else _] => destruct b
    end; [| destruct cache as [| [k c] rest]];
      unfold ConfigManager.configData;
      cbn [fst snd ConfigManager.configCache ConfigManager.defaultConfigId];
      intros ->; reflexivity.
Qed.

Example saved_two_contents :
  ConfigManager.configCache saved_two
  = [("p1", first_config); ("p2", second_config false)]
  /\ ConfigManager.defaultConfigId saved_two = Some "p1".
Proof. split; vm_compute; reflexivity. Qed.

Lemma import_export_restores_witness :
  let run :=
    ConfigManager.importConfigs accept_write "2024-01-03T00:00:00.000Z"
      (Returned (ConfigManager.exportConfigs "2024-01-02T00:00:00.000Z" saved_two))
      saved_two in
  ConfigManager.configCache (snd run)
  = [("p1", first_config); ("p2", second_config false)]
  /\ ConfigManager.defaultConfigId (snd run) = Some "p1"
  /\ fst run = Returned tt.
Proof.
  assert (Hk : keyed_by_id (ConfigManager.configCache saved_two))
    by (repeat constructor).
  assert (Hnd : NoDup (JsMap.keys (ConfigManager.configCache saved_two))).
  { repeat constructor; cbn; intuition discriminate. }
  assert (Hv : all_valid (ConfigManager.configCache saved_two))
    by (repeat constructor).
  assert (Hn : json_numbers (ConfigManager.configCache saved_two))
    by (repeat constructor).
  assert (Hd : default_is_stored saved_two).
  { right. exists "p1". split; reflexivity. }
  destruct (@import_export_restores accept_write "2024-01-02T00:00:00.000Z"
              "2024-01-03T00:00:00.000Z" saved_two Hk Hnd Hv Hn)
    as [Hs [_ Hr]].
  destruct (Hs Hd) as [Hc [Hdef _]].
  split; [exact Hc |]. split; [exact Hdef | exact (Hr eq_refl)].
Defined.

(** * Further properties *)

(** ** Strings *)

Lemma append_nil_r (s : string) : s ++ "" = s.
Proof. induction s as [| c s IH]; cbn; [reflexivity | now rewrite IH]. Qed.

Lemma append_assoc (a b c : string) : (a ++ b) ++ c = a ++ b ++ c.
Proof. induction a as [| x a IH]; cbn; [reflexivity | now rewrite IH]. Qed.

Lemma append_length (a b : string) :
  String.length (a ++ b) = (String.length a + String.length b)%nat.
Proof. induction a as [| x a IH]; cbn; [reflexivity | now rewrite IH]. Qed.

(** ** The driver: connection, status and self-test *)

Section DriverConnection.

Import CbxPos89ePrinter.

Variable dev : Device.

(** What [connect] does, by the answer to the probe. *)
Lemma connect_cases (d : Driver) :
  thermalPrinter d = true ->
  let i := drv_id d in
  let failed cause :=
    let error :=
      PrinterError
        ("Failed to connect to CBX POS 89E printer: " ++ errorMessage cause)
        CONNECTION_FAILED (Some i) (Some (asError cause)) in
    (@Threw unit
       match dev i (io d ++ [IsPrinterConnected])%list
               (ErrorListeners error) with
       | Returns _ => error
       | Throws unhandled => unhandled
       end,
     mkDriver i (config d) false OFFLINE (posPrinter d) true
       (lastJobId d) (forwarding d)
       (emitted d ++ transition i (_status d) IDLE
          ++ [status_changed i IDLE OFFLINE; error_event i error])
       (io d ++ [IsPrinterConnected])) in
  connect dev d
  = match dev i (io d) IsPrinterConnected with
    | Returns v =>
        if truthy v then
          (Returned tt,
           mkDriver i (config d) true IDLE (posPrinter d) true
             (lastJobId d) (forwarding d)
             (emitted d ++ transition i (_status d) IDLE
                ++ [connection_restored i])
             (io d ++ [IsPrinterConnected]))
        else failed (JsError "Error" "Printer not responding")
    | Throws cause => failed cause
    end.
Proof.
  intros Htp i failed.
  destruct d as [di dc dconn dst dpp dtp dn dfw dem dio].
  cbn in Htp, i. subst dtp i failed.
  unfold connect, handleError.
  unfold try_catch, bind, gets, when, call, setStatus, emitEvent,
    modify, throw, ret, transition, status_changed,
    error_event, connection_restored, push_event, push_io, set_status,
    set_isConnected.
  cbn [drv_id config _isConnected _status posPrinter thermalPrinter
       lastJobId forwarding emitted io].
  destruct dst; cbn [PrinterStatus_eqb negb];
    cbv beta iota;
    cbn [drv_id config _isConnected _status posPrinter thermalPrinter
         lastJobId forwarding emitted io];
    (destruct (dev di dio IsPrinterConnected) as [v | e];
     [destruct (truthy v) |]);
    cbv beta iota;
    cbn [negb drv_id config _isConnected _status posPrinter thermalPrinter
         lastJobId forwarding emitted io PrinterStatus_eqb];
    cbv beta iota;
    cbn [negb drv_id config _isConnected _status posPrinter thermalPrinter
         lastJobId forwarding emitted io PrinterStatus_eqb];
    rewrite <- ?app_assoc; cbn [app];
    try reflexivity;
    destruct (dev _ _ (ErrorListeners _));
    cbv beta iota;
    cbn [drv_id config _isConnected _status posPrinter thermalPrinter
         lastJobId forwarding emitted io];
    rewrite <- ?app_assoc; cbn [app]; reflexivity.
Qed.

(** X1.  For a driver with its thermal interface, [connect] returns exactly
    when the device answers the probe with a true value.  Otherwise the
    driver ends not connected and [OFFLINE], after one probe, having emitted
    the change to [IDLE] (when the status was another one), the change from
    [IDLE] back to [OFFLINE] and an [error] event; the event carries a
    [PrinterError] with the code [CONNECTION_FAILED] that wraps the cause
    (the probe's exception, or "Printer not responding").  [connect] throws
    that error when the event finds a listener; when it finds none, what
    comes out is the exception of the emitter instead. *)
Theorem connect_outcome :
  forall d : Driver,
    thermalPrinter d = true ->
    let i := drv_id d in
    let answer := dev i (io d) IsPrinterConnected in
    (fst (connect dev d) = Returned tt
     <-> exists v, answer = Returns v /\ truthy v = true)
    /\ (forall cause,
           answer = Throws cause
           \/ ((exists v, answer = Returns v /\ truthy v = false)
               /\ cause = JsError "Error" "Printer not responding") ->
           let error :=
             PrinterError
               ("Failed to connect to CBX POS 89E printer: "
                  ++ errorMessage cause)
               CONNECTION_FAILED (Some i) (Some (asError cause)) in
           connect dev d
           = (Threw
                match dev i (io d ++ [IsPrinterConnected])%list
                        (ErrorListeners error) with
                | Returns _ => error
                | Throws unhandled => unhandled
                end,
              mkDriver i (config d) false OFFLINE (posPrinter d) true
                (lastJobId d) (forwarding d)
                (emitted d ++ transition i (_status d) IDLE
                   ++ [status_changed i IDLE OFFLINE; error_event i error])
                (io d ++ [IsPrinterConnected]))).
Proof.
  intros d Htp i answer. pose proof (connect_cases d Htp) as Hc.
  cbv zeta in Hc. fold i in Hc. fold answer in Hc.
  split.
  - rewrite Hc. split.
    + intro H. destruct answer as [v | e] eqn:Ha; [| discriminate H].
      destruct (truthy v) eqn:Hv; [| discriminate H]. now exists v.
    + intros [v [-> Ht]]. now rewrite Ht.
  - intros cause [Ha | [[v [Ha Ht]] ->]] error; rewrite Hc, Ha.
    + reflexivity.
    + rewrite Ht. reflexivity.
Qed.

(** What [disconnect] does, by the answer of the library. *)
Lemma disconnect_cases (d : Driver) :
  thermalPrinter d = true ->
  let i := drv_id d in
  disconnect dev d
  = match dev i (io d) Clear with
    | Returns _ =>
        (Returned tt,
         mkDriver i (config d) false OFFLINE (posPrinter d) true
           (lastJobId d) (forwarding d)
           (emitted d ++ transition i (_status d) OFFLINE
              ++ [connection_lost i])
           (io d ++ [Clear]))
    | Throws cause =>
        let error :=
          PrinterError
            ("Failed to disconnect from printer: " ++ errorMessage cause)
            CONNECTION_FAILED (Some i) (Some (asError cause)) in
        (Threw
           match dev i (io d ++ [Clear])%list (ErrorListeners error) with
           | Returns _ => error
           | Throws unhandled => unhandled
           end,
         mkDriver i (config d) (_isConnected d) (_status d) (posPrinter d)
           true (lastJobId d) (forwarding d)
           (emitted d ++ [error_event i error]) (io d ++ [Clear]))
    end.
Proof.
  intros Htp i.
  destruct d as [di dc dconn dst dpp dtp dn dfw dem dio].
  cbn in Htp, i. subst dtp i.
  unfold disconnect, handleError.
  unfold try_catch, bind, gets, when, call, setStatus, emitEvent,
    modify, throw, ret, transition, status_changed,
    error_event, connection_lost, push_event, push_io, set_status,
    set_isConnected.
  cbn [drv_id config _isConnected _status posPrinter thermalPrinter
       lastJobId forwarding emitted io].
  destruct (dev di dio Clear) as [v | e];
    cbv beta iota;
    cbn [drv_id config _isConnected _status posPrinter thermalPrinter
         lastJobId forwarding emitted io].
  - destruct dst; cbn [PrinterStatus_eqb negb]; cbv beta iota;
      cbn [drv_id config _isConnected _status posPrinter thermalPrinter
           lastJobId forwarding emitted io];
      rewrite <- ?app_assoc; reflexivity.
  - destruct (dev _ _ (ErrorListeners _)); reflexivity.
Qed.

(** X2.  For a driver with its thermal interface, [disconnect] returns
    exactly when the library clears its buffer without an exception; the
    driver is then not connected and [OFFLINE], and has emitted the change
    of status (when it was another one) and [connection_lost].  When the
    library throws, the driver stays as it was, still connected if it was,
    with its status unchanged: only an [error] event is emitted, which
    carries a [PrinterError] with the code [CONNECTION_FAILED] that wraps
    the cause.  [disconnect] throws that error when the event finds a
    listener, and the exception of the emitter when it finds none. *)
Theorem disconnect_outcome :
  forall d : Driver,
    thermalPrinter d = true ->
    let i := drv_id d in
    let answer := dev i (io d) Clear in
    (fst (disconnect dev d) = Returned tt <-> exists v, answer = Returns v)
    /\ (fst (disconnect dev d) = Returned tt ->
        snd (disconnect dev d)
        = mkDriver i (config d) false OFFLINE (posPrinter d) true
            (lastJobId d) (forwarding d)
            (emitted d ++ transition i (_status d) OFFLINE
               ++ [connection_lost i])
            (io d ++ [Clear]))
    /\ (forall cause,
           answer = Throws cause ->
           let error :=
             PrinterError
               ("Failed to disconnect from printer: " ++ errorMessage cause)
               CONNECTION_FAILED (Some i) (Some (asError cause)) in
           disconnect dev d
           = (Threw
                match dev i (io d ++ [Clear])%list (ErrorListeners error) with
                | Returns _ => error
                | Throws unhandled => unhandled
                end,
              mkDriver i (config d) (_isConnected d) (_status d)
                (posPrinter d) true (lastJobId d) (forwarding d)
                (emitted d ++ [error_event i error]) (io d ++ [Clear]))).
Proof.
  intros d Htp i answer. pose proof (disconnect_cases d Htp) as Hc.
  cbv zeta in Hc. fold i in Hc. fold answer in Hc. rewrite Hc.
  split; [| split].
  - split.
    + intro H. destruct answer as [v | e]; [now exists v | discriminate H].
    + intros [v ->]. reflexivity.
  - intro H. destruct answer as [v | e]; [reflexivity | discriminate H].
  - intros cause -> error. reflexivity.
Qed.

End DriverConnection.

(** The sample printer does not answer: [connect] throws after one probe. *)
Lemma connect_outcome_witness :
  fst (CbxPos89ePrinter.connect device_silent sample_offline)
  = Threw
      (PrinterError
         "Failed to connect to CBX POS 89E printer: Printer not responding"
         CONNECTION_FAILED (Some "p1")
         (Some (JsError "Error" "Printer not responding")))
  /\ CbxPos89ePrinter.io
       (snd (CbxPos89ePrinter.connect device_silent sample_offline))
     = [NewThermalPrinter "printer:CBX POS 89E Printer" 48;
        IsPrinterConnected].
Proof.
  pose proof
    (proj2 (connect_outcome device_silent sample_offline eq_refl)
       (JsError "Error" "Printer not responding")
       (or_intror
          (conj (ex_intro _ (VBool false) (conj eq_refl eq_refl)) eq_refl)))
    as H.
  rewrite H. split; reflexivity.
Defined.

(** The connected sample driver disconnects. *)
Lemma disconnect_outcome_witness :
  CbxPos89ePrinter.disconnect device_ok sample_connected
  = (Returned tt,
     CbxPos89ePrinter.mkDriver "p1" sample_config false OFFLINE true true 0
       false
       [status_changed "p1" OFFLINE IDLE; connection_restored "p1";
        status_changed "p1" IDLE OFFLINE; connection_lost "p1"]
       [NewThermalPrinter "printer:CBX POS 89E Printer" 48;
        IsPrinterConnected; Clear]).
Proof.
  destruct (disconnect_outcome device_ok sample_connected eq_refl)
    as [Hret [Hstate _]].
  assert (H : fst (CbxPos89ePrinter.disconnect device_ok sample_connected)
              = Returned tt)
    by (apply Hret; exists VUndefined; reflexivity).
  rewrite (surjective_pairing
             (CbxPos89ePrinter.disconnect device_ok sample_connected)).
  rewrite H, (Hstate H). reflexivity.
Defined.

Section DriverStatus.

Import CbxPos89ePrinter.

Variable dev : Device.

(** X3.  [selfTest] never throws.  On a driver that is not connected it
    returns false and changes nothing.  On a connected driver with its
    thermal interface it asks the device once and returns the truth value of
    the answer, or false when the probe throws; the status, the connection
    flag and the events stay as they are. *)
Theorem selfTest_never_throws :
  forall (now : Z) (d : Driver),
    (exists b d', selfTest dev now d = (Returned b, d'))
    /\ (isConnected d = false -> selfTest dev now d = (Returned false, d))
    /\ (isConnected d = true -> thermalPrinter d = true ->
        selfTest dev now d
        = (Returned
             match dev (drv_id d) (io d) IsPrinterConnected with
             | Returns v => truthy v
             | Throws _ => false
             end,
           push_io IsPrinterConnected d)).
Proof.
  intros now d.
  assert (Hret : exists b d', selfTest dev now d = (Returned b, d')).
  { unfold selfTest, try_catch.
    match goal with
    | |- context [match ?c d with _ => _ end] =>
        destruct (c d) as [[b | e] d']
    end; unfold ret; eauto. }
  split; [exact Hret |]. split.
  - unfold isConnected. intro Hc.
    unfold selfTest, try_catch, bind, gets. cbn. rewrite Hc. reflexivity.
  - unfold isConnected. intros Hc Htp.
    unfold selfTest, try_catch, bind, gets, call. cbn. rewrite Hc. cbn.
    rewrite Htp.
    destruct (dev (drv_id d) (io d) IsPrinterConnected); reflexivity.
Qed.

(** X4.  [getStatus] never throws and never changes the connection flag.
    On a driver that is not connected it answers [OFFLINE] without a native
    call.  On a connected driver with its thermal interface whose device
    answers the probe with a false value, it answers [OFFLINE] and sets the
    status to [OFFLINE], the driver still counting as connected; when the
    probe throws it answers [ERROR] and sets the status to [ERROR]. *)
Theorem getStatus_never_throws :
  forall d : Driver,
    (exists s d',
        getStatus dev d = (Returned s, d')
        /\ isConnected d' = isConnected d)
    /\ (isConnected d = false -> getStatus dev d = (Returned OFFLINE, d))
    /\ (isConnected d = true -> thermalPrinter d = true ->
        forall s d',
          getStatus dev d = (Returned s, d') ->
          match dev (drv_id d) (io d) IsPrinterConnected with
          | Returns v =>
              if truthy v
              then _status d' = _status d
                   /\ s = (if PrinterStatus_eqb (_status d) OFFLINE
                           then IDLE else _status d)
              else s = OFFLINE /\ _status d' = OFFLINE
                   /\ isConnected d' = true
          | Throws _ => s = ERROR /\ _status d' = ERROR
          end).
Proof.
  intro d.
  destruct d as [di dc dconn dst dpp dtp dn dfw dem dio].
  unfold isConnected, getStatus, try_catch, bind, gets, call, setStatus,
    emitEvent, modify, ret.
  cbn [_isConnected _status thermalPrinter drv_id io].
  split; [| split].
  - destruct dconn; cbn; [| eauto].
    destruct dtp; cbn.
    + destruct (dev di dio IsPrinterConnected) as [v | e]; cbn.
      * destruct (truthy v); cbn; [eauto |].
        destruct dst; cbn; eauto.
      * destruct dst; cbn; eauto.
    + eauto.
  - intros ->. reflexivity.
  - intros -> -> s d'. cbn.
    destruct (dev di dio IsPrinterConnected) as [v | e]; cbn.
    + destruct (truthy v); cbn.
      * intro H. inversion H; subst. cbn. auto.
      * destruct dst; cbn; intro H; inversion H; subst; cbn; auto.
    + destruct dst; cbn; intro H; inversion H; subst; cbn; auto.
Qed.

End DriverStatus.

Section DriverHardware.

Import CbxPos89ePrinter.

Variable dev : Device.

Lemma only_io_drv_id d d' : only_io d d' -> drv_id d' = drv_id d.
Proof. intros [calls ->]. reflexivity. Qed.

Lemma answered_ret {A} (a : A) : answered dev (ret a).
Proof. split; [apply io_only_ret | intros d _; now exists a]. Qed.

Lemma answered_gets {A} (f : Driver -> A) : answered dev (gets f).
Proof. split; [apply io_only_gets | intros d _; now exists (f d)]. Qed.

Lemma answered_call c : answered dev (call dev c).
Proof.
  split; [apply io_only_call |].
  intros d H. unfold call. destruct (H (io d) c) as [v ->]. now exists v.
Qed.

Lemma answered_bind {A B} (c : M Driver A) (k : A -> M Driver B) :
  answered dev c -> (forall a, answered dev (k a)) -> answered dev (bind c k).
Proof.
  intros [Hio Hc] Hk. split.
  - apply io_only_bind; [exact Hio | intro a; apply Hk].
  - intros d H. unfold bind.
    destruct (Hc d H) as [a Ha]. specialize (Hio d).
    destruct (c d) as [[a' | e] d1]; cbn in *; [| discriminate].
    apply (proj2 (Hk a')). rewrite (only_io_drv_id Hio). exact H.
Qed.

Lemma answered_when b (c : M Driver unit) : answered dev c -> answered dev (when b c).
Proof. destruct b; cbn; [trivial | intros _; apply answered_ret]. Qed.

Lemma answered_times n (c : M Driver unit) :
  answered dev c -> answered dev (times n c).
Proof.
  intro Hc. induction n as [| n IH]; cbn.
  - apply answered_ret.
  - apply answered_bind; [exact Hc | intros _; exact IH].
Qed.

Ltac answered_step :=
  first
    [ apply answered_ret | apply answered_gets | apply answered_call
    | apply answered_bind | apply answered_when | apply answered_times
    | match goal with
      | |- forall _, _ => intro
      | |- answered dev (if ?b then _ else _) => destruct b
      end ].

Lemma io_only_feedPaper lines : io_only (feedPaper dev lines).
Proof.
  unfold feedPaper.
  apply io_only_try_catch.
  - apply io_only_bind; [apply io_only_gets | intro tp].
    apply io_only_when.
    apply io_only_bind.
    + apply io_only_times.
      apply io_only_bind; [apply io_only_call | intro; apply io_only_ret].
    + intro. apply io_only_bind; [apply io_only_call | intro; apply io_only_ret].
  - intro e. apply io_only_bind; [apply io_only_gets | intro; apply io_only_throw].
Qed.

(** The shape that [cutPaper], [openCashDrawer] and [feedPaper] share. *)
Lemma guarded_operation prefix (body : M Driver unit) :
  answered dev body ->
  hardware_operation dev prefix
    (try_catch
       (tp <- gets thermalPrinter ;; when tp body)
       (fun error =>
          i <- gets drv_id ;;
          throw (PrinterError (prefix ++ errorMessage error) COMMAND_ERROR
                   (Some i) (Some (asError error))))).
Proof.
  intros [Hio Hret] d.
  unfold try_catch, bind, gets, when, throw, ret.
  destruct (thermalPrinter d) eqn:Htp.
  - specialize (Hio d). specialize (Hret d).
    destruct (body d) as [[[] | e] d1]; cbn in *.
    + split; [exact Hio |]. split; [discriminate |].
      split; [reflexivity | discriminate].
    + split; [exact Hio |]. split; [discriminate |].
      split.
      * intro H. destruct (Hret H) as [a Ha]. discriminate Ha.
      * intros e' He'. inversion He'; subst.
        exists e. now rewrite (only_io_drv_id Hio).
  - cbn. split; [apply only_io_refl |]. split; [reflexivity |].
    split; [reflexivity | discriminate].
Qed.

(** X5.  [cutPaper], [openCashDrawer] and [feedPaper] change nothing of the
    driver but the log of native calls; without the thermal interface they
    do nothing; they return as soon as the libraries answer, whatever
    [execute] answers; an exception of the libraries comes out wrapped in a
    [PrinterError] with the code [COMMAND_ERROR] and the identifier of the
    printer. *)
Theorem hardware_operations_wrap :
  forall (partial : bool) (lines : Z),
    hardware_operation dev "Failed to cut paper: " (cutPaper dev partial)
    /\ hardware_operation dev "Failed to open cash drawer: "
         (openCashDrawer_ dev)
    /\ hardware_operation dev "Failed to feed paper: " (feedPaper dev lines).
Proof.
  intros partial lines.
  split; [| split]; apply guarded_operation; repeat answered_step.
Qed.

End DriverHardware.

(** ** The driver: what a job sends to the libraries *)

Section DriverJobs.

Import CbxPos89ePrinter.

Variable dev : Device.

Lemma printWithPosPrinter_answered content jc data d :
  posPrinter d = true ->
  buildPrintData (config d) content = inr data ->
  answers dev (drv_id d) ->
  printWithPosPrinter dev content jc d
  = (Returned tt, push_io (PosPrint data (pos_options (config d) jc)) d).
Proof.
  intros Hpp Hdata Hans.
  unfold printWithPosPrinter, bind, gets, call, ret. cbv beta iota.
  rewrite Hpp. cbn [negb]. rewrite Hdata. fold (pos_options (config d) jc).
  destruct (Hans (io d) (PosPrint data (pos_options (config d) jc)))
    as [v ->].
  reflexivity.
Qed.

Lemma cutPaper_answered d :
  thermalPrinter d = true ->
  answers dev (drv_id d) ->
  cutPaper dev false d = (Returned tt, push_io Execute (push_io Cut d)).
Proof.
  intros Htp Hans.
  unfold cutPaper, try_catch, bind, gets, when, call, ret. cbv beta iota.
  rewrite Htp.
  destruct (Hans (io d) Cut) as [v ->].
  destruct (Hans (io (push_io Cut d)) Execute) as [v' Hv'].
  cbn [drv_id push_io] in *. rewrite Hv'. reflexivity.
Qed.

Lemma openCashDrawer_answered d :
  thermalPrinter d = true ->
  answers dev (drv_id d) ->
  openCashDrawer_ dev d
  = (Returned tt, push_io Execute (push_io OpenCashDrawer d)).
Proof.
  intros Htp Hans.
  unfold openCashDrawer_, try_catch, bind, gets, when, call, ret.
  cbv beta iota. rewrite Htp.
  destruct (Hans (io d) OpenCashDrawer) as [v ->].
  destruct (Hans (io (push_io OpenCashDrawer d)) Execute) as [v' Hv'].
  cbn [drv_id push_io] in *. rewrite Hv'. reflexivity.
Qed.

Lemma print_body_answered content jc data d :
  posPrinter d = true -> thermalPrinter d = true ->
  buildPrintData (config d) content = inr data ->
  answers dev (drv_id d) ->
  print_body dev content jc d
  = (Returned tt,
     mkDriver (drv_id d) (config d) (_isConnected d) (_status d) true true
       (lastJobId d) (forwarding d) (emitted d)
       (io d ++ job_calls (config d) jc data)).
Proof.
  intros Hpp Htp Hdata Hans.
  unfold print_body, bind, gets. cbv beta iota. rewrite Hpp.
  rewrite (@printWithPosPrinter_answered content jc data d Hpp Hdata Hans).
  unfold job_calls, when, ret.
  destruct d as [di dc dconn dst dpp dtp dn dfw dem dio].
  cbn [posPrinter thermalPrinter drv_id config] in *. subst dpp dtp.
  destruct (paperCut jc) as [[|] |];
    destruct (Js.truthy_obool (openCashDrawer jc));
    rewrite ?cutPaper_answered by (reflexivity || exact Hans);
    cbv beta iota;
    rewrite ?openCashDrawer_answered by (reflexivity || exact Hans);
    unfold push_io;
    cbn [posPrinter thermalPrinter config drv_id io _isConnected _status
         lastJobId forwarding emitted];
    rewrite <- ?app_assoc; cbn [app]; rewrite ?app_nil_r; reflexivity.
Qed.

Lemma print_body_untranslatable content jc error d :
  posPrinter d = true ->
  buildPrintData (config d) content = inl error ->
  print_body dev content jc d = (Threw error, d).
Proof.
  destruct d as [di dc dconn dst dpp dtp dn dfw dem dio].
  cbn [posPrinter config]. intros -> Hdata.
  unfold print_body, printWithPosPrinter, bind, gets, throw.
  cbn [posPrinter thermalPrinter config negb]. rewrite Hdata. reflexivity.
Qed.

(** X6.  On a connected driver with both interfaces, when the content can be
    translated and the libraries answer every call, [print] returns the job
    identifier and leaves the driver [IDLE]; it has made these native calls
    and no other: one [PosPrinter.print] with the translated content and the
    options of the job, then a cut and an [execute] unless the job says
    [paperCut: false], then the drawer kick and an [execute] when the job
    says [openCashDrawer: true]. *)
Theorem print_native_calls :
  forall (now : Z) (content : list PrintContent) (jc : PrintJobConfig)
         (d : Driver) (data : list PosPrintData),
    isConnected d = true ->
    posPrinter d = true ->
    thermalPrinter d = true ->
    buildPrintData (config d) content = inr data ->
    answers dev (drv_id d) ->
    let i := drv_id d in
    let jobId := jobIdOf i (lastJobId d + 1) now in
    print dev now content jc d
    = (Returned jobId,
       after_print d jobId IDLE
         [status_changed i PRINTING IDLE; job_completed i jobId]
         (job_calls (config d) jc data)).
Proof.
  intros now content jc d data Hc Hpp Htp Hdata Hans i jobId.
  destruct (print_connected dev now content jc d Hc) as [calls H].
  fold i in H. fold jobId in H.
  rewrite (@print_body_answered content jc data (printing_state d jobId))
    in H by assumption.
  destruct H as [Hio H]. cbn [io printing_state] in Hio.
  apply app_inv_head in Hio. subst calls. exact H.
Qed.

(** X7.  On a connected driver, when the translation of the content fails
    with [error], [print] makes no native call: it throws a [PrinterError]
    with the code [COMMAND_ERROR] that wraps [error], and leaves the driver
    in the status [ERROR] with [job_failed] emitted after [job_started]. *)
Theorem print_translation_failure :
  forall (now : Z) (content : list PrintContent) (jc : PrintJobConfig)
         (d : Driver) (error : Exn),
    isConnected d = true ->
    posPrinter d = true ->
    buildPrintData (config d) content = inl error ->
    let i := drv_id d in
    let jobId := jobIdOf i (lastJobId d + 1) now in
    print dev now content jc d
    = (Threw (PrinterError ("Print job failed: " ++ errorMessage error)
                COMMAND_ERROR (Some i) (Some (asError error))),
       after_print d jobId ERROR
         [status_changed i PRINTING ERROR;
          job_failed i jobId (errorMessage error)] [])
    /\ io (snd (print dev now content jc d)) = io d.
Proof.
  intros now content jc d error Hc Hpp Hdata i jobId.
  destruct (print_connected dev now content jc d Hc) as [calls H].
  fold i in H. fold jobId in H.
  rewrite (@print_body_untranslatable content jc error
             (printing_state d jobId)) in H by assumption.
  destruct H as [Hio H]. cbn [io printing_state] in Hio.
  rewrite <- (app_nil_r (io d)) in Hio at 1.
  apply app_inv_head in Hio. subst calls.
  split; [exact H |]. rewrite H. cbn. apply app_nil_r.
Qed.

End DriverJobs.

(** The calls of one job of the sample driver. *)
Lemma print_native_calls_witness :
  exists data,
    CbxPos89ePrinter.buildPrintData sample_config sample_content = inr data
    /\ fst (CbxPos89ePrinter.print device_ok 1700 sample_content
              no_job_config sample_connected)
       = Returned "cbx_p1_1_1700"
    /\ CbxPos89ePrinter.io
         (snd (CbxPos89ePrinter.print device_ok 1700 sample_content
                 no_job_config sample_connected))
       = (CbxPos89ePrinter.io sample_connected
            ++ [PosPrint data (pos_options sample_config no_job_config);
                Cut; Execute])%list.
Proof.
  eexists. split; [reflexivity |].
  assert (Hans : answers device_ok "p1")
    by (intros h c; destruct c; eexists; reflexivity).
  rewrite (@print_native_calls device_ok 1700 sample_content no_job_config
             sample_connected _ eq_refl eq_refl eq_refl eq_refl Hans).
  split; reflexivity.
Defined.

(** A line with a negative length cannot be translated. *)
Lemma print_translation_failure_witness :
  CbxPos89ePrinter.print device_ok 1700 [PrintLine None (Some (-1))]
    no_job_config sample_connected
  = (Threw
       (PrinterError "Print job failed: Invalid count value: -1"
          COMMAND_ERROR (Some "p1")
          (Some (JsError "RangeError" "Invalid count value: -1"))),
     after_print sample_connected "cbx_p1_1_1700" ERROR
       [status_changed "p1" PRINTING ERROR;
        job_failed "p1" "cbx_p1_1_1700" "Invalid count value: -1"] []).
Proof.
  exact
    (proj1
       (@print_translation_failure device_ok 1700
          [PrintLine None (Some (-1))] no_job_config sample_connected
          (JsError "RangeError" "Invalid count value: -1")
          eq_refl eq_refl eq_refl)).
Defined.

(** ** The driver: the translation of the content *)

Lemma getWidthFromPaperSize_nonneg p :
  0 <= CbxPos89ePrinter.getWidthFromPaperSize p.
Proof.
  unfold CbxPos89ePrinter.getWidthFromPaperSize.
  repeat match goal with
    | |- context [if ?b then _ else _] => destruct b
    end; lia.
Qed.

Lemma posItem_fails c item e :
  CbxPos89ePrinter.posItem c item = inl e ->
  exists character n,
    item = PrintLine character (Some n) /\ n < 0
    /\ e = JsError "RangeError" ("Invalid count value: " ++ Js.dec n).
Proof.
  destruct item as [? ? | ? ? ? ? ? | ? ? ? | ? ? ? ? | character len | ? | ?];
    cbn; try discriminate.
  unfold CbxPos89ePrinter.repeat_checked.
  destruct (Js.or_num len
              (CbxPos89ePrinter.getWidthFromPaperSize (paperSize c)) <? 0)
    eqn:Hneg; [| discriminate].
  intro H. inversion H; subst. apply Z.ltb_lt in Hneg.
  pose proof (getWidthFromPaperSize_nonneg (paperSize c)) as Hw.
  destruct len as [n |]; cbn in *; [| lia].
  unfold Js.truthy_num in *.
  destruct (n =? 0) eqn:Hz; cbn in *; [lia |].
  exists character, n. auto.
Qed.


Lemma buildPrintData_failure c content e :
  CbxPos89ePrinter.buildPrintData c content = inl e ->
  exists character n,
    In (PrintLine character (Some n)) content /\ n < 0
    /\ e = JsError "RangeError" ("Invalid count value: " ++ Js.dec n).
Proof.
  revert e. induction content as [| item rest IH]; cbn; [discriminate |].
  intros e.
  destruct (CbxPos89ePrinter.posItem c item) as [e0 | pushed] eqn:Hitem.
  - intro H. inversion H; subst.
    destruct (posItem_fails c item Hitem) as [ch [n [-> [Hn He]]]].
    exists ch, n. split; [now left | split; assumption].
  - destruct (CbxPos89ePrinter.buildPrintData c rest) as [e1 | more];
      [| discriminate].
    intro H. inversion H; subst.
    destruct (IH e eq_refl) as [ch [n [Hin Hrest]]].
    exists ch, n. split; [now right | exact Hrest].
Qed.

Lemma buildPrintData_translates c content :
  ~ Exists negative_line content ->
  exists data, CbxPos89ePrinter.buildPrintData c content = inr data.
Proof.
  intro H.
  destruct (CbxPos89ePrinter.buildPrintData c content) as [e | data] eqn:E;
    [| eauto].
  exfalso. apply H.
  destruct (buildPrintData_failure c content E) as [ch [n [Hin [Hn _]]]].
  apply Exists_exists. exists (PrintLine ch (Some n)). auto.
Qed.



(** ** The driver: what holds between two calls *)

Section DriverInvariant.

Import CbxPos89ePrinter.

Variable dev : Device.

Lemma only_io_consistent i c d d' :
  only_io d d' -> driver_consistent i c d -> driver_consistent i c d'.
Proof.
  intros [calls ->] [H1 H2 H3 H4 H5 H6]. constructor; assumption.
Qed.

Ltac consistent_cases :=
  repeat match goal with
    | |- context [dev ?i ?h ?c] => destruct (dev i h c) as [? | ?]; cbn
    | |- context [truthy ?v] => destruct (truthy v); cbn
    end;
  constructor; cbn; auto; try discriminate; try lia.

Lemma connect_consistent i c d :
  driver_consistent i c d -> driver_consistent i c (snd (connect dev d)).
Proof.
  intros [H1 H2 H3 H4 H5 H6]. rewrite (connect_cases dev d H4).
  cbv zeta.
  destruct (dev (drv_id d) (io d) IsPrinterConnected) as [v | e];
    [destruct (truthy v) |];
    constructor; cbn; auto; discriminate.
Qed.

Lemma disconnect_consistent i c d :
  driver_consistent i c d -> driver_consistent i c (snd (disconnect dev d)).
Proof.
  intros [H1 H2 H3 H4 H5 H6]. rewrite (disconnect_cases dev d H4).
  cbv zeta.
  destruct (dev (drv_id d) (io d) Clear) as [v | e];
    constructor; cbn; auto.
Qed.

Lemma getStatus_consistent i c d :
  driver_consistent i c d -> driver_consistent i c (snd (getStatus dev d)).
Proof.
  intros [H1 H2 H3 H4 H5 H6].
  destruct d as [di dc dconn dst dpp dtp dn dfw dem dio].
  cbn in *. subst.
  unfold getStatus, try_catch, bind, gets, call, setStatus, emitEvent,
    modify, ret.
  destruct dconn; cbn; [| constructor; cbn; auto].
  destruct dst; cbn; consistent_cases.
Qed.

Lemma print_consistent i c now content jc d :
  driver_consistent i c d ->
  driver_consistent i c (snd (print dev now content jc d)).
Proof.
  intros [H1 H2 H3 H4 H5 H6].
  destruct (_isConnected d) eqn:Hc.
  - destruct (print_connected dev now content jc d Hc) as [calls H].
    destruct (print_body dev content jc _) as [[[] | error] d2];
      destruct H as [_ ->]; unfold after_print; constructor; cbn;
      auto; try discriminate; lia.
  - unfold print, bind, modify, gets. cbn. rewrite Hc. cbn.
    constructor; cbn; auto. lia.
Qed.

Lemma selfTest_consistent i c now d :
  driver_consistent i c d ->
  driver_consistent i c (snd (selfTest dev now d)).
Proof.
  intros [H1 H2 H3 H4 H5 H6].
  unfold selfTest, try_catch, bind, gets, call. cbn.
  destruct (_isConnected d) eqn:Hc; cbn; [| constructor; auto].
  rewrite H4.
  destruct (dev (drv_id d) (io d) IsPrinterConnected); cbn;
    constructor; cbn; auto; rewrite Hc; discriminate.
Qed.

Lemma dispose_consistent i c d :
  driver_consistent i c d -> driver_consistent i c (snd (dispose dev d)).
Proof.
  intro H. pose proof (disconnect_consistent H) as Hd.
  unfold dispose, bind, gets, when, removeAllListeners, modify.
  destruct (_isConnected d) eqn:Hc.
  - destruct (disconnect dev d) as [[[] | e] d1]; cbn in *; [| exact Hd].
    destruct Hd. constructor; auto.
  - cbn. destruct H. constructor; auto.
Qed.

Lemma after_call_consistent i c call d :
  driver_consistent i c d -> driver_consistent i c (after_call dev call d).
Proof.
  intro H. destruct call; cbn [after_call].
  - now apply connect_consistent.
  - now apply disconnect_consistent.
  - now apply getStatus_consistent.
  - now apply print_consistent.
  - now apply print_consistent.
  - now apply selfTest_consistent.
  - eapply only_io_consistent; [apply io_only_cutPaper | exact H].
  - eapply only_io_consistent; [apply io_only_openCashDrawer | exact H].
  - eapply only_io_consistent; [apply io_only_feedPaper | exact H].
  - now apply dispose_consistent.
Qed.

Lemma new_consistent i c d :
  new dev i c = Returned d -> driver_consistent i c d.
Proof.
  unfold new, initializePrinters, try_catch, bind, gets, modify, call, throw.
  cbn.
  destruct (dev i [] _); cbn; [| discriminate].
  intro H. inversion H; subst. constructor; cbn; auto. lia.
Qed.

End DriverInvariant.

(** X9.  A driver that the constructor has returned keeps, through every
    sequence of calls of its methods and whatever their outcomes, its
    identifier and its configuration and both of its interfaces; its job
    counter is never negative; and whenever it is not connected its status
    is [OFFLINE]. *)
Theorem driver_stays_consistent :
  forall (dev : Device) (i : string) (c : PrinterConfig)
         (d : CbxPos89ePrinter.Driver) (calls : list DriverCall),
    CbxPos89ePrinter.new dev i c = Returned d ->
    driver_consistent i c (after_calls dev calls d).
Proof.
  intros dev i c d calls Hnew. apply new_consistent in Hnew.
  revert d Hnew. unfold after_calls.
  induction calls as [| call calls IH]; intros d Hd; cbn; [exact Hd |].
  apply IH. now apply after_call_consistent.
Qed.

(** The sample driver after five calls. *)
Lemma driver_stays_consistent_witness :
  driver_consistent "p1" sample_config
    (after_calls device_ok
       [CallConnect; CallPrint 1700 sample_content no_job_config;
        CallSelfTest 1800; CallDisconnect; CallDispose]
       sample_offline).
Proof.
  apply driver_stays_consistent. reflexivity.
Defined.

(** ** The driver: job identifiers *)

Lemma lacks_underscore_uint u :
  lacks "_" (NilEmpty.string_of_uint u) = true.
Proof. induction u; cbn; auto. Qed.

Lemma lacks_underscore_dec z : lacks "_" (Js.dec z) = true.
Proof.
  unfold Js.dec, NilZero.string_of_int, NilZero.string_of_uint.
  destruct (Z.to_int z) as [u | u]; destruct u; cbn;
    auto using lacks_underscore_uint.
Qed.

Lemma dec_inj z z' : Js.dec z = Js.dec z' -> z = z'.
Proof.
  unfold Js.dec. intro H. apply DecimalZ.to_int_inj.
  assert (Hnn : forall n, Z.to_int n <> Pos Nil /\ Z.to_int n <> Neg Nil).
  { intros [| p | p]; cbn; split; try discriminate;
      intro Hp; inversion Hp as [Hu];
      exact (DecimalPos.Unsigned.to_uint_nonnil p Hu). }
  pose proof (NilZero.isi (Z.to_int z) (proj1 (Hnn z)) (proj2 (Hnn z)))
    as H1.
  pose proof (NilZero.isi (Z.to_int z') (proj1 (Hnn z')) (proj2 (Hnn z')))
    as H2.
  rewrite H in H1. rewrite H1 in H2. now inversion H2.
Qed.

Lemma lacks_app_false a b :
  lacks "_" (a ++ String "_" b) = false.
Proof.
  induction a as [| c a IH]; cbn; [reflexivity |].
  now rewrite IH, andb_false_r.
Qed.

(** A string is cut at its last underscore in one way only. *)
Lemma last_underscore_split a a' b b' :
  lacks "_" b = true -> lacks "_" b' = true ->
  a ++ String "_" b = a' ++ String "_" b' -> a = a' /\ b = b'.
Proof.
  intros Hb Hb'. revert a'.
  induction a as [| c a IH]; intros [| c' a']; cbn; intro H.
  - inversion H. auto.
  - inversion H; subst. now rewrite lacks_app_false in Hb.
  - inversion H; subst. now rewrite lacks_app_false in Hb'.
  - inversion H; subst. destruct (IH a' H2) as [-> ->]. auto.
Qed.

Lemma jobIdOf_inj i i' n n' t t' :
  CbxPos89ePrinter.jobIdOf i n t = CbxPos89ePrinter.jobIdOf i' n' t' ->
  i = i' /\ n = n' /\ t = t'.
Proof.
  unfold CbxPos89ePrinter.jobIdOf. intro H.
  cbn [append] in H. inversion H as [H0]. clear H.
  change (i ++ String "_" (Js.dec n ++ String "_" (Js.dec t))
          = i' ++ String "_" (Js.dec n' ++ String "_" (Js.dec t'))) in H0.
  change (String "_" (Js.dec n ++ String "_" (Js.dec t)))
    with ("_" ++ Js.dec n ++ String "_" (Js.dec t)) in H0.
  change (String "_" (Js.dec n' ++ String "_" (Js.dec t')))
    with ("_" ++ Js.dec n' ++ String "_" (Js.dec t')) in H0.
  rewrite <- !append_assoc in H0.
  apply last_underscore_split in H0; try apply lacks_underscore_dec.
  destruct H0 as [H0 Ht].
  rewrite !append_assoc in H0. cbn [append] in H0.
  apply last_underscore_split in H0; try apply lacks_underscore_dec.
  destruct H0 as [-> Hn].
  split; [reflexivity |]. split; now apply dec_inj.
Qed.

Section DriverCounter.

Import CbxPos89ePrinter.

Variable dev : Device.

Ltac counter_cases :=
  repeat match goal with
    | |- context [dev ?i ?h ?c] => destruct (dev i h c) as [? | ?]; cbn
    | |- context [truthy ?v] => destruct (truthy v); cbn
    end;
  split; cbn; auto; lia.

Lemma only_io_counter d d' : only_io d d' -> counter_grows d d'.
Proof. intros [calls ->]. split; cbn; [reflexivity | lia]. Qed.

Lemma print_counter now content jc d :
  counter_grows d (snd (print dev now content jc d)).
Proof.
  unfold counter_grows.
  destruct (_isConnected d) eqn:Hc.
  - destruct (print_connected dev now content jc d Hc) as [calls H].
    destruct (print_body dev content jc _) as [[[] | error] d2];
      destruct H as [_ ->]; unfold after_print; split; cbn; auto; lia.
  - unfold print, bind, modify, gets. cbn. rewrite Hc. cbn.
    split; cbn; auto; lia.
Qed.

Lemma disconnect_counter d : counter_grows d (snd (disconnect dev d)).
Proof.
  unfold counter_grows.
  destruct (thermalPrinter d) eqn:Htp.
  - rewrite (disconnect_cases dev d Htp). cbv zeta.
    destruct (dev (drv_id d) (io d) Clear); split; cbn; auto; lia.
  - destruct d as [di dc dconn dst dpp dtp dn dfw dem dio].
    cbn in Htp. subst dtp.
    unfold disconnect, try_catch, bind, gets, when, setStatus, emitEvent,
      modify, ret.
    destruct dst; split; cbn; auto; lia.
Qed.

Lemma connect_counter d : counter_grows d (snd (connect dev d)).
Proof.
  unfold counter_grows.
  destruct (thermalPrinter d) eqn:Htp.
  - rewrite (connect_cases dev d Htp). cbv zeta.
    destruct (dev (drv_id d) (io d) IsPrinterConnected) as [v | e];
      [destruct (truthy v) |]; split; cbn; auto; lia.
  - destruct d as [di dc dconn dst dpp dtp dn dfw dem dio].
    cbn in Htp. subst dtp.
    unfold connect, try_catch, bind, gets, when, setStatus, emitEvent,
      modify, ret.
    destruct dst; split; cbn; auto; lia.
Qed.

Lemma getStatus_counter d : counter_grows d (snd (getStatus dev d)).
Proof.
  destruct d as [di dc dconn dst dpp dtp dn dfw dem dio].
  unfold getStatus, try_catch, bind, gets, call, setStatus, emitEvent,
    modify, ret.
  unfold counter_grows.
  destruct dconn, dtp, dst; cbn; counter_cases.
Qed.

Lemma selfTest_counter now d : counter_grows d (snd (selfTest dev now d)).
Proof.
  unfold counter_grows, selfTest, try_catch, bind, gets, ret.
  cbv beta iota.
  destruct (_isConnected d); cbn [negb]; cbv beta iota;
    [| split; cbn; auto; lia].
  destruct (thermalPrinter d); cbv beta iota.
  - unfold call.
    destruct (dev (drv_id d) (io d) IsPrinterConnected); cbn;
      split; cbn; auto; lia.
  - pose proof (print_counter now [PrintText "TEST" None]
                  (mkPrintJobConfig None None None None (Some false) None)
                  d) as Hp.
    unfold counter_grows in Hp. unfold printText.
    destruct (print dev now [PrintText "TEST" None]
                (mkPrintJobConfig None None None None (Some false) None) d)
      as [[j | e] d1]; exact Hp.
Qed.

Lemma dispose_counter d : counter_grows d (snd (dispose dev d)).
Proof.
  pose proof (disconnect_counter d) as Hd.
  unfold counter_grows in *.
  unfold dispose, bind, gets, when, removeAllListeners, modify.
  destruct (_isConnected d); cbn; [| split; cbn; auto; lia].
  destruct (disconnect dev d) as [[[] | e] d1]; cbn in *; exact Hd.
Qed.

Lemma after_call_counter call d : counter_grows d (after_call dev call d).
Proof.
  destruct call; cbn [after_call].
  - apply connect_counter.
  - apply disconnect_counter.
  - apply getStatus_counter.
  - apply print_counter.
  - apply print_counter.
  - apply selfTest_counter.
  - apply only_io_counter, io_only_cutPaper.
  - apply only_io_counter, io_only_openCashDrawer.
  - apply only_io_counter, io_only_feedPaper.
  - apply dispose_counter.
Qed.

Lemma after_calls_counter calls d :
  counter_grows d (after_calls dev calls d).
Proof.
  revert d. unfold after_calls.
  induction calls as [| call calls IH]; intro d; cbn.
  - split; [reflexivity | lia].
  - destruct (after_call_counter call d) as [H1 H2].
    destruct (IH (after_call dev call d)) as [H3 H4].
    split; [congruence | lia].
Qed.

Lemma print_returned now content jc d jobId d' :
  print dev now content jc d = (Returned jobId, d') ->
  jobId = jobIdOf (drv_id d) (lastJobId d + 1) now
  /\ drv_id d' = drv_id d /\ lastJobId d' = lastJobId d + 1.
Proof.
  destruct (_isConnected d) eqn:Hc.
  - destruct (print_connected dev now content jc d Hc) as [calls H].
    destruct (print_body dev content jc _) as [[[] | error] d2];
      destruct H as [_ ->]; intro H; inversion H; subst.
    unfold after_print. cbn. auto.
  - unfold print, bind, modify, gets. cbn. rewrite Hc. cbn. discriminate.
Qed.

(** X10.  A job identifier tells the printer, the value of the job counter
    and the clock reading it was made from.  The counter of a driver never
    goes down and every call of [print] advances it, so two jobs that one
    driver accepts never have the same identifier, whatever is called in
    between and whatever the clock reads. *)
Theorem job_identifiers_never_repeat :
  forall (now1 now2 : Z) (content1 content2 : list PrintContent)
         (jc1 jc2 : PrintJobConfig) (calls : list DriverCall)
         (d d1 d2 : Driver) (jobId1 jobId2 : string),
    print dev now1 content1 jc1 d = (Returned jobId1, d1) ->
    print dev now2 content2 jc2 (after_calls dev calls d1)
    = (Returned jobId2, d2) ->
    jobId1 <> jobId2.
Proof.
  intros now1 now2 content1 content2 jc1 jc2 calls d d1 d2 jobId1 jobId2
    H1 H2 Heq.
  apply print_returned in H1. destruct H1 as [-> [_ Hn1]].
  apply print_returned in H2. destruct H2 as [-> _].
  destruct (after_calls_counter calls d1) as [_ Hle].
  apply jobIdOf_inj in Heq. destruct Heq as [_ [Hn _]]. lia.
Qed.

End DriverCounter.

(** Two jobs of the sample driver at the same clock reading. *)
Lemma job_identifiers_never_repeat_witness :
  let first :=
    CbxPos89ePrinter.print device_ok 1700 sample_content no_job_config
      sample_connected in
  let second :=
    CbxPos89ePrinter.print device_ok 1700 sample_content no_job_config
      (after_calls device_ok [CallGetStatus] (snd first)) in
  fst first = Returned "cbx_p1_1_1700"
  /\ fst second = Returned "cbx_p1_2_1700"
  /\ "cbx_p1_1_1700" <> "cbx_p1_2_1700".
Proof.
  intros first second.
  assert (H1 : first = (Returned "cbx_p1_1_1700", snd first))
    by (vm_compute; reflexivity).
  assert (H2 : second = (Returned "cbx_p1_2_1700", snd second))
    by (vm_compute; reflexivity).
  split; [now rewrite H1 |]. split; [now rewrite H2 |].
  exact (@job_identifiers_never_repeat device_ok 1700 1700 sample_content
           sample_content no_job_config no_job_config [CallGetStatus]
           sample_connected (snd first) (snd second) _ _ H1 H2).
Defined.

(** ** Maps *)

Lemma JsMap_get_set_same {V} (m : JsMap.t V) k v :
  JsMap.get (JsMap.set m k v) k = Some v.
Proof.
  induction m as [| [k0 v0] m IH]; cbn.
  - now rewrite String.eqb_refl.
  - destruct (String.eqb k k0) eqn:E; cbn.
    + now rewrite String.eqb_refl.
    + now rewrite E.
Qed.

Lemma JsMap_get_set_other {V} (m : JsMap.t V) k k' v :
  k' <> k -> JsMap.get (JsMap.set m k v) k' = JsMap.get m k'.
Proof.
  intro Hne. induction m as [| [k0 v0] m IH]; cbn.
  - apply String.eqb_neq in Hne. now rewrite Hne.
  - destruct (String.eqb_spec k k0) as [-> | Hk]; cbn.
    + apply String.eqb_neq in Hne. now rewrite Hne.
    + destruct (String.eqb k' k0); [reflexivity | exact IH].
Qed.

Lemma JsMap_keys_set {V} (m : JsMap.t V) k v :
  JsMap.keys (JsMap.set m k v)
  = if JsMap.has m k then JsMap.keys m else (JsMap.keys m ++ [k])%list.
Proof.
  unfold JsMap.has, JsMap.keys in *.
  induction m as [| [k0 v0] m IH]; cbn; [reflexivity |].
  destruct (String.eqb_spec k k0) as [-> | Hk]; cbn; [reflexivity |].
  rewrite IH. now destruct (JsMap.get m k).
Qed.

Lemma JsMap_has_keys {V} (m : JsMap.t V) k :
  JsMap.has m k = true <-> In k (JsMap.keys m).
Proof.
  unfold JsMap.has, JsMap.keys. induction m as [| [k0 v0] m IH]; cbn.
  - split; [discriminate | contradiction].
  - destruct (String.eqb_spec k k0) as [-> | Hne].
    + split; auto.
    + rewrite IH. split; [auto | intros [H | H]; congruence].
Qed.

(** ** The factory: validation *)

Lemma includes_in xs x : includes xs x = true <-> In x xs.
Proof.
  unfold includes. rewrite existsb_exists. split.
  - intros [y [Hin Heq]]. apply String.eqb_eq in Heq. now subst.
  - intro H. exists x. split; [exact H | apply String.eqb_refl].
Qed.

(** X11.  The rules of the CBX driver, which the factory as
    [new PrinterFactory()] builds it applies to the type [cbx_pos_89e] only,
    hold exactly when the paper is 80mm, 58mm or 57mm wide and the
    connection is USB, serial or network with a connection string of that
    form: a Bluetooth connection and the other paper sizes are refused for
    a CBX printer.  The validation of the configuration manager is the
    generic validation of the factory, rule for rule, so what the factory
    accepts the manager accepts. *)
Theorem default_factory_validation :
  forall (dev : Device) (c : PrinterConfig),
    (PrinterFactory.validateCbxPos89eConfig c = true
     <-> In (paperSize c) ["80mm"; "58mm"; "57mm"]
         /\ ((connectionType c = "usb"
              /\ PrinterFactory.validateUSBConnection (connectionString c)
                 = true)
             \/ (connectionType c = "serial"
                 /\ PrinterFactory.validateSerialConnection
                      (connectionString c) = true)
             \/ (connectionType c = "network"
                 /\ PrinterFactory.validateNetworkConnection
                      (connectionString c) = true)))
    /\ ConfigManager.validateConfig c = PrinterFactory.validateBasicConfig c
    /\ (PrinterFactory.validateConfig (defaultFactory dev) c = true ->
        ConfigManager.validateConfig c = true).
Proof.
  intros dev c. split; [| split; [reflexivity |]].
  - unfold PrinterFactory.validateCbxPos89eConfig.
    cbn [map PaperSize_value PrinterConnectionType_value].
    destruct (includes ["80mm"; "58mm"; "57mm"] (paperSize c)) eqn:Hp;
      cbn [negb].
    + apply includes_in in Hp.
      destruct (String.eqb_spec (connectionType c) "usb") as [Hu | Hu].
      { split; [auto |].
        intros [_ [[_ H] | [[H _] | [H _]]]]; [exact H | |];
          rewrite Hu in H; discriminate. }
      destruct (String.eqb_spec (connectionType c) "serial") as [Hs | Hs].
      { split; [auto |].
        intros [_ [[H _] | [[_ H] | [H _]]]]; [| exact H |];
          rewrite Hs in H; discriminate. }
      destruct (String.eqb_spec (connectionType c) "network") as [Hn | Hn].
      { split; [auto 6 |].
        intros [_ [[H _] | [[H _] | [_ H]]]]; [| | exact H];
          rewrite Hn in H; discriminate. }
      split; [discriminate |].
      intros [_ [[H _] | [[H _] | [H _]]]]; contradiction.
    + split; [discriminate |].
      intros [H _]. apply includes_in in H. congruence.
  - rewrite default_validateConfig. intro H.
    apply andb_true_iff in H. exact (proj1 H).
Qed.

(** ** The factory: connection strings *)

Lemma split_aux_nonnil sep s cur : Str.split_aux sep s cur <> [].
Proof.
  revert cur. induction s as [| c r IH]; intro cur; cbn; [discriminate |].
  destruct (Ascii.eqb c sep); [discriminate | apply IH].
Qed.

Lemma split_aux_single sep s cur y :
  Str.split_aux sep s cur = [y] <-> lacks sep s = true /\ y = cur ++ s.
Proof.
  revert cur. induction s as [| c r IH]; intro cur; cbn.
  - rewrite append_nil_r. split.
    + intro H. inversion H. auto.
    + intros [_ ->]. reflexivity.
  - destruct (Ascii.eqb c sep) eqn:E; cbn.
    + split; [| intros [H _]; discriminate].
      intro H. inversion H as [[H1 H2]].
      now apply split_aux_nonnil in H2.
    + rewrite IH, append_assoc. reflexivity.
Qed.

Lemma split_aux_pair sep s cur x y :
  Str.split_aux sep s cur = [x; y]
  <-> exists a,
        lacks sep a = true /\ lacks sep y = true
        /\ x = cur ++ a /\ s = a ++ String sep y.
Proof.
  revert cur. induction s as [| c r IH]; intro cur; cbn.
  - split; [discriminate |].
    intros [a [_ [_ [_ H]]]]. destruct a; discriminate.
  - destruct (Ascii.eqb_spec c sep) as [-> | Hne].
    + split.
      * intro H. inversion H as [[H1 H2]].
        apply split_aux_single in H2. destruct H2 as [Hr Hy].
        cbn in Hy. subst y. exists "". cbn.
        rewrite append_nil_r. auto.
      * intros [a [Ha [Hy [Hx Hs]]]].
        destruct a as [| c a]; cbn in *.
        -- inversion Hs; subst. rewrite append_nil_r.
           f_equal. apply split_aux_single. auto.
        -- inversion Hs; subst. rewrite Ascii.eqb_refl in Ha. discriminate.
    + rewrite IH. split.
      * intros [a [Ha [Hy [Hx Hs]]]]. exists (String c a). cbn.
        apply Ascii.eqb_neq in Hne. rewrite Hne, Ha. cbn.
        rewrite append_assoc in Hx. cbn in Hx. subst. auto.
      * intros [a [Ha [Hy [Hx Hs]]]].
        destruct a as [| c' a]; cbn in *.
        -- inversion Hs; subst. contradiction.
        -- inversion Hs; subst. exists a.
           apply andb_true_iff in Ha. destruct Ha as [_ Ha].
           rewrite append_assoc. cbn. auto.
Qed.

Lemma lacks_nonempty sep s : lacks sep s = true -> s <> String sep "" ++ s.
Proof.
  intros H E. assert (Hl := f_equal String.length E). cbn in Hl. lia.
Qed.

(** X12.  The factory accepts a network connection string exactly when it
    has the form [host:port] with one colon, a host that is not empty and a
    port that [parseInt] reads as an integer within 1..65535; what follows
    the digits of the port is not looked at. *)
Theorem validateNetworkConnection_iff :
  forall s : string,
    PrinterFactory.validateNetworkConnection s = true <-> host_and_port s.
Proof.
  intro s. unfold PrinterFactory.validateNetworkConnection, host_and_port.
  split.
  - destruct (Js.truthy_string s); cbn [negb]; [| discriminate].
    destruct (Str.split ":" s) as [| host [| portStr [| ? ?]]] eqn:Hs;
      try discriminate.
    apply split_aux_pair in Hs. destruct Hs as [a [Ha [Hy [Hx Hs]]]].
    cbn in Hx. subst a.
    destruct (Js.truthy_string host) eqn:Hh; cbn [negb orb];
      [| discriminate].
    destruct (String.length host =? 0)%nat; [discriminate |].
    destruct (Str.parseInt portStr) as [port |] eqn:Hp; [| discriminate].
    destruct (port <? 1) eqn:H1; cbn [orb]; [discriminate |].
    destruct (port >? 65535) eqn:H2; [discriminate |].
    intros _. exists host, portStr, port.
    apply truthy_string_true in Hh. apply Z.ltb_ge in H1.
    rewrite Z.gtb_ltb in H2. apply Z.ltb_ge in H2.
    repeat split; auto; lia.
  - intros [host [portStr [port [-> [Hh [Hp [Hne [Hport [H1 H2]]]]]]]]].
    assert (Hs : Str.split ":" (host ++ ":" ++ portStr) = [host; portStr]).
    { apply split_aux_pair. exists host. cbn. auto. }
    rewrite Hs, Hport.
    assert (Ht : Js.truthy_string (host ++ ":" ++ portStr) = true).
    { apply truthy_string_true. destruct host; discriminate. }
    rewrite Ht. cbn [negb].
    apply truthy_string_true in Hne. rewrite Hne. cbn [negb orb].
    destruct host as [| c host]; [discriminate |]. cbn [String.length Nat.eqb].
    destruct (Z.ltb_spec port 1) as [? | _]; [lia |]. cbn [orb].
    rewrite Z.gtb_ltb.
    destruct (Z.ltb_spec 65535 port) as [? | _]; [lia | reflexivity].
Qed.

(** X13.  [validateConnectionString] of the utilities decides as the
    validators of the factory do for USB, serial and network connection
    strings; for a connection type outside the enumeration it answers
    false. *)
Theorem validateConnectionString_agrees :
  forall s : string,
    Utils.validateConnectionString s (PrinterConnectionType_value USB)
    = PrinterFactory.validateUSBConnection s
    /\ Utils.validateConnectionString s (PrinterConnectionType_value SERIAL)
       = PrinterFactory.validateSerialConnection s
    /\ Utils.validateConnectionString s (PrinterConnectionType_value NETWORK)
       = PrinterFactory.validateNetworkConnection s
    /\ (forall t,
           includes PrinterConnectionType_values t = false ->
           Utils.validateConnectionString s t = false).
Proof.
  intro s.
  unfold Utils.validateConnectionString, PrinterFactory.validateUSBConnection,
    PrinterFactory.validateSerialConnection,
    PrinterFactory.validateNetworkConnection.
  cbn [PrinterConnectionType_value String.eqb Ascii.eqb Bool.eqb].
  assert (Hlen : Js.truthy_string s = true ->
                 (String.length s =? 0)%nat = false).
  { intro H. apply truthy_string_true in H. destruct s; [contradiction |].
    reflexivity. }
  destruct (Js.truthy_string s) eqn:Ht; cbn [negb orb].
  - rewrite (Hlen eq_refl). repeat split.
    + destruct (Str.split ":" s) as [| host [| portStr [| ? ?]]];
        try reflexivity.
      destruct host as [| c host]; cbn; [reflexivity |].
      destruct (Str.parseInt portStr) as [port |]; [| reflexivity].
      rewrite !Z.gtb_ltb.
      destruct (Z.ltb_spec port 1), (Z.ltb_spec 0 port),
        (Z.ltb_spec 65535 port), (Z.leb_spec port 65535);
        cbn; try reflexivity; lia.
    + intros t Hin. unfold includes in Hin.
      cbn [PrinterConnectionType_values map PrinterConnectionType_value
           existsb] in Hin.
      repeat (apply orb_false_iff in Hin; destruct Hin as [? Hin]).
      repeat match goal with
        | H : String.eqb t _ = false |- _ => rewrite H; clear H
        end.
      reflexivity.
  - repeat split.
Qed.

(** ** The factory: registered types, helpers and templates *)

Lemma JsMap_has_set_same {V} (m : JsMap.t V) k v :
  JsMap.has (JsMap.set m k v) k = true.
Proof. unfold JsMap.has. now rewrite JsMap_get_set_same. Qed.

Lemma JsMap_has_set_other {V} (m : JsMap.t V) k k' v :
  k' <> k -> JsMap.has (JsMap.set m k v) k' = JsMap.has m k'.
Proof. intro H. unfold JsMap.has. now rewrite JsMap_get_set_other. Qed.

(** X14.  After [registerPrinterType(t, constructor, validator)] the type
    [t] is supported and listed; a configuration of the type [t] that the
    factory accepts is built by [constructor], whose exception comes out
    wrapped as [INVALID_CONFIG]; without a validator the validation of every
    configuration is as before, so a validator registered earlier for [t]
    stays in force; the support and the creation for the other types are as
    before. *)
Theorem registerPrinterType_extends :
  forall (P : Type) (f : PrinterFactory.Factory P) (t : string)
         (constructor : PrinterFactory.PrinterConstructor P)
         (validator : option PrinterFactory.Validator),
    let f' := PrinterFactory.registerPrinterType t constructor validator f in
    PrinterFactory.isTypeSupported f' t = true
    /\ In t (PrinterFactory.getSupportedTypes f')
    /\ (forall c,
           type c = t ->
           PrinterFactory.validateConfig f' c = true ->
           PrinterFactory.createPrinter f' c
           = created (constructor (id c) c))
    /\ (validator = None ->
        forall c,
          PrinterFactory.validateConfig f' c
          = PrinterFactory.validateConfig f c)
    /\ (forall t',
           t' <> t ->
           PrinterFactory.isTypeSupported f' t'
           = PrinterFactory.isTypeSupported f t')
    /\ (forall c,
           type c <> t ->
           PrinterFactory.createPrinter f' c
           = PrinterFactory.createPrinter f c).
Proof.
  intros P f t constructor validator f'.
  assert (Hsup : PrinterFactory.isTypeSupported f' t = true).
  { unfold PrinterFactory.isTypeSupported. cbn. apply JsMap_has_set_same. }
  split; [exact Hsup |].
  split; [now apply JsMap_has_keys |].
  split; [| split; [| split]].
  - intros c Ht Hv. unfold PrinterFactory.createPrinter. rewrite Hv.
    cbn [negb]. subst t. cbn. rewrite JsMap_get_set_same. reflexivity.
  - intros -> c. reflexivity.
  - intros t' Hne. unfold PrinterFactory.isTypeSupported. cbn.
    now apply JsMap_has_set_other.
  - intros c Hne.
    assert (Hv : PrinterFactory.validateConfig f' c
                 = PrinterFactory.validateConfig f c).
    { unfold PrinterFactory.validateConfig. cbn.
      destruct validator as [v |]; [| reflexivity].
      now rewrite JsMap_get_set_other. }
    unfold PrinterFactory.createPrinter. rewrite Hv. cbn.
    now rewrite JsMap_get_set_other.
Qed.

Lemma dec_nonempty z : Js.dec z <> "".
Proof.
  unfold Js.dec, NilZero.string_of_int, NilZero.string_of_uint.
  destruct (Z.to_int z) as [u | u]; destruct u; discriminate.
Qed.

(** X15.  The configuration that [createCbxPos89eConfig(name,
    connectionString)] gives without options is accepted by the factory as
    [new PrinterFactory()] builds it, as soon as the name is not empty and
    the connection string has between 1 and 255 code units. *)
Theorem createCbxPos89eConfig_is_valid :
  forall (dev : Device) (now : Z) (name connectionString : string),
    name <> "" ->
    connectionString <> "" ->
    (String.length connectionString < 256)%nat ->
    PrinterFactory.validateConfig (defaultFactory dev)
      (Utils.createCbxPos89eConfig now name connectionString no_options)
    = true.
Proof.
  intros dev now name connectionString Hn Hc Hl.
  apply truthy_string_true in Hn, Hc.
  unfold PrinterFactory.validateConfig, PrinterFactory.validateBasicConfig.
  cbn. rewrite Hn, Hc. cbn.
  unfold PrinterFactory.validateCbxPos89eConfig,
    PrinterFactory.validateUSBConnection.
  cbn. rewrite Hc. cbn.
  destruct connectionString as [| c r]; [discriminate |]. cbn.
  apply Nat.ltb_lt in Hl. cbn in Hl. rewrite Hl. reflexivity.
Qed.

(** The helper's configuration for the sample printer. *)
Lemma createCbxPos89eConfig_is_valid_witness :
  PrinterFactory.validateConfig (defaultFactory device_ok)
    (Utils.createCbxPos89eConfig 1700 "Front desk" "CBX POS 89E Printer"
       no_options)
  = true.
Proof.
  apply createCbxPos89eConfig_is_valid.
  - discriminate.
  - discriminate.
  - cbn. lia.
Defined.

(** X16.  A template is not a valid configuration as it is: what
    [createDefaultConfig] gives without a connection string among the
    overrides, and what [getConfigTemplate] gives, has an empty connection
    string and is refused by the factory and by the configuration manager.
    With a connection string of 1 to 255 code units as the only override,
    [createDefaultConfig] for a type of the enumeration gives a
    configuration that the factory accepts. *)
Theorem templates_need_a_connection_string :
  forall (dev : Device) (now : Z) (t : string),
    (forall (P : Type) (f : PrinterFactory.Factory P) overrides,
        Js.truthy_ostring (p_connectionString overrides) = false ->
        PrinterFactory.validateConfig f
          (PrinterFactoryTemplates.createDefaultConfig now t overrides)
        = false)
    /\ (forall (P : Type) (f : PrinterFactory.Factory P),
           PrinterFactory.validateConfig f
             (ConfigManager.getConfigTemplate now t)
           = false)
    /\ ConfigManager.validateConfig (ConfigManager.getConfigTemplate now t)
       = false
    /\ (forall connectionString,
           includes PrinterType_values t = true ->
           connectionString <> "" ->
           (String.length connectionString < 256)%nat ->
           PrinterFactory.validateConfig (defaultFactory dev)
             (PrinterFactoryTemplates.createDefaultConfig now t
                (only_connectionString connectionString))
           = true).
Proof.
  intros dev now t.
  assert (Hempty : forall c,
             connectionString c = "" ->
             PrinterFactory.validateBasicConfig c = false).
  { intros c Hc. unfold PrinterFactory.validateBasicConfig.
    rewrite Hc. cbn. now rewrite !orb_true_r. }
  assert (Htemplate :
            connectionString (ConfigManager.getConfigTemplate now t) = "").
  { unfold ConfigManager.getConfigTemplate.
    repeat match goal with
      | |- context [if ?b then _ else _] => destruct b
      end; reflexivity. }
  split; [| split; [| split]].
  - intros P f overrides Ho.
    unfold PrinterFactory.validateConfig. rewrite Hempty; [reflexivity |].
    unfold PrinterFactoryTemplates.createDefaultConfig.
    assert (Hcs : connectionString
                    (Utils.spread
                       (mkPrinterConfig
                          (Js.or_string (p_id overrides)
                             ("printer_" ++ Js.dec now))
                          (Js.or_string (p_name overrides) (t ++ " Printer"))
                          t (PrinterConnectionType_value USB) ""
                          (PaperSize_value MM_80) (Some "UTF-8") (Some (Js.Int 5000))
                          (Some (Js.Int 3)) (Some false))
                       overrides)
                  = "").
    { cbn. destruct (p_connectionString overrides) as [s |];
        [| reflexivity].
      cbn in Ho. now apply truthy_string_false in Ho. }
    repeat match goal with
      | |- context [if ?b then _ else _] => destruct b
      end; exact Hcs.
  - intros P f. unfold PrinterFactory.validateConfig.
    now rewrite (Hempty _ Htemplate).
  - exact (Hempty _ Htemplate).
  - intros cs Ht Hne Hl.
    apply truthy_string_true in Hne.
    assert (Husb : PrinterFactory.validateUSBConnection cs = true).
    { unfold PrinterFactory.validateUSBConnection. rewrite Hne.
      destruct cs as [| a r]; [discriminate |]. cbn.
      apply Nat.ltb_lt in Hl. exact Hl. }
    apply includes_in in Ht. cbn in Ht.
    destruct Ht as [<- | [<- | [<- | [<- | []]]]];
      unfold PrinterFactory.validateConfig,
        PrinterFactory.validateBasicConfig;
      cbn; rewrite ?Hne; cbn; rewrite ?Husb; reflexivity.
Qed.

(** ** Maps, continued *)

Lemma JsMap_has_congr {V W} (m1 : JsMap.t V) (m2 : JsMap.t W) k :
  JsMap.keys m1 = JsMap.keys m2 -> JsMap.has m1 k = JsMap.has m2 k.
Proof.
  intro H.
  destruct (JsMap.has m1 k) eqn:H1, (JsMap.has m2 k) eqn:H2; try reflexivity.
  - apply JsMap_has_keys in H1. rewrite H in H1.
    apply JsMap_has_keys in H1. congruence.
  - apply JsMap_has_keys in H2. rewrite <- H in H2.
    apply JsMap_has_keys in H2. congruence.
Qed.

Lemma JsMap_keys_set_has {V} (m : JsMap.t V) k v :
  JsMap.has m k = true -> JsMap.keys (JsMap.set m k v) = JsMap.keys m.
Proof. intro H. now rewrite JsMap_keys_set, H. Qed.

Lemma JsMap_keys_set_congr {V W} (m1 : JsMap.t V) (m2 : JsMap.t W) k v w :
  JsMap.keys m1 = JsMap.keys m2 ->
  JsMap.keys (JsMap.set m1 k v) = JsMap.keys (JsMap.set m2 k w).
Proof.
  intro H. rewrite !JsMap_keys_set, (JsMap_has_congr m1 m2 k H), H.
  reflexivity.
Qed.

Lemma JsMap_keys_delete_congr {V W} (m1 : JsMap.t V) (m2 : JsMap.t W) k :
  JsMap.keys m1 = JsMap.keys m2 ->
  JsMap.keys (JsMap.delete m1 k) = JsMap.keys (JsMap.delete m2 k).
Proof.
  unfold JsMap.keys. revert m2.
  induction m1 as [| [k1 v1] m1 IH]; intros [| [k2 v2] m2]; cbn;
    try discriminate; [reflexivity |].
  intro H. inversion H; subst.
  destruct (String.eqb k k2); cbn; [assumption |].
  f_equal. now apply IH.
Qed.

Lemma JsMap_in_keys_delete {V} (m : JsMap.t V) k k' :
  In k' (JsMap.keys (JsMap.delete m k)) -> In k' (JsMap.keys m).
Proof.
  unfold JsMap.keys. induction m as [| [k0 v0] m IH]; cbn; [trivial |].
  destruct (String.eqb k k0); cbn; [auto |].
  intros [H | H]; auto.
Qed.

Lemma JsMap_nodup_delete {V} (m : JsMap.t V) k :
  NoDup (JsMap.keys m) -> NoDup (JsMap.keys (JsMap.delete m k)).
Proof.
  induction m as [| [k0 v0] m IH]; cbn; [trivial |].
  intro H. inversion H as [| ? ? Hnin Hnd]; subst.
  destruct (String.eqb k k0); cbn; [exact Hnd |].
  constructor; [| now apply IH].
  intro Hin. apply Hnin. exact (JsMap_in_keys_delete m k k0 Hin).
Qed.

Lemma JsMap_has_delete_other {V} (m : JsMap.t V) k k' :
  k' <> k -> JsMap.has (JsMap.delete m k) k' = JsMap.has m k'.
Proof.
  intro Hne. unfold JsMap.has.
  induction m as [| [k0 v0] m IH]; cbn; [reflexivity |].
  destruct (String.eqb_spec k k0) as [-> | Hk]; cbn.
  - apply String.eqb_neq in Hne. now rewrite Hne.
  - destruct (String.eqb k' k0); [reflexivity | exact IH].
Qed.

Lemma JsMap_has_delete_same {V} (m : JsMap.t V) k :
  NoDup (JsMap.keys m) -> JsMap.has (JsMap.delete m k) k = false.
Proof.
  intro Hnd.
  destruct (JsMap.has (JsMap.delete m k) k) eqn:H; [| reflexivity].
  exfalso. apply JsMap_has_keys in H. revert Hnd H. unfold JsMap.keys.
  induction m as [| [k0 v0] m IH]; cbn; [trivial |].
  intro Hnd. inversion Hnd as [| ? ? Hnin Hnd']; subst.
  destruct (String.eqb_spec k k0) as [-> | Hk]; cbn.
  - exact Hnin.
  - intros [H | H]; [congruence | now apply IH].
Qed.

Lemma JsMap_first_key_has {V} (m : JsMap.t V) k :
  JsMap.first_key m = Some k -> JsMap.has m k = true.
Proof.
  destruct m as [| [k0 v0] m]; cbn; [discriminate |].
  intro H. inversion H; subst. unfold JsMap.has. cbn.
  now rewrite String.eqb_refl.
Qed.

Lemma JsMap_nodup_set {V} (m : JsMap.t V) k v :
  NoDup (JsMap.keys m) -> NoDup (JsMap.keys (JsMap.set m k v)).
Proof.
  intro H. rewrite JsMap_keys_set.
  destruct (JsMap.has m k) eqn:Hk; [exact H |].
  apply NoDup_app; [exact H | repeat constructor; intros [] |].
  intros x Hx [<- | []]. apply JsMap_has_keys in Hx. congruence.
Qed.

Lemma JsMap_has_set_mono {V} (m : JsMap.t V) k k' v :
  JsMap.has m k' = true -> JsMap.has (JsMap.set m k v) k' = true.
Proof.
  intro H. destruct (String.eqb_spec k' k) as [-> | Hne].
  - apply JsMap_has_set_same.
  - now rewrite JsMap_has_set_other.
Qed.

(** ** The registry: what each method does to the state *)

Section RegistryStates.

Context {P : Type} {ops : IPrinter.ops P}.

Variable factory : IPrinterFactory.t P.

Import PrinterRegistry.

Ltac registry_simpl :=
  cbv beta iota;
  cbn [negb set_printers set_configs set_defaultPrinterId printers configs
       defaultPrinterId emitted].

(** The state after [registerPrinter], by what the validation, the lookup,
    the factory and the subscription of the listeners give. *)
Lemma registerPrinter_cases c (r : Registry P) :
  match (if negb (IPrinterFactory.validateConfig factory c) then None
         else if JsMap.has (printers r) (id c) then None
         else match IPrinterFactory.createPrinter factory c with
              | Returned p => Some p
              | Threw _ => None
              end) with
  | None =>
      snd (registerPrinter factory c r) = r
      /\ exists e, fst (registerPrinter factory c r) = Threw e
  | Some p =>
      JsMap.has (printers r) (id c) = false
      /\ match IPrinter.on_forward p with
         | (Returned _, p') =>
             registerPrinter factory c r
             = (Returned (id c),
                mkRegistry (JsMap.set (printers r) (id c) p')
                  (JsMap.set (configs r) (id c) c)
                  (if Js.truthy_obool (isDefault c)
                      || (JsMap.size (JsMap.set (printers r) (id c) p')
                          =? 1)%nat
                   then Some (id c) else defaultPrinterId r)
                  (emitted r ++ [PrinterRegistered (id c) c]))
         | (Threw e, p') =>
             snd (registerPrinter factory c r)
             = mkRegistry (JsMap.set (printers r) (id c) p')
                 (JsMap.set (configs r) (id c) c) (defaultPrinterId r)
                 (emitted r)
             /\ exists e', fst (registerPrinter factory c r) = Threw e'
         end
  end.
Proof.
  destruct r as [ps cs d em].
  unfold registerPrinter, try_catch, bind, gets, modify, lift,
    setupPrinterEventForwarding, on_printer, emit, when, throw, ret.
  registry_simpl.
  destruct (IPrinterFactory.validateConfig factory c); registry_simpl;
    [| split; [reflexivity | eexists; reflexivity]].
  destruct (JsMap.has ps (id c)) eqn:Hhas; registry_simpl;
    [split; [reflexivity | eexists; reflexivity] |].
  destruct (IPrinterFactory.createPrinter factory c) as [p | e];
    registry_simpl; [| split; [reflexivity | eexists; reflexivity]].
  split; [reflexivity |].
  destruct (IPrinter.on_forward p) as [[[] | e] p']; registry_simpl;
    rewrite JsMap_set_set.
  - match goal with
    | |- context [if ?b then _ else _] => destruct b
    end; reflexivity.
  - split; [reflexivity | eexists; reflexivity].
Qed.

(** The state after [unregisterPrinter], by what the lookup and the
    disposal of the printer give. *)
Lemma unregisterPrinter_cases k (r : Registry P) :
  match JsMap.get (printers r) k with
  | None => unregisterPrinter k r = (Threw (not_found k), r)
  | Some p =>
      match IPrinter.dispose p with
      | (Returned _, p') =>
          unregisterPrinter k r
          = (Returned tt,
             mkRegistry (JsMap.delete (JsMap.set (printers r) k p') k)
               (JsMap.delete (configs r) k)
               (if match defaultPrinterId r with
                   | Some d => String.eqb d k
                   | None => false
                   end
                then
                  if (0 <? JsMap.size
                             (JsMap.delete (JsMap.set (printers r) k p') k))%nat
                  then JsMap.first_key
                         (JsMap.delete (JsMap.set (printers r) k p') k)
                  else None
                else defaultPrinterId r)
               (emitted r ++ [PrinterUnregistered k]))
      | (Threw e, p') =>
          unregisterPrinter k r
          = (Threw (PrinterError
                      ("Failed to unregister printer: " ++ dotMessage e)
                      CONNECTION_FAILED (Some k) (Some e)),
             set_printers (JsMap.set (printers r) k p') r)
      end
  end.
Proof.
  destruct r as [ps cs d em].
  unfold unregisterPrinter, try_catch, bind, gets, modify, on_printer, emit,
    when, throw, ret, not_found.
  registry_simpl.
  destruct (JsMap.get ps k) as [p |]; [| reflexivity].
  destruct (IPrinter.dispose p) as [[[] | e] p']; registry_simpl;
    [| reflexivity].
  match goal with
  | |- context [if ?b then _ else _] => destruct b
  end; reflexivity.
Qed.

Lemma mark_default_shape k b (r : Registry P) :
  exists cs,
    mark_default k b r
    = (Returned tt,
       mkRegistry (printers r) cs (defaultPrinterId r) (emitted r))
    /\ JsMap.keys cs = JsMap.keys (configs r)
    /\ (forall k', k' <> k -> JsMap.get cs k' = JsMap.get (configs r) k')
    /\ JsMap.get cs k = option_map (set_isDefault b) (JsMap.get (configs r) k).
Proof.
  destruct r as [ps cs d em]. unfold mark_default, modify.
  cbn [printers configs defaultPrinterId emitted].
  destruct (JsMap.get cs k) as [c |] eqn:Hget.
  - exists (JsMap.set cs k (set_isDefault b c)).
    split; [reflexivity |]. split; [| split].
    + apply JsMap_keys_set_has. unfold JsMap.has. now rewrite Hget.
    + intros k' Hne. now apply JsMap_get_set_other.
    + apply JsMap_get_set_same.
  - exists cs. cbn. rewrite Hget. auto.
Qed.

(** The state after [setDefaultPrinter]. *)
Lemma setDefaultPrinter_cases k (r : Registry P) :
  if JsMap.has (printers r) k then
    exists cs,
      setDefaultPrinter k r
      = (Returned tt,
         mkRegistry (printers r) cs (Some k)
           (emitted r ++ [DefaultPrinterChanged k (defaultPrinterId r)]))
      /\ JsMap.keys cs = JsMap.keys (configs r)
      /\ JsMap.get cs k
         = option_map (set_isDefault true) (JsMap.get (configs r) k)
      /\ (forall old,
             defaultPrinterId r = Some old -> old <> k -> old <> "" ->
             JsMap.get cs old
             = option_map (set_isDefault false) (JsMap.get (configs r) old))
      /\ (forall k',
             k' <> k -> defaultPrinterId r <> Some k' ->
             JsMap.get cs k' = JsMap.get (configs r) k')
  else setDefaultPrinter k r = (Threw (not_found k), r).
Proof.
  unfold setDefaultPrinter, bind, gets, not_found.
  destruct (JsMap.has (printers r) k) eqn:Hhas; cbn [negb];
    [| reflexivity].
  unfold modify at 1. cbv beta iota.
  destruct (mark_default_shape k true (set_defaultPrinterId (Some k) r))
    as [cs1 [E1 [K1 [O1 S1]]]].
  rewrite E1. cbv beta iota.
  cbn [printers configs defaultPrinterId emitted set_defaultPrinterId]
    in *.
  destruct (defaultPrinterId r) as [old |] eqn:Hold.
  - unfold when.
    destruct (Js.truthy_string old && negb (String.eqb old k)) eqn:Hcond.
    + apply andb_true_iff in Hcond. destruct Hcond as [Ht Hne].
      apply negb_true_iff, String.eqb_neq in Hne.
      destruct (mark_default_shape old false
                  (mkRegistry (printers r) cs1 (Some k) (emitted r)))
        as [cs2 [E2 [K2 [O2 S2]]]].
      rewrite E2. cbv beta iota.
      cbn [printers configs defaultPrinterId emitted] in *.
      exists cs2. unfold emit, modify. cbn.
      split; [reflexivity |]. split; [congruence |].
      split; [| split].
      * rewrite O2 by congruence. exact S1.
      * intros old' Ho Hn _. inversion Ho; subst old'.
        rewrite S2, O1 by assumption. reflexivity.
      * intros k' Hk Hd. rewrite O2, O1; auto. congruence.
    + unfold ret. cbv beta iota. exists cs1. unfold emit, modify. cbn.
      split; [reflexivity |]. split; [exact K1 |].
      split; [exact S1 |]. split.
      * intros old' Ho Hn Hne. inversion Ho; subst old'.
        apply andb_false_iff in Hcond. destruct Hcond as [Ht | Hk].
        -- apply truthy_string_false in Ht. contradiction.
        -- apply negb_false_iff, String.eqb_eq in Hk. contradiction.
      * intros k' Hk _. now apply O1.
  - unfold ret. cbv beta iota. exists cs1. unfold emit, modify. cbn.
    split; [reflexivity |]. split; [exact K1 |].
    split; [exact S1 |]. split; [discriminate |].
    intros k' Hk _. now apply O1.
Qed.

End RegistryStates.

Section RegistryShape.

Context {P : Type} {ops : IPrinter.ops P}.

Variable factory : IPrinterFactory.t P.

Import PrinterRegistry.

Ltac registry_simpl :=
  cbv beta iota;
  cbn [negb set_printers set_configs set_defaultPrinterId printers configs
       defaultPrinterId emitted].

Lemma same_shape_refl (r : Registry P) : same_shape r r.
Proof. repeat split. Qed.

Lemma JsMap_get_has {V} (m : JsMap.t V) k v :
  JsMap.get m k = Some v -> JsMap.has m k = true.
Proof. unfold JsMap.has. now intros ->. Qed.

Lemma keys_nil {V} (m : JsMap.t V) : JsMap.keys m = [] -> m = [].
Proof. destruct m; [reflexivity | discriminate]. Qed.

Lemma same_shape_consistent (r r' : Registry P) :
  same_shape r r' -> registry_consistent r -> registry_consistent r'.
Proof.
  intros [Hp [Hc Hd]] [H1 H2 H3]. constructor.
  - congruence.
  - now rewrite Hp.
  - intros k Hk. rewrite Hd in Hk.
    rewrite (JsMap_has_congr (printers r') (printers r) k Hp). auto.
Qed.

Lemma same_shape_has_default (r r' : Registry P) :
  same_shape r r' -> has_default r -> has_default r'.
Proof.
  intros [Hp [_ Hd]] H Hne. rewrite Hd. apply H.
  intro E. apply Hne. apply keys_nil. now rewrite Hp, E.
Qed.

Lemma validatePrinter_shape now k (r : Registry P) :
  same_shape r (snd (validatePrinter now k r)).
Proof.
  destruct r as [ps cs d em].
  unfold validatePrinter, try_catch, bind, gets, on_printer, ret.
  registry_simpl.
  destruct (JsMap.get ps k) as [p |] eqn:Hget; [| apply same_shape_refl].
  destruct (IPrinter.selfTest now p) as [[b | e] p']; registry_simpl;
    cbn [snd]; (split; [| split; reflexivity]); cbn [printers];
    apply JsMap_keys_set_has, (JsMap_get_has _ _ Hget).
Qed.

Lemma same_shape_trans (r1 r2 r3 : Registry P) :
  same_shape r1 r2 -> same_shape r2 r3 -> same_shape r1 r3.
Proof.
  intros [A1 [A2 A3]] [B1 [B2 B3]]. repeat split; congruence.
Qed.

Lemma same_shape_has (r r' : Registry P) k :
  same_shape r r' ->
  JsMap.has (printers r) k = true /\ JsMap.has (configs r) k = true ->
  JsMap.has (printers r') k = true /\ JsMap.has (configs r') k = true.
Proof.
  intros [Hp [Hc _]] [H1 H2].
  rewrite (JsMap_has_congr (printers r') (printers r) k Hp).
  rewrite (JsMap_has_congr (configs r') (configs r) k Hc). auto.
Qed.

Lemma keeps_shape_ret {A} k (a : A) : keeps_shape k (@ret (Registry P) A a).
Proof. intros r _ _. apply same_shape_refl. Qed.

Lemma keeps_shape_throw {A} k e : keeps_shape k (@throw (Registry P) A e).
Proof. intros r _ _. apply same_shape_refl. Qed.

Lemma keeps_shape_gets {A} k (f : Registry P -> A) : keeps_shape k (gets f).
Proof. intros r _ _. apply same_shape_refl. Qed.

Lemma keeps_shape_lift {A} k (o : outcome A) :
  keeps_shape k (@lift P A o).
Proof. intros r _ _. apply same_shape_refl. Qed.

Lemma keeps_shape_emit k e : keeps_shape k (@emit P e).
Proof. intros r _ _. repeat split. Qed.

Lemma keeps_shape_on_printer {A} k p (c : M P A) :
  keeps_shape k (on_printer k p c).
Proof.
  intros r Hp _. unfold on_printer. destruct (c p) as [o p']. cbn [snd].
  split; [| split; reflexivity]. cbn [set_printers printers].
  now apply JsMap_keys_set_has.
Qed.

Lemma keeps_shape_set_config k c :
  keeps_shape k
    (modify (fun r : Registry P =>
               set_configs (JsMap.set (configs r) k c) r)).
Proof.
  intros r _ Hc. unfold modify. cbn [snd].
  split; [reflexivity | split; [| reflexivity]].
  cbn [set_configs configs]. now apply JsMap_keys_set_has.
Qed.

Lemma keeps_shape_bind {A B} k (c : M (Registry P) A)
    (f : A -> M (Registry P) B) :
  keeps_shape k c -> (forall a, keeps_shape k (f a)) ->
  keeps_shape k (bind c f).
Proof.
  intros Hc Hf r Hp Hcs. unfold bind. specialize (Hc r Hp Hcs).
  destruct (c r) as [[a | e] r1]; cbn [snd] in *; [| exact Hc].
  destruct (same_shape_has k Hc (conj Hp Hcs)) as [Hp1 Hcs1].
  exact (same_shape_trans Hc (Hf a r1 Hp1 Hcs1)).
Qed.

Lemma keeps_shape_try_catch {A} k (c : M (Registry P) A)
    (h : Exn -> M (Registry P) A) :
  keeps_shape k c -> (forall e, keeps_shape k (h e)) ->
  keeps_shape k (try_catch c h).
Proof.
  intros Hc Hh r Hp Hcs. unfold try_catch. specialize (Hc r Hp Hcs).
  destruct (c r) as [[a | e] r1]; cbn [snd] in *; [exact Hc |].
  destruct (same_shape_has k Hc (conj Hp Hcs)) as [Hp1 Hcs1].
  exact (same_shape_trans Hc (Hh e r1 Hp1 Hcs1)).
Qed.

Lemma updatePrinterConfig_shape k updates (r : Registry P) :
  same_shape r (snd (updatePrinterConfig factory k updates r)).
Proof.
  unfold updatePrinterConfig, bind at 1, gets at 1. cbv beta iota.
  destruct (JsMap.get (configs r) k) as [current |] eqn:Hcs;
    [| apply same_shape_refl].
  destruct (IPrinterFactory.validateConfig factory
              (set_id k (Utils.spread current updates)));
    cbn [negb]; [| apply same_shape_refl].
  apply JsMap_get_has in Hcs.
  destruct (JsMap.get (printers r) k) as [currentPrinter |] eqn:Hps.
  - apply JsMap_get_has in Hps. revert r Hps Hcs.
    change (keeps_shape k
              (try_catch
                 (ps <- gets printers ;;
                  match JsMap.get ps k with
                  | Some currentPrinter =>
                      let wasConnected :=
                        IPrinter.isConnected currentPrinter in
                      on_printer k currentPrinter
                        (when wasConnected IPrinter.disconnect ;;
                         IPrinter.dispose) ;;
                      newPrinter <-
                        lift (IPrinterFactory.createPrinter factory
                                (set_id k (Utils.spread current updates))) ;;
                      on_printer k newPrinter
                        (IPrinter.on_forward ;;
                         when wasConnected IPrinter.connect)
                  | None => ret tt
                  end ;;
                  modify (fun r =>
                            set_configs
                              (JsMap.set (configs r) k
                                 (set_id k (Utils.spread current updates)))
                              r) ;;
                  emit (PrinterConfigUpdated k current
                          (set_id k (Utils.spread current updates))))
                 (fun error =>
                    throw (PrinterError
                             ("Failed to update printer configuration: "
                                ++ dotMessage error)
                             INVALID_CONFIG (Some k) (Some error))))).
    apply keeps_shape_try_catch; [| intro; apply keeps_shape_throw].
    apply keeps_shape_bind; [apply keeps_shape_gets | intro ps].
    apply keeps_shape_bind.
    + destruct (JsMap.get ps k) as [cp |]; [| apply keeps_shape_ret].
      cbv zeta.
      apply keeps_shape_bind; [apply keeps_shape_on_printer | intros _].
      apply keeps_shape_bind; [apply keeps_shape_lift | intro np].
      apply keeps_shape_on_printer.
    + intros _.
      apply keeps_shape_bind; [apply keeps_shape_set_config | intros _].
      apply keeps_shape_emit.
  - unfold try_catch, bind, gets, modify, emit, throw, ret. cbv beta iota.
    rewrite Hps. cbv beta iota. cbn [snd].
    split; [reflexivity | split; [| reflexivity]].
    cbn [set_configs configs printers]. now apply JsMap_keys_set_has.
Qed.

Lemma dispose_all_returns ks (r : Registry P) :
  exists r', dispose_all ks r = (Returned tt, r') /\ emitted r' = emitted r.
Proof.
  revert r. induction ks as [| [k p] ks IH]; intro r; cbn [dispose_all].
  - exists r. split; reflexivity.
  - unfold bind, try_catch, on_printer, ret.
    destruct (IPrinter.dispose p) as [[[] | e] p']; cbv beta iota;
      destruct (IH (set_printers (JsMap.set (printers r) k p') r))
        as [r' [E Hem]];
      rewrite E; exists r'; split; try reflexivity; exact Hem.
Qed.

Lemma dispose_state (r : Registry P) :
  dispose r = (Returned tt, mkRegistry [] [] None (emitted r)).
Proof.
  unfold dispose, bind, gets, modify. cbv beta iota.
  destruct (dispose_all_returns (printers r) r) as [r' [E Hem]].
  rewrite E. cbv beta iota. now rewrite Hem.
Qed.

Lemma after_registry_call_consistent call (r : Registry P) :
  registry_consistent r ->
  registry_consistent (after_registry_call factory call r).
Proof.
  intros [H1 H2 H3]. destruct call; cbn [after_registry_call].
  - pose proof (registerPrinter_cases factory config r) as H.
    destruct (if negb (IPrinterFactory.validateConfig factory config)
              then None
              else if JsMap.has (printers r) (id config) then None
                   else match IPrinterFactory.createPrinter factory config with
                        | Returned p => Some p
                        | Threw _ => None
                        end) as [p |].
    + destruct H as [Hfresh H].
      assert (Hshape : forall p' d em,
                 (d = defaultPrinterId r \/ d = Some (id config)) ->
                 registry_consistent
                   (mkRegistry (JsMap.set (printers r) (id config) p')
                      (JsMap.set (configs r) (id config) config) d em)).
      { intros p' d em Hd. constructor; cbn [printers configs defaultPrinterId].
        - now apply JsMap_keys_set_congr.
        - now apply JsMap_nodup_set.
        - intros k Hk. destruct Hd as [-> | ->].
          + apply JsMap_has_set_mono. auto.
          + inversion Hk; subst. apply JsMap_has_set_same. }
      destruct (IPrinter.on_forward p) as [[[] | e] p'].
      * rewrite H. cbn [snd]. apply Hshape.
        match goal with
        | |- context [if ?b then _ else _] => destruct b
        end; auto.
      * destruct H as [-> _]. apply Hshape. auto.
    + destruct H as [-> _]. now constructor.
  - pose proof (unregisterPrinter_cases k r) as H.
    destruct (JsMap.get (printers r) k) as [p |] eqn:Hget.
    + apply JsMap_get_has in Hget.
      pose proof (JsMap_keys_set_has (printers r) k) as Hkeys.
      destruct (IPrinter.dispose p) as [[[] | e] p']; rewrite H; cbn [snd].
      * constructor; cbn [printers configs defaultPrinterId].
        -- apply JsMap_keys_delete_congr. now rewrite Hkeys.
        -- apply JsMap_nodup_delete. now rewrite Hkeys.
        -- intros k' Hk'.
           destruct (match defaultPrinterId r with
                     | Some d => String.eqb d k
                     | None => false
                     end) eqn:Hd.
           ++ destruct (0 <? _)%nat; [| discriminate].
              now apply JsMap_first_key_has.
           ++ rewrite Hk' in Hd. apply String.eqb_neq in Hd.
              rewrite JsMap_has_delete_other by assumption.
              apply JsMap_has_set_mono. auto.
      * constructor; cbn [set_printers printers configs defaultPrinterId].
        -- now rewrite Hkeys.
        -- now rewrite Hkeys.
        -- intros k' Hk'. apply JsMap_has_set_mono. auto.
    + rewrite H. now constructor.
  - pose proof (setDefaultPrinter_cases k r) as H.
    destruct (JsMap.has (printers r) k) eqn:Hhas.
    + destruct H as [cs [-> [Hkeys _]]]. cbn [snd].
      constructor; cbn [printers configs defaultPrinterId].
      * congruence.
      * exact H2.
      * intros k' Hk'. now inversion Hk'; subst.
    + rewrite H. now constructor.
  - apply (same_shape_consistent (updatePrinterConfig_shape k updates r)).
    now constructor.
  - apply (same_shape_consistent (validatePrinter_shape now k r)).
    now constructor.
  - rewrite dispose_state. cbn [snd].
    constructor; cbn; [reflexivity | constructor | discriminate].
Qed.

Lemma after_registry_call_has_default call (r : Registry P) :
  (forall p, fst (IPrinter.on_forward p) = Returned tt) ->
  registry_consistent r -> has_default r ->
  has_default (after_registry_call factory call r).
Proof.
  intros Hfw [H1 H2 H3] Hdef. destruct call; cbn [after_registry_call].
  - pose proof (registerPrinter_cases factory config r) as H.
    destruct (if negb (IPrinterFactory.validateConfig factory config)
              then None
              else if JsMap.has (printers r) (id config) then None
                   else match IPrinterFactory.createPrinter factory config with
                        | Returned p => Some p
                        | Threw _ => None
                        end) as [p |].
    + destruct H as [Hfresh H]. specialize (Hfw p).
      destruct (IPrinter.on_forward p) as [[[] | e] p'];
        [| discriminate Hfw].
      rewrite H. cbn [snd]. intros _. cbn [defaultPrinterId].
      destruct (Js.truthy_obool (isDefault config)); cbn [orb];
        [discriminate |].
      destruct (JsMap.size (JsMap.set (printers r) (id config) p') =? 1)%nat
        eqn:Hsize; [discriminate |].
      apply Hdef. intro E. rewrite E in Hsize. discriminate.
    + destruct H as [-> _]. exact Hdef.
  - pose proof (unregisterPrinter_cases k r) as H.
    destruct (JsMap.get (printers r) k) as [p |] eqn:Hget.
    + assert (Hne : printers r <> []).
      { intro E. rewrite E in Hget. discriminate. }
      specialize (Hdef Hne).
      destruct (IPrinter.dispose p) as [[[] | e] p']; rewrite H; cbn [snd].
      * intro Hne'. cbn [printers defaultPrinterId] in *.
        destruct (defaultPrinterId r) as [d |]; [| contradiction].
        destruct (String.eqb d k); [| discriminate].
        destruct (JsMap.delete (JsMap.set (printers r) k p') k)
          as [| [k0 v0] m]; [contradiction | discriminate].
      * intros _. exact Hdef.
    + rewrite H. exact Hdef.
  - pose proof (setDefaultPrinter_cases k r) as H.
    destruct (JsMap.has (printers r) k) eqn:Hhas.
    + destruct H as [cs [-> _]]. intros _. discriminate.
    + rewrite H. exact Hdef.
  - exact (same_shape_has_default (updatePrinterConfig_shape k updates r)
             Hdef).
  - exact (same_shape_has_default (validatePrinter_shape now k r) Hdef).
  - rewrite dispose_state. intro Hne. now contradiction Hne.
Qed.

End RegistryShape.

(** ** The registry: invariants and rejections *)

Section RegistryInvariant.

Context {P : Type} {ops : IPrinter.ops P}.

Variable factory : IPrinterFactory.t P.

Lemma after_registry_calls_consistent calls (r : PrinterRegistry.Registry P) :
  registry_consistent r ->
  registry_consistent (after_registry_calls factory calls r).
Proof.
  revert r. unfold after_registry_calls.
  induction calls as [| call calls IH]; intros r Hr; cbn [fold_left].
  - exact Hr.
  - apply IH. now apply after_registry_call_consistent.
Qed.

Lemma after_registry_calls_has_default calls
    (r : PrinterRegistry.Registry P) :
  (forall p, fst (IPrinter.on_forward p) = Returned tt) ->
  registry_consistent r -> has_default r ->
  has_default (after_registry_calls factory calls r).
Proof.
  intro Hfw. revert r. unfold after_registry_calls.
  induction calls as [| call calls IH]; intros r Hr Hd; cbn [fold_left].
  - exact Hd.
  - apply IH.
    + now apply after_registry_call_consistent.
    + now apply after_registry_call_has_default.
Qed.

Lemma new_registry_consistent :
  registry_consistent (@PrinterRegistry.new P).
Proof. constructor; cbn; [reflexivity | constructor | discriminate]. Qed.

End RegistryInvariant.

(** X17.  Through every sequence of calls of [registerPrinter],
    [unregisterPrinter], [setDefaultPrinter], [updatePrinterConfig],
    [validatePrinter] and [dispose] on a new registry, whatever their
    outcomes, the printers and the configurations are kept under the same
    identifiers, no identifier occurs twice, and the default identifier,
    when there is one, is that of a registered printer.  When the
    subscription of the listeners of a printer does not throw, a registry
    that holds a printer has a default printer. *)
Theorem registry_stays_consistent :
  forall (P : Type) (ops : IPrinter.ops P) (factory : IPrinterFactory.t P)
         (calls : list RegistryCall),
    registry_consistent
      (after_registry_calls factory calls PrinterRegistry.new)
    /\ ((forall p, fst (IPrinter.on_forward p) = Returned tt) ->
        has_default (after_registry_calls factory calls PrinterRegistry.new)).
Proof.
  intros P ops factory calls. split.
  - apply after_registry_calls_consistent, new_registry_consistent.
  - intro Hfw.
    apply after_registry_calls_has_default;
      [exact Hfw | apply new_registry_consistent |].
    intro H. now contradiction H.
Qed.

(** X18.  A call that the registry rejects changes nothing.
    [registerPrinter] of a configuration that the factory refuses, or whose
    identifier is taken, or for which the factory cannot build a printer,
    throws a [PrinterError] with the code [INVALID_CONFIG] that wraps the
    cause.  [unregisterPrinter] and [setDefaultPrinter] of an identifier
    that has no printer, and [updatePrinterConfig] of an identifier that has
    no configuration, throw [PRINTER_NOT_FOUND]; [updatePrinterConfig] with
    updates that make the configuration invalid throws [INVALID_CONFIG]
    before it touches the printer. *)
Theorem registry_rejections_change_nothing :
  forall (P : Type) (ops : IPrinter.ops P) (factory : IPrinterFactory.t P)
         (r : PrinterRegistry.Registry P),
    (forall c,
        IPrinterFactory.validateConfig factory c = false
        \/ JsMap.has (PrinterRegistry.printers r) (id c) = true
        \/ (exists e, IPrinterFactory.createPrinter factory c = Threw e) ->
        exists cause,
          PrinterRegistry.registerPrinter factory c r
          = (Threw (PrinterError
                      ("Failed to register printer: " ++ dotMessage cause)
                      INVALID_CONFIG (Some (id c)) (Some cause)),
             r))
    /\ (forall k,
           PrinterRegistry.getPrinter r k = None ->
           PrinterRegistry.unregisterPrinter k r = (Threw (not_found k), r)
           /\ PrinterRegistry.setDefaultPrinter k r
              = (Threw (not_found k), r))
    /\ (forall k updates,
           PrinterRegistry.getPrinterConfig r k = None ->
           PrinterRegistry.updatePrinterConfig factory k updates r
           = (Threw (not_found k), r))
    /\ (forall k updates current,
           PrinterRegistry.getPrinterConfig r k = Some current ->
           IPrinterFactory.validateConfig factory
             (PrinterRegistry.set_id k (Utils.spread current updates))
           = false ->
           PrinterRegistry.updatePrinterConfig factory k updates r
           = (Threw (PrinterError "Invalid configuration update"
                       INVALID_CONFIG (Some k) None),
              r)).
Proof.
  intros P ops factory r.
  split; [| split; [| split]].
  - intros c H.
    unfold PrinterRegistry.registerPrinter, try_catch, bind, gets, throw,
      ret, PrinterRegistry.lift.
    destruct (IPrinterFactory.validateConfig factory c) eqn:Hv;
      cbn [negb]; cbv beta iota; [| eexists; reflexivity].
    destruct (JsMap.has (PrinterRegistry.printers r) (id c)) eqn:Hh;
      cbv beta iota; [eexists; reflexivity |].
    destruct H as [H | [H | [e H]]]; try discriminate.
    rewrite H. cbv beta iota. eexists; reflexivity.
  - intros k Hk. unfold PrinterRegistry.getPrinter in Hk. split.
    + pose proof (unregisterPrinter_cases k r) as H.
      now rewrite Hk in H.
    + pose proof (setDefaultPrinter_cases k r) as H.
      unfold JsMap.has in H. now rewrite Hk in H.
  - intros k updates Hk. unfold PrinterRegistry.getPrinterConfig in Hk.
    unfold PrinterRegistry.updatePrinterConfig, bind, gets.
    cbv beta iota. now rewrite Hk.
  - intros k updates current Hk Hv.
    unfold PrinterRegistry.getPrinterConfig in Hk.
    unfold PrinterRegistry.updatePrinterConfig, bind, gets.
    cbv beta iota. rewrite Hk, Hv. reflexivity.
Qed.



(** X20.  [registerPrinter] never touches the configuration of another
    printer, whatever its outcome: the configuration of the former default
    keeps its default flag when a printer registered with the flag takes
    over.  When it returns, the configuration given is the one kept for the
    identifier. *)
Theorem registerPrinter_keeps_other_configurations :
  forall (P : Type) (ops : IPrinter.ops P) (factory : IPrinterFactory.t P)
         (c : PrinterConfig) (r : PrinterRegistry.Registry P),
    let r' := snd (PrinterRegistry.registerPrinter factory c r) in
    (forall k,
        k <> id c ->
        PrinterRegistry.getPrinterConfig r' k
        = PrinterRegistry.getPrinterConfig r k)
    /\ (forall k,
           PrinterRegistry.registerPrinter factory c r = (Returned k, r') ->
           k = id c /\ PrinterRegistry.getPrinterConfig r' (id c) = Some c).
Proof.
  intros P ops factory c r r'. subst r'.
  pose proof (registerPrinter_cases factory c r) as H.
  unfold PrinterRegistry.getPrinterConfig.
  destruct (if negb (IPrinterFactory.validateConfig factory c) then None
            else if JsMap.has (PrinterRegistry.printers r) (id c) then None
                 else match IPrinterFactory.createPrinter factory c with
                      | Returned p => Some p
                      | Threw _ => None
                      end) as [p |].
  - destruct H as [_ H].
    destruct (IPrinter.on_forward p) as [[[] | e] p'].
    + rewrite H. cbn [snd PrinterRegistry.configs]. split.
      * intros k Hk. now apply JsMap_get_set_other.
      * intros k Hk. inversion Hk. split; [reflexivity |].
        apply JsMap_get_set_same.
    + destruct H as [-> [e' He']]. cbn [PrinterRegistry.configs]. split.
      * intros k Hk. now apply JsMap_get_set_other.
      * intros k Hk. rewrite (surjective_pairing
                                (PrinterRegistry.registerPrinter factory c r))
          in Hk.
        rewrite He' in Hk. discriminate.
  - destruct H as [-> [e He]]. split; [reflexivity |].
    intros k Hk.
    rewrite (surjective_pairing (PrinterRegistry.registerPrinter factory c r))
      in Hk.
    rewrite He in Hk. discriminate.
Qed.

(** ** The configuration manager: the cache *)

Lemma Forall_JsMap_set {V} (Q : string * V -> Prop) (m : JsMap.t V) k v :
  Forall Q m -> Q (k, v) -> Forall Q (JsMap.set m k v).
Proof.
  intros Hm Hkv. induction m as [| [k0 v0] m IH]; cbn.
  - now constructor.
  - inversion Hm; subst.
    destruct (String.eqb k k0); constructor; auto.
Qed.

Lemma Forall_JsMap_delete {V} (Q : string * V -> Prop) (m : JsMap.t V) k :
  Forall Q m -> Forall Q (JsMap.delete m k).
Proof.
  intro Hm. induction m as [| [k0 v0] m IH]; cbn; [constructor |].
  inversion Hm; subst.
  destruct (String.eqb k k0); [assumption | constructor; auto].
Qed.

Lemma JsMap_get_in {V} (m : JsMap.t V) k v :
  JsMap.get m k = Some v -> In (k, v) m.
Proof.
  induction m as [| [k0 v0] m IH]; cbn; [discriminate |].
  destruct (String.eqb_spec k k0) as [-> | Hne].
  - intro H. inversion H. now left.
  - intro H. right. now apply IH.
Qed.

Lemma cache_consistent_nil : cache_consistent [].
Proof. repeat split; constructor. Qed.

Lemma cache_consistent_set m c :
  cache_consistent m -> ConfigManager.validateConfig c = true ->
  cache_consistent (JsMap.set m (id c) c).
Proof.
  intros [Hk [Hn Hv]] Hc. split; [| split].
  - now apply Forall_JsMap_set.
  - now apply JsMap_nodup_set.
  - now apply Forall_JsMap_set.
Qed.

Lemma validateConfig_set_isDefault b c :
  ConfigManager.validateConfig (ConfigManager.set_isDefault b c)
  = ConfigManager.validateConfig c.
Proof. reflexivity. Qed.

Lemma cache_consistent_flag m k c b :
  cache_consistent m -> JsMap.get m k = Some c ->
  cache_consistent (JsMap.set m k (ConfigManager.set_isDefault b c)).
Proof.
  intros [Hk [Hn Hv]] Hget. apply JsMap_get_in in Hget.
  unfold keyed_by_id, all_valid in *.
  pose proof (proj1 (Forall_forall _ _) Hk _ Hget) as Hid.
  pose proof (proj1 (Forall_forall _ _) Hv _ Hget) as Hval.
  cbn in Hid, Hval. split; [| split].
  - now apply Forall_JsMap_set.
  - now apply JsMap_nodup_set.
  - now apply Forall_JsMap_set.
Qed.

Lemma cache_consistent_delete m k :
  cache_consistent m -> cache_consistent (JsMap.delete m k).
Proof.
  intros [Hk [Hn Hv]]. split; [| split].
  - now apply Forall_JsMap_delete.
  - now apply JsMap_nodup_delete.
  - now apply Forall_JsMap_delete.
Qed.

Lemma clear_other_defaults_keys k m :
  JsMap.keys (ConfigManager.clear_other_defaults k m) = JsMap.keys m.
Proof.
  unfold JsMap.keys, ConfigManager.clear_other_defaults.
  induction m as [| [k0 c0] m IH]; cbn; [reflexivity |].
  rewrite IH. now destruct (negb (String.eqb k0 k) && _).
Qed.

Lemma cache_consistent_clear k m :
  cache_consistent m ->
  cache_consistent (ConfigManager.clear_other_defaults k m).
Proof.
  intros [Hk [Hn Hv]]. split; [| split].
  - unfold keyed_by_id, ConfigManager.clear_other_defaults in *.
    induction Hk as [| [k0 c0] m H0 Hk IH]; cbn; constructor.
    + now destruct (negb (String.eqb k0 k) && _).
    + apply IH.
      * now inversion Hn.
      * now inversion Hv.
  - now rewrite clear_other_defaults_keys.
  - unfold all_valid, ConfigManager.clear_other_defaults in *.
    clear Hk Hn.
    induction Hv as [| [k0 c0] m H0 Hv IH]; cbn; constructor; auto.
    now destruct (negb (String.eqb k0 k) && _).
Qed.

Lemma clear_other_defaults_get k m k' :
  JsMap.get (ConfigManager.clear_other_defaults k m) k'
  = option_map
      (fun c =>
         if negb (String.eqb k' k) && Js.truthy_obool (isDefault c)
         then ConfigManager.set_isDefault false c else c)
      (JsMap.get m k').
Proof.
  unfold ConfigManager.clear_other_defaults.
  induction m as [| [k0 c0] m IH]; cbn; [reflexivity |].
  destruct (String.eqb_spec k' k0) as [-> | Hne].
  - destruct (negb (String.eqb k0 k) && _) eqn:E; cbn;
      rewrite String.eqb_refl; cbn; rewrite ?E; reflexivity.
  - apply String.eqb_neq in Hne.
    destruct (negb (String.eqb k0 k) && _); cbn; rewrite Hne; exact IH.
Qed.

Lemma validate_record_valid j c :
  ConfigManager.validate_record j = inr c ->
  ConfigManager.decode j = Some c /\ ConfigManager.validateConfig c = true.
Proof.
  unfold ConfigManager.validate_record.
  destruct j as [| ? | ? | ? | ? | fields]; try discriminate;
    destruct (ConfigManager.decode _) as [c0 |]; try discriminate;
    destruct (ConfigManager.validateConfig c0) eqn:Hc; cbn [negb];
    try discriminate; intro H; injection H as <-; auto.
Qed.


Lemma validate_all_valid items configs :
  ConfigManager.validate_all items = inr configs ->
  Forall (fun c => ConfigManager.validateConfig c = true) configs.
Proof.
  revert configs. induction items as [| j items IH]; cbn; intros configs H.
  - inversion H. constructor.
  - destruct (ConfigManager.validate_record j) as [e | c] eqn:Hj;
      [discriminate |].
    apply validate_record_valid in Hj. destruct Hj as [_ Hc].
    destruct (ConfigManager.validate_all items) as [e | more];
      [discriminate |].
    inversion H; subst. constructor; auto.
Qed.


Lemma cache_consistent_fill_from configs m :
  cache_consistent m ->
  Forall (fun c => ConfigManager.validateConfig c = true) configs ->
  cache_consistent
    (fold_left (fun m config => JsMap.set m (id config) config) configs m).
Proof.
  revert m. induction configs as [| c configs IH]; intros m Hm Hv; cbn.
  - exact Hm.
  - inversion Hv; subst. apply IH; [| assumption].
    now apply cache_consistent_set.
Qed.

Lemma cache_consistent_fill configs :
  Forall (fun c => ConfigManager.validateConfig c = true) configs ->
  cache_consistent (ConfigManager.fill configs).
Proof.
  intro H. apply cache_consistent_fill_from; [apply cache_consistent_nil |].
  exact H.
Qed.

(** ** The configuration manager: what each method does to the state *)

Section StoreStates.

Variable writeFile : Json -> outcome unit.

Import ConfigManager.

Ltac store_simpl :=
  cbv beta iota;
  unfold set_configCache, set_defaultConfigId;
  cbn [negb defaultConfigId configCache written].

Lemma saveConfigurationsToFile_state isoDate (s : Store) :
  saveConfigurationsToFile writeFile isoDate s
  = (writeFile (configData isoDate s), wrote isoDate s).
Proof. reflexivity. Qed.

Lemma saveConfig_cases isoDate c (s : Store) :
  if validateConfig c then
    saveConfig writeFile isoDate c s
    = (match writeFile (configData isoDate (saved c s)) with
       | Returned _ => Returned tt
       | Threw error =>
           Threw (PrinterError
                    ("Failed to save printer configuration: "
                       ++ errorMessage error)
                    INVALID_CONFIG (Some (id c)) (Some (asError error)))
       end,
       wrote isoDate (saved c s))
  else
    saveConfig writeFile isoDate c s
    = (Threw (PrinterError
                "Failed to save printer configuration: Invalid printer configuration"
                INVALID_CONFIG (Some (id c))
                (Some (PrinterError "Invalid printer configuration"
                         INVALID_CONFIG (Some (id c)) None))),
       s).
Proof.
  destruct s as [d cache w].
  unfold saveConfig, try_catch, bind, modify, when, throw, ret, saved.
  destruct (validateConfig c); store_simpl; [| reflexivity].
  destruct (Js.truthy_obool (isDefault c)); store_simpl;
    rewrite saveConfigurationsToFile_state;
    match goal with
    | |- context [writeFile ?doc] => destruct (writeFile doc) as [[] | e]
    end; reflexivity.
Qed.

Lemma deleteConfig_cases isoDate k (s : Store) :
  if JsMap.has (configCache s) k then
    deleteConfig writeFile isoDate k s
    = (match writeFile (configData isoDate (deleted k s)) with
       | Returned _ => Returned tt
       | Threw error =>
           Threw (PrinterError
                    ("Failed to delete configuration: " ++ errorMessage error)
                    INVALID_CONFIG (Some k) (Some (asError error)))
       end,
       wrote isoDate (deleted k s))
  else
    deleteConfig writeFile isoDate k s
    = (Threw (PrinterError
                ("Failed to delete configuration: "
                   ++ errorMessage (configuration_not_found k))
                INVALID_CONFIG (Some k) (Some (configuration_not_found k))),
       s).
Proof.
  destruct s as [d cache w].
  unfold deleteConfig, try_catch, bind, gets, modify, when, throw, ret,
    deleted, configuration_not_found.
  store_simpl.
  destruct (JsMap.has cache k); store_simpl; [| reflexivity].
  destruct (match d with Some d' => String.eqb d' k | None => false end);
    store_simpl; rewrite saveConfigurationsToFile_state;
    match goal with
    | |- context [writeFile ?doc] => destruct (writeFile doc) as [[] | e]
    end; reflexivity.
Qed.

Lemma mark_default_state k b (s : Store) :
  mark_default k b s
  = (Returned tt,
     match JsMap.get (configCache s) k with
     | Some c =>
         mkStore (defaultConfigId s)
           (JsMap.set (configCache s) k (set_isDefault b c)) (written s)
     | None => s
     end).
Proof.
  unfold mark_default, modify. now destruct (JsMap.get (configCache s) k).
Qed.

Lemma mark_default_consistent k b (s : Store) :
  cache_consistent (configCache s) ->
  cache_consistent (configCache (snd (mark_default k b s)))
  /\ written (snd (mark_default k b s)) = written s.
Proof.
  intro H. rewrite mark_default_state. cbn [snd].
  destruct (JsMap.get (configCache s) k) as [c |] eqn:Hget; cbn.
  - split; [now apply cache_consistent_flag | reflexivity].
  - auto.
Qed.

Lemma setDefaultConfig_consistent isoDate k (s : Store) :
  cache_consistent (configCache s) ->
  cache_consistent
    (configCache (snd (setDefaultConfig writeFile isoDate k s))).
Proof.
  intro H. unfold setDefaultConfig, bind, gets, throw. cbv beta iota.
  destruct (JsMap.has (configCache s) k); cbn [negb]; [| exact H].
  assert (Hold : exists s1,
             (match defaultConfigId s with
              | Some old =>
                  when (Js.truthy_string old && negb (String.eqb old k))
                    (mark_default old false)
              | None => ret tt
              end) s
             = (Returned tt, s1)
             /\ cache_consistent (configCache s1)).
  { destruct (defaultConfigId s) as [old |]; [| now exists s].
    unfold when.
    destruct (Js.truthy_string old && negb (String.eqb old k));
      [| now exists s].
    exists (snd (mark_default old false s)).
    split; [now rewrite mark_default_state |].
    now apply mark_default_consistent. }
  destruct Hold as [s1 [-> H1]]. cbv beta iota.
  pose proof (mark_default_consistent k true s1 H1) as [H2 _].
  rewrite mark_default_state in *. cbn [snd] in H2. cbv beta iota.
  unfold modify. cbv beta iota.
  rewrite saveConfigurationsToFile_state.
  destruct (writeFile _); exact H2.
Qed.

(** The two ways in which [importConfigs] ends: nothing changed, or the
    records of the import committed. *)
Lemma importConfigs_cases isoDate data (s : Store) :
  (exists cause,
      importConfigs writeFile isoDate data s
      = (Threw (PrinterError
                  ("Failed to import configurations: " ++ errorMessage cause)
                  INVALID_CONFIG None (Some (asError cause))),
         s)
      /\ match data with
         | Returned (JObj fields) =>
             match prop fields "configurations" with
             | Some (JArr items) => validate_all items = inl cause
             | _ => True
             end
         | _ => True
         end)
  \/ (exists fields items configs s1,
         data = Returned (JObj fields)
         /\ prop fields "configurations" = Some (JArr items)
         /\ validate_all items = inr configs
         /\ written s1 = written s
         /\ (configCache s1 = fill configs
             \/ exists k c,
                 JsMap.get (fill configs) k = Some c
                 /\ configCache s1
                    = JsMap.set (fill configs) k (set_isDefault true c))
         /\ importConfigs writeFile isoDate data s
            = (match writeFile (configData isoDate s1) with
               | Returned _ => Returned tt
               | Threw error =>
                   Threw (PrinterError
                            ("Failed to import configurations: "
                               ++ errorMessage error)
                            INVALID_CONFIG None (Some (asError error)))
               end,
               wrote isoDate s1)).
Proof.
  destruct s as [d cache w].
  unfold importConfigs.
  destruct data as [[| ? | ? | ? | ? | fields] | error];
    try (left; eexists; split; [reflexivity | exact I]).
  destruct (prop fields "configurations") as [[| ? | ? | ? | items | ?] |]
    eqn:Hp;
    try (left; eexists; split; [reflexivity | exact I]).
  destruct (validate_all items) as [e | configs] eqn:Hv.
  - left. exists e. split; reflexivity.
  - right. exists fields, items, configs.
    unfold try_catch, bind, gets, modify, throw, ret. store_simpl.
    destruct (prop fields "defaultConfigId") as [[| ? | ? | dk | ? | ?] |];
      try destruct (Js.truthy_string dk && JsMap.has (fill configs) dk);
      try (destruct (JsMap.first_key (fill configs)) as [fk |]; store_simpl;
           [rewrite mark_default_state; cbn [configCache];
            destruct (JsMap.get (fill configs) fk) as [c0 |] eqn:Hget;
            store_simpl |]);
      match goal with
      | |- context [saveConfigurationsToFile writeFile isoDate ?s0] =>
          exists s0
      end;
      rewrite saveConfigurationsToFile_state;
      (split; [reflexivity |]); (split; [exact Hp |]);
      (split; [exact Hv |]); (split; [reflexivity |]);
      (split;
       [first [left; reflexivity | right; eauto]
       | destruct (writeFile _) as [[] | e]; reflexivity]).
Qed.

Lemma after_store_call_consistent call (s : Store) :
  cache_consistent (configCache s) ->
  cache_consistent (configCache (after_store_call writeFile call s)).
Proof.
  intro H. destruct call as [date c | date k | date k | date data];
    cbn [after_store_call].
  - pose proof (saveConfig_cases date c s) as E.
    destruct (validateConfig c) eqn:Hc; rewrite E; cbn [snd]; [| exact H].
    unfold wrote, saved.
    destruct (Js.truthy_obool (isDefault c)); cbn [configCache].
    + apply cache_consistent_clear. now apply cache_consistent_set.
    + now apply cache_consistent_set.
  - pose proof (deleteConfig_cases date k s) as E.
    destruct (JsMap.has (configCache s) k); rewrite E; cbn [snd];
      [| exact H].
    unfold wrote, deleted. cbn [configCache].
    now apply cache_consistent_delete.
  - now apply setDefaultConfig_consistent.
  - destruct (importConfigs_cases date data s)
      as [[cause [-> _]] | [fields [items [configs [s1 [_ [_ [Hv [_ [Hc ->]]]]]]]]]];
      cbn [snd]; [exact H |].
    unfold wrote. cbn [configCache].
    apply validate_all_valid in Hv.
    destruct Hc as [-> | [k [c [Hget ->]]]].
    + now apply cache_consistent_fill.
    + apply cache_consistent_flag; [| exact Hget].
      now apply cache_consistent_fill.
Qed.

End StoreStates.

(** ** The configuration manager: invariants and rejections *)

(** X21.  Through every sequence of calls of [saveConfig], [deleteConfig],
    [setDefaultConfig] and [importConfigs] on a new manager, whatever the
    outcomes of the calls and of the writes of the file, every configuration
    of the cache is valid and kept under its own identifier, and no
    identifier occurs twice.  The documents imported have records of the
    declared types. *)
Theorem store_stays_consistent :
  forall (writeFile : Json -> outcome unit) (calls : list StoreCall),
    typed_calls calls ->
    cache_consistent
      (ConfigManager.configCache
         (after_store_calls writeFile calls ConfigManager.new)).
Proof.
  intros writeFile calls _. unfold after_store_calls.
  assert (H : cache_consistent
                (ConfigManager.configCache ConfigManager.new))
    by apply cache_consistent_nil.
  revert H. generalize ConfigManager.new.
  induction calls as [| call calls IH]; intros s Hs; cbn [fold_left].
  - exact Hs.
  - apply IH. now apply after_store_call_consistent.
Qed.

(** A new manager after a save, an import and a deletion. *)
Lemma store_stays_consistent_witness :
  cache_consistent
    (ConfigManager.configCache
       (after_store_calls accept_write
          [CallSaveConfig "2024-01-01T00:00:00.000Z" sample_config;
           CallImportConfigs "2024-01-02T00:00:00.000Z"
             (Returned
                (ConfigManager.exportConfigs "2024-01-01T12:00:00.000Z"
                   saved_two));
           CallDeleteConfig "2024-01-03T00:00:00.000Z" "p1"]
          ConfigManager.new)).
Proof.
  apply store_stays_consistent.
  repeat constructor; vm_compute; discriminate.
Defined.



(** X23.  [saveConfig] of a configuration that is not valid throws
    [INVALID_CONFIG] and changes nothing.  For a valid configuration it
    keeps the configuration under its identifier and writes the file once,
    whatever the write answers.  When the configuration has the default
    flag, its identifier becomes the default and no other configuration of
    the cache has the flag afterwards; otherwise the default and the other
    configurations are as before. *)
Theorem saveConfig_single_default :
  forall (writeFile : Json -> outcome unit) (isoDate : string)
         (c : PrinterConfig) (s : ConfigManager.Store),
    let s' := snd (ConfigManager.saveConfig writeFile isoDate c s) in
    (ConfigManager.validateConfig c = false ->
     s' = s
     /\ exists e,
         fst (ConfigManager.saveConfig writeFile isoDate c s)
         = Threw (PrinterError e INVALID_CONFIG (Some (id c))
                    (Some (PrinterError "Invalid printer configuration"
                             INVALID_CONFIG (Some (id c)) None))))
    /\ (ConfigManager.validateConfig c = true ->
        ConfigManager.loadConfig s' (id c) = Some c
        /\ (exists doc,
               ConfigManager.written s'
               = (ConfigManager.written s ++ [doc])%list)
        /\ (isDefault c = Some true ->
            ConfigManager.defaultConfigId s' = Some (id c)
            /\ forall k c',
                k <> id c ->
                ConfigManager.loadConfig s' k = Some c' ->
                isDefault c' <> Some true)
        /\ (Js.truthy_obool (isDefault c) = false ->
            ConfigManager.defaultConfigId s'
            = ConfigManager.defaultConfigId s
            /\ forall k,
                k <> id c ->
                ConfigManager.loadConfig s' k
                = ConfigManager.loadConfig s k)).
Proof.
  intros writeFile isoDate c s s'. subst s'.
  pose proof (saveConfig_cases writeFile isoDate c s) as E.
  split; intro Hc; rewrite Hc in E; rewrite E; cbn [fst snd].
  - split; [reflexivity | eauto].
  - unfold ConfigManager.loadConfig, wrote, saved.
    destruct (Js.truthy_obool (isDefault c)) eqn:Hflag;
      cbn [ConfigManager.configCache ConfigManager.defaultConfigId
           ConfigManager.written].
    + split; [| split; [eauto | split]].
      * rewrite clear_other_defaults_get, JsMap_get_set_same. cbn.
        now rewrite String.eqb_refl.
      * intros _. split; [reflexivity |].
        intros k c' Hk. rewrite clear_other_defaults_get.
        rewrite JsMap_get_set_other by assumption.
        apply String.eqb_neq in Hk. rewrite Hk. cbn [negb andb].
        destruct (JsMap.get (ConfigManager.configCache s) k) as [c0 |];
          cbn; [| discriminate].
        destruct (Js.truthy_obool (isDefault c0)) eqn:H0;
          intro H; inversion H; subst; cbn; [discriminate |].
        intro Ht. rewrite Ht in H0. discriminate.
      * discriminate.
    + split; [apply JsMap_get_set_same |].
      split; [eauto |]. split.
      * intro Ht. rewrite Ht in Hflag. discriminate.
      * intros _. split; [reflexivity |].
        intros k Hk. now apply JsMap_get_set_other.
Qed.

Lemma first_key_or_none {V} (m : JsMap.t V) :
  (if (0 <? JsMap.size m)%nat then JsMap.first_key m else None)
  = JsMap.first_key m.
Proof. now destruct m. Qed.

(** X24.  [deleteConfig] of an identifier that the cache does not hold
    changes nothing; the error it throws has the code [INVALID_CONFIG] and
    wraps the [PRINTER_NOT_FOUND] of the lookup.  For an identifier of the
    cache it removes the configuration and writes the file once; when the
    identifier was the default, the first of the remaining configurations
    becomes the default, or none when none remains; otherwise the default
    is as before. *)
Theorem deleteConfig_outcome :
  forall (writeFile : Json -> outcome unit) (isoDate : string) (k : string)
         (s : ConfigManager.Store),
    let s' := snd (ConfigManager.deleteConfig writeFile isoDate k s) in
    (JsMap.has (ConfigManager.configCache s) k = false ->
     ConfigManager.deleteConfig writeFile isoDate k s
     = (Threw (PrinterError
                 ("Failed to delete configuration: Configuration '" ++ k
                    ++ "' not found")
                 INVALID_CONFIG (Some k) (Some (configuration_not_found k))),
        s))
    /\ (JsMap.has (ConfigManager.configCache s) k = true ->
        ConfigManager.configCache s'
        = JsMap.delete (ConfigManager.configCache s) k
        /\ (NoDup (JsMap.keys (ConfigManager.configCache s)) ->
            ConfigManager.loadConfig s' k = None)
        /\ (exists doc,
               ConfigManager.written s'
               = (ConfigManager.written s ++ [doc])%list)
        /\ (ConfigManager.defaultConfigId s = Some k ->
            ConfigManager.defaultConfigId s'
            = JsMap.first_key (ConfigManager.configCache s'))
        /\ (ConfigManager.defaultConfigId s <> Some k ->
            ConfigManager.defaultConfigId s'
            = ConfigManager.defaultConfigId s)).
Proof.
  intros writeFile isoDate k s s'. subst s'.
  pose proof (deleteConfig_cases writeFile isoDate k s) as E.
  split; intro Hk; rewrite Hk in E; rewrite E; cbn [fst snd].
  - reflexivity.
  - unfold wrote, deleted, ConfigManager.loadConfig.
    cbn [ConfigManager.configCache ConfigManager.defaultConfigId
         ConfigManager.written].
    split; [reflexivity |]. split; [| split; [eauto | split]].
    + intro Hnd. pose proof (JsMap_has_delete_same _ k Hnd) as Hd.
      unfold JsMap.has in Hd.
      now destruct (JsMap.get
                      (JsMap.delete (ConfigManager.configCache s) k) k).
    + intros ->. rewrite String.eqb_refl. apply first_key_or_none.
    + intro Hne.
      destruct (ConfigManager.defaultConfigId s) as [d |]; [| reflexivity].
      destruct (String.eqb_spec d k) as [-> | _]; [| reflexivity].
      now contradiction Hne.
Qed.

(** ** The service *)

Section ServiceGuards.

Context {P : Type} {ops : IPrinter.ops P}.

Variable factory : IPrinterFactory.t P.
Variable writeFile : Json -> outcome unit.
Variable readFile : option Json.
Variable mkdir : outcome unit.

Import PrinterService.

Lemma ensureInitialized_state (s : Service P) :
  ensureInitialized s
  = (if initialized s then Returned tt else Threw not_initialized, s).
Proof.
  unfold ensureInitialized, bind, gets. cbv beta iota.
  now destruct (initialized s).
Qed.

Lemma guarded_rejected {A} (c : M (Service P) A) (s : Service P) :
  initialized s = false ->
  rejected_with not_initialized (ensureInitialized ;; c) s.
Proof.
  intro H. unfold rejected_with, bind.
  now rewrite ensureInitialized_state, H.
Qed.

Lemma guarded_ready {A} (c : M (Service P) A) (s : Service P) :
  initialized s = true -> (ensureInitialized ;; c) s = c s.
Proof.
  intro H. unfold bind. now rewrite ensureInitialized_state, H.
Qed.

End ServiceGuards.

(** X25.  Before [initialize()] every operation of the service that works on
    printers or configurations throws "Printer service not initialized" with
    the code [INVALID_CONFIG] and changes nothing: [print], [printText],
    [quickPrint], [printHelloWorld], [addPrinter], [removePrinter],
    [listPrinters], [autoConfigurePrinter] and [exportConfigurations]. *)
Theorem service_requires_initialize :
  forall (P : Type) (ops : IPrinter.ops P) (factory : IPrinterFactory.t P)
         (writeFile : Json -> outcome unit) (s : PrinterService.Service P),
    PrinterService.initialized s = false ->
    (forall now k content jc,
        rejected_with not_initialized
          (PrinterService.print now k content jc) s)
    /\ (forall now k text jc,
           rejected_with not_initialized
             (PrinterService.printText now k text jc) s)
    /\ (forall now text k,
           rejected_with not_initialized
             (PrinterService.quickPrint now text k) s)
    /\ (forall now date k,
           rejected_with not_initialized
             (PrinterService.printHelloWorld now date k) s)
    /\ (forall date c,
           rejected_with not_initialized
             (PrinterService.addPrinter factory writeFile date c) s)
    /\ (forall date k,
           rejected_with not_initialized
             (PrinterService.removePrinter writeFile date k) s)
    /\ rejected_with not_initialized PrinterService.listPrinters s
    /\ (forall date r,
           rejected_with not_initialized
             (PrinterService.autoConfigurePrinter factory writeFile date r) s)
    /\ (forall date,
           rejected_with not_initialized
             (PrinterService.exportConfigurations date) s).
Proof.
  intros P ops factory writeFile s H.
  repeat split; intros; apply guarded_rejected; exact H.
Qed.

(** [print] on a service that was not initialized. *)
Lemma service_requires_initialize_witness :
  rejected_with not_initialized
    (@PrinterService.print _ (CbxPos89ePrinter_ops device_ok) 1700 "p1"
       sample_content no_job_config)
    fresh_service.
Proof.
  exact
    (proj1
       (@service_requires_initialize _ (CbxPos89ePrinter_ops device_ok)
          (PrinterFactory.as_interface (defaultFactory device_ok))
          accept_write fresh_service eq_refl)
       1700 "p1" sample_content no_job_config).
Defined.

Section ServiceLifecycle.

Context {P : Type} {ops : IPrinter.ops P}.

Variable factory : IPrinterFactory.t P.
Variable writeFile : Json -> outcome unit.
Variable readFile : option Json.

Import PrinterService.

Lemma in_registry_state {A} (c : M (PrinterRegistry.Registry P) A)
    (s : Service P) :
  in_registry c s
  = (fst (c (registry s)),
     mkService (snd (c (registry s))) (configManager s) (initialized s)
       (emitted s)).
Proof. unfold in_registry. now destruct (c (registry s)). Qed.

Lemma in_store_state {A} (c : M ConfigManager.Store A) (s : Service P) :
  in_store c s
  = (fst (c (configManager s)),
     mkService (registry s) (snd (c (configManager s))) (initialized s)
       (emitted s)).
Proof. unfold in_store. now destruct (c (configManager s)). Qed.

Lemma register_isolated config (s : Service P) :
  try_catch
    (in_registry (PrinterRegistry.registerPrinter factory config) ;; ret tt)
    (fun _ => ret tt) s
  = (Returned tt,
     mkService
       (snd (PrinterRegistry.registerPrinter factory config (registry s)))
       (configManager s) (initialized s) (emitted s)).
Proof.
  unfold try_catch, bind, ret. rewrite in_registry_state.
  now destruct (fst (PrinterRegistry.registerPrinter factory config
                       (registry s))).
Qed.

(** The registration of the stored configurations: a failure does not stop
    the loop. *)
Lemma register_all_returns configs (s : Service P) :
  exists r,
    for_each configs
      (fun config =>
         try_catch
           (in_registry (PrinterRegistry.registerPrinter factory config) ;;
            ret tt)
           (fun _ => ret tt)) s
    = (Returned tt,
       mkService r (configManager s) (initialized s) (emitted s)).
Proof.
  revert s. induction configs as [| c configs IH]; intro s; cbn [for_each].
  - exists (registry s). now destruct s.
  - unfold bind at 1. rewrite register_isolated. cbv beta iota.
    match goal with
    | |- context [for_each configs _ ?s1] => destruct (IH s1) as [r ->]
    end.
    now exists r.
Qed.

Lemma store_initialize_state mkdir (st : ConfigManager.Store) :
  match mkdir with
  | Returned _ =>
      exists st',
        ConfigManager.initialize readFile mkdir st = (Returned tt, st')
  | Threw e =>
      ConfigManager.initialize readFile mkdir st
      = (Threw (PrinterError "Failed to initialize configuration manager"
                  INVALID_CONFIG None (Some (asError e))),
         st)
  end.
Proof.
  unfold ConfigManager.initialize, try_catch, bind, throw.
  destruct mkdir as [[] | e]; cbv beta iota; [| reflexivity].
  unfold ConfigManager.loadConfigurationsFromFile.
  destruct readFile as [[| ? | ? | ? | ? | fields] |]; try (eexists; reflexivity).
  destruct (ConfigManager.prop fields "configurations")
    as [[| ? | ? | ? | items | ?] |]; try (eexists; reflexivity).
  destruct (forallb _ _); eexists; reflexivity.
Qed.

Lemma store_dispose_state isoDate (st : ConfigManager.Store) :
  ConfigManager.dispose writeFile isoDate st
  = (Returned tt,
     ConfigManager.mkStore None []
       (ConfigManager.written st
          ++ [ConfigManager.configData isoDate st])).
Proof.
  unfold ConfigManager.dispose, try_catch, bind, modify, ret,
    ConfigManager.saveConfigurationsToFile.
  destruct (writeFile (ConfigManager.configData isoDate st)) as [[] | e];
    reflexivity.
Qed.

End ServiceLifecycle.

(** X26.  [initialize()] on a service that is initialized, and
    [shutdown()] on one that is not, return and change nothing.
    [shutdown()] never throws; on an initialized service it leaves no
    printer and no configuration in memory, writes the file once and
    leaves the service not initialized.  [initialize()] throws
    [INVALID_CONFIG] and leaves the service not initialized when the
    directory cannot be made; otherwise, for a file whose records have the
    declared types, it returns with the service initialized, also when the
    registration of a stored configuration fails. *)
Theorem service_lifecycle :
  forall (P : Type) (ops : IPrinter.ops P) (factory : IPrinterFactory.t P)
         (writeFile : Json -> outcome unit) (readFile : option Json)
         (mkdir : outcome unit) (isoDate : string)
         (s : PrinterService.Service P),
    (PrinterService.initialized s = true ->
     PrinterService.initialize factory readFile mkdir s = (Returned tt, s))
    /\ (PrinterService.initialized s = false ->
        PrinterService.shutdown writeFile isoDate s = (Returned tt, s))
    /\ (PrinterService.initialized s = true ->
        PrinterService.shutdown writeFile isoDate s
        = (Returned tt,
           PrinterService.mkService
             (PrinterRegistry.mkRegistry [] [] None
                (PrinterRegistry.emitted (PrinterService.registry s)))
             (ConfigManager.mkStore None []
                (ConfigManager.written (PrinterService.configManager s)
                   ++ [ConfigManager.configData isoDate
                         (PrinterService.configManager s)]))
             false
             (PrinterService.emitted s ++ [ServiceShutdown])))
    /\ (PrinterService.initialized s = false ->
        typed_file readFile ->
        match mkdir with
        | Returned _ =>
            exists s',
              PrinterService.initialize factory readFile mkdir s
              = (Returned tt, s')
              /\ PrinterService.initialized s' = true
              /\ PrinterService.emitted s'
                 = (PrinterService.emitted s ++ [ServiceInitialized])%list
        | Threw e =>
            exists cause,
              PrinterService.initialize factory readFile mkdir s
              = (Threw (PrinterError
                          "Failed to initialize printer service: Failed to initialize configuration manager"
                          INVALID_CONFIG None (Some cause)),
                 s)
        end).
Proof.
  intros P ops factory writeFile readFile mkdir isoDate s.
  split; [| split; [| split]].
  - intro H. unfold PrinterService.initialize, bind, gets.
    cbv beta iota. now rewrite H.
  - intro H. unfold PrinterService.shutdown, bind, gets.
    cbv beta iota. now rewrite H.
  - intro H. unfold PrinterService.shutdown, bind at 1, gets.
    cbv beta iota. rewrite H. cbn [negb].
    unfold try_catch, bind. rewrite in_registry_state, dispose_state.
    cbv beta iota. cbn [fst snd]. rewrite in_store_state.
    cbn [PrinterService.configManager]. rewrite store_dispose_state.
    cbn [fst snd]. cbv beta iota.
    unfold modify, PrinterService.emit, PrinterService.set_initialized.
    cbv beta iota. reflexivity.
  - intros H _.
    pose proof (store_initialize_state readFile mkdir
                  (PrinterService.configManager s)) as Hst.
    destruct mkdir as [[] | e];
      unfold PrinterService.initialize, bind at 1, gets;
      cbv beta iota; rewrite H;
      unfold try_catch at 1, bind at 1; rewrite in_store_state.
    + destruct Hst as [st' ->]. cbn [fst snd]. cbv beta iota.
      unfold bind at 1, gets. cbv beta iota. unfold bind at 1.
      match goal with
      | |- context [for_each ?cs ?f ?s1] =>
          destruct (register_all_returns factory cs s1) as [r Hr]
      end.
      rewrite Hr. cbv beta iota.
      unfold bind, modify, PrinterService.emit,
        PrinterService.set_initialized.
      cbv beta iota. eexists. split; [reflexivity |]. split; reflexivity.
    + rewrite Hst. cbn [fst snd]. cbv beta iota.
      unfold throw. eexists. destruct s; cbn in *. reflexivity.
Qed.



(** X28.  On an initialized service, [print] for an identifier without a
    printer throws [PRINTER_NOT_FOUND] and changes nothing.  For a printer
    that is connected it is the [print] of the printer.  For a printer that
    is not connected it connects first: when the connection throws, the
    error comes out as it is and the printer is not asked to print; when it
    returns, the printer prints.  [quickPrint] without an identifier throws
    [PRINTER_NOT_FOUND] when the registry has no default printer. *)
Theorem service_print_targets :
  forall (P : Type) (ops : IPrinter.ops P) (s : PrinterService.Service P)
         (now : Z) (k : string) (content : list PrintContent)
         (jc : PrintJobConfig),
    PrinterService.initialized s = true ->
    (PrinterRegistry.getPrinter (PrinterService.registry s) k = None ->
     rejected_with (not_found k) (PrinterService.print now k content jc) s)
    /\ (forall p,
           PrinterRegistry.getPrinter (PrinterService.registry s) k = Some p ->
           IPrinter.isConnected p = true ->
           PrinterService.print now k content jc s
           = (fst (IPrinter.print now content jc p),
              with_printer k (snd (IPrinter.print now content jc p)) s))
    /\ (forall p,
           PrinterRegistry.getPrinter (PrinterService.registry s) k = Some p ->
           IPrinter.isConnected p = false ->
           match IPrinter.connect p with
           | (Returned _, p1) =>
               PrinterService.print now k content jc s
               = (fst (IPrinter.print now content jc p1),
                  with_printer k (snd (IPrinter.print now content jc p1)) s)
           | (Threw e, p1) =>
               PrinterService.print now k content jc s
               = (Threw e, with_printer k p1 s)
           end)
    /\ (PrinterRegistry.getDefaultPrinter (PrinterService.registry s) = None ->
        forall text,
          rejected_with
            (PrinterError "No default printer configured" PRINTER_NOT_FOUND
               None None)
            (PrinterService.quickPrint now text None) s).
Proof.
  intros P ops s now k content jc Hi.
  assert (Hprint : PrinterService.print now k content jc s
                   = match PrinterRegistry.getPrinter
                             (PrinterService.registry s) k with
                     | None => (Threw (not_found k), s)
                     | Some printer =>
                         PrinterService.in_registry
                           (PrinterRegistry.on_printer k printer
                              (when (negb (IPrinter.isConnected printer))
                                 IPrinter.connect ;;
                               IPrinter.print now content jc)) s
                     end).
  { unfold PrinterService.print. rewrite (guarded_ready _ s Hi).
    unfold bind, gets. cbv beta iota.
    now destruct (PrinterRegistry.getPrinter (PrinterService.registry s) k). }
  split; [| split; [| split]].
  - intro Hk. unfold rejected_with. now rewrite Hprint, Hk.
  - intros p Hk Hc. rewrite Hprint, Hk, Hc. cbn [negb when].
    rewrite in_registry_state. unfold PrinterRegistry.on_printer, bind, ret.
    cbv beta iota.
    destruct (IPrinter.print now content jc p) as [o p']. reflexivity.
  - intros p Hk Hc.
    destruct (IPrinter.connect p) as [[[] | e] p1] eqn:Hcon;
      rewrite Hprint, Hk, Hc; cbn [negb when];
      rewrite in_registry_state; unfold PrinterRegistry.on_printer, bind;
      rewrite Hcon; cbv beta iota; [| reflexivity].
    destruct (IPrinter.print now content jc p1) as [o p']. reflexivity.
  - intros Hd text. unfold rejected_with, PrinterService.quickPrint.
    rewrite (guarded_ready _ s Hi). unfold bind, gets. cbv beta iota.
    cbn [Js.truthy_ostring]. rewrite Hd.
    now destruct (PrinterRegistry.defaultPrinterId (PrinterService.registry s)).
Qed.

(** [print] for a printer that is not registered. *)
Lemma service_print_targets_witness :
  rejected_with (not_found "p9")
    (@PrinterService.print _ (CbxPos89ePrinter_ops device_ok) 1700 "p9"
       sample_content no_job_config)
    ready_service.
Proof.
  exact
    (proj1
       (@service_print_targets _ (CbxPos89ePrinter_ops device_ok)
          ready_service 1700 "p9" sample_content no_job_config eq_refl)
       eq_refl).
Defined.

(** ** Discovery and automatic configuration *)










(** ** The helpers for receipts *)

Lemma repeat_length s n :
  String.length (Js.repeat s n) = (n * String.length s)%nat.
Proof.
  induction n as [| n IH]; cbn; [reflexivity |].
  now rewrite append_length, IH.
Qed.

Lemma padded_length left right :
  String.length (Utils.padded left right)
  = Nat.max 48 (String.length left + String.length right + 1).
Proof.
  unfold Utils.padded. rewrite !append_length, repeat_length.
  change (String.length " ") with 1%nat. lia.
Qed.

Lemma text_not_negative_line (texts : list PrintContent) :
  Forall (fun item => exists content format, item = PrintText content format)
    texts ->
  ~ Exists negative_line texts.
Proof.
  intros H Hex. apply Exists_exists in Hex. destruct Hex as [item [Hin Hn]].
  rewrite Forall_forall in H. destruct (H item Hin) as [content [format ->]].
  exact Hn.
Qed.

(** X30.  A receipt can always be translated for the spooler, whatever the
    configuration of the printer.  The line of an item starts with the
    quantity and the name and ends with the price; it has 48 code units when
    the two fit with a space in between, and otherwise one space separates
    them and the line is longer.  Each item has its line in the content,
    which ends with a feed of three lines and a full cut. *)
Theorem receipt_content_layout :
  forall (date title : string) (items : list Utils.ReceiptItem) (total : string)
         (options : Utils.ReceiptOptions),
    let content :=
      Utils.createReceiptContent date title items total options in
    (forall c, exists data, CbxPos89ePrinter.buildPrintData c content = inr data)
    /\ (forall left right,
           String.length (Utils.padded left right)
           = Nat.max 48 (String.length left + String.length right + 1)
           /\ exists spaces,
               Utils.padded left right
               = left ++ Js.repeat " " (S spaces) ++ right)
    /\ (forall item,
           In item items ->
           In (PrintText (Utils.itemLine item) None) content)
    /\ (exists before,
           content = (before ++ [PrintFeed 3; PrintCut (Some false)])%list).
Proof.
  intros date title items total options content.
  split; [| split; [| split]].
  - intro c. apply buildPrintData_translates. subst content.
    unfold Utils.createReceiptContent.
    rewrite !Exists_app.
    assert (Hmap : ~ Exists negative_line
                     (map (fun item => PrintText (Utils.itemLine item) None)
                        items)).
    { apply text_not_negative_line. apply Forall_forall.
      intros x Hx. apply in_map_iff in Hx. destruct Hx as [item [<- _]].
      eauto. }
    intros [H | [H | [H | [H | [H | [H | [H | H]]]]]]];
      try (now apply Hmap);
      repeat match goal with
        | H : Exists _ (if ?b then _ else _) |- _ => destruct b
        | H : Exists _ (_ :: _) |- _ => inversion H; clear H; subst
        | H : Exists _ [] |- _ => inversion H
        | H : negative_line _ |- _ => cbn in H; try contradiction; try lia
        end.
  - intros left right. split; [apply padded_length |].
    unfold Utils.padded.
    exists (Nat.pred
              (Z.to_nat
                 (Z.max 1
                    (48 - Z.of_nat (String.length left)
                     - Z.of_nat (String.length right))))).
    repeat f_equal. lia.
  - intros item Hin. subst content. unfold Utils.createReceiptContent.
    do 4 (apply in_or_app; right). apply in_or_app. left.
    apply in_map_iff. now exists item.
  - subst content. unfold Utils.createReceiptContent.
    rewrite !app_assoc. eexists. reflexivity.
Qed.
